(** * auth-express-mysql: the MySQL session store, embedded and verified

    The development follows the class [AuthExpressStore]: its constructor
    and [sanitizeConfiguration], the connection helpers, [finalCallback]
    and the twelve repository operations.  The JavaScript platform
    ([typeof], [||], [JSON], [Date]) and the MySQL server are modelled as
    far as the store uses them. *)

From Stdlib Require Import ZArith String Ascii List Lia Bool ZifyBool.
From stdpp Require Import base option list gmap strings pretty fin_maps.

Set Warnings "-register-all".
Local Open Scope string_scope.
Local Open Scope Z_scope.

(** ** Calendar arithmetic behind [Date.prototype.toISOString] and
       [Date.parse] *)

Module Calendar.

(** Day number (days since 1970-01-01) to proleptic Gregorian
    (year, month, day); eras of 400 years start on 1 March. *)
Definition year_of_era (doe : Z) : Z :=
  (doe - doe / 1460 + doe / 36524 - doe / 146096) / 365.

Definition day_of_year (doe : Z) : Z :=
  let yoe := year_of_era doe in
  doe - (365 * yoe + yoe / 4 - yoe / 100).

Definition month_of (mp : Z) : Z := if mp <? 10 then mp + 3 else mp - 9.

Definition civil_from_days (days : Z) : Z * Z * Z :=
  let z := days + 719468 in
  let era := z / 146097 in
  let doe := z mod 146097 in
  let yoe := year_of_era doe in
  let doy := day_of_year doe in
  let mp := (5 * doy + 2) / 153 in
  let d := doy - (153 * mp + 2) / 5 + 1 in
  let m := month_of mp in
  (yoe + era * 400 + (if m <=? 2 then 1 else 0), m, d).

Definition days_from_civil (y m d : Z) : Z :=
  let y' := if m <=? 2 then y - 1 else y in
  let era := y' / 400 in
  let yoe := y' mod 400 in
  let mp := if 2 <? m then m - 3 else m + 9 in
  let doy := (153 * mp + 2) / 5 + d - 1 in
  let doe := yoe * 365 + yoe / 4 - yoe / 100 + doy in
  era * 146097 + doe - 719468.

(** What one era must satisfy for the two conversions to be inverse. *)
Definition era_day_ok (doe : Z) : bool :=
  let yoe := year_of_era doe in
  let doy := day_of_year doe in
  let mp := (5 * doy + 2) / 153 in
  let d := doy - (153 * mp + 2) / 5 + 1 in
  (0 <=? yoe) && (yoe <=? 399) && (0 <=? doy) && (0 <=? mp) && (mp <=? 11)
  && (1 <=? d) && (d <=? 31)
  && ((153 * mp + 2) / 5 + d - 1 =? doy).

Fixpoint all_from (n : nat) (z : Z) (p : Z -> bool) : bool :=
  match n with
  | O => true
  | S k => p z && all_from k (z + 1) p
  end.

(** Decimal digits of fixed width, as the ISO format prints them. *)
Definition digit (n : Z) : ascii := ascii_of_nat (Z.to_nat (48 + n mod 10)).

Fixpoint pad (w : nat) (n : Z) : string :=
  match w with
  | O => EmptyString
  | S w' => String (digit (n / 10 ^ Z.of_nat w')) (pad w' n)
  end.

Definition digit_value (c : ascii) : option Z :=
  let n := Z.of_nat (nat_of_ascii c) in
  if (48 <=? n) && (n <=? 57) then Some (n - 48) else None.

Fixpoint take_digits (w : nat) (acc : Z) (s : string) : option (Z * string) :=
  match w with
  | O => Some (acc, s)
  | S w' =>
      match s with
      | String c r =>
          match digit_value c with
          | Some d => take_digits w' (10 * acc + d) r
          | None => None
          end
      | EmptyString => None
      end
  end.

Definition expect (c : ascii) (s : string) : option string :=
  match s with
  | String c' r => if Ascii.eqb c c' then Some r else None
  | EmptyString => None
  end.

Definition ms_per_day : Z := 86400000.

(** The largest time value of a valid Date (ECMAScript TimeClip). *)
Definition max_time : Z := 8640000000000000.

Definition year_text (y : Z) : string :=
  if (0 <=? y) && (y <=? 9999) then pad 4 y
  else String (if y <? 0 then "-"%char else "+"%char) (pad 6 (Z.abs y)).

(** [Date.prototype.toISOString]: YYYY-MM-DDTHH:mm:ss.sssZ, with the
    signed six-digit year outside 0..9999. *)
Definition toISOString (t : Z) : string :=
  let ms := t mod ms_per_day in
  let '(y, m, d) := civil_from_days (t / ms_per_day) in
  (year_text y ++ "-" ++ pad 2 m ++ "-" ++ pad 2 d ++ "T"
   ++ pad 2 (ms / 3600000) ++ ":" ++ pad 2 (ms / 60000 mod 60) ++ ":"
   ++ pad 2 (ms / 1000 mod 60) ++ "." ++ pad 3 (ms mod 1000) ++ "Z")%string.

Definition take_year (s : string) : option (Z * string) :=
  match s with
  | String "+" r => take_digits 6 0 r
  | String "-" r =>
      match take_digits 6 0 r with
      | Some (y, r') => Some (- y, r')
      | None => None
      end
  | _ => take_digits 4 0 s
  end.

Definition parse_fields (s : string) : option Z :=
  '(y, s) ← take_year s;
  s ← expect "-" s;
  '(m, s) ← take_digits 2 0 s;
  s ← expect "-" s;
  '(d, s) ← take_digits 2 0 s;
  s ← expect "T" s;
  '(h, s) ← take_digits 2 0 s;
  s ← expect ":" s;
  '(mi, s) ← take_digits 2 0 s;
  s ← expect ":" s;
  '(sec, s) ← take_digits 2 0 s;
  s ← expect "." s;
  '(ms, s) ← take_digits 3 0 s;
  s ← expect "Z" s;
  match s with
  | EmptyString =>
      Some (days_from_civil y m d * ms_per_day
            + h * 3600000 + mi * 60000 + sec * 1000 + ms)
  | _ => None
  end.

(** The date-time strings recognised are those [toISOString] prints:
    the fields are read back and the text must be the canonical
    rendering of the time they denote. *)
Definition parse_iso (s : string) : option Z :=
  match parse_fields s with
  | Some t =>
      if String.eqb (toISOString t) s && (Z.abs t <=? max_time)
      then Some t else None
  | None => None
  end.

End Calendar.

(** ** The JavaScript values the store handles *)

Module JS.

(** Numbers are the integers and NaN; fractional values are outside
    the model. *)
Inductive number := Num (z : Z) | NaN.

Inductive value :=
| VUndefined
| VNull
| VBool (b : bool)
| VNum (n : number)
| VStr (s : string)
| VDate (t : option Z)                  (* [None]: an Invalid Date *)
| VFun (f : nat)                        (* a function, known by identity *)
| VArr (items : list value)
| VObj (fields : list (string * value)).

(** Exceptions the store's code can raise. *)
Inductive exn :=
| TypeError (msg : string)
| SyntaxError (msg : string)
| Error (msg : string).

Inductive completion (A : Type) :=
| Normal (a : A)
| Throw (e : exn).
Arguments Normal {A} a.
Arguments Throw {A} e.

Definition typeof (v : value) : string :=
  match v with
  | VUndefined => "undefined"
  | VNull => "object"
  | VBool _ => "boolean"
  | VNum _ => "number"
  | VStr _ => "string"
  | VDate _ => "object"
  | VFun _ => "function"
  | VArr _ => "object"
  | VObj _ => "object"
  end.

Definition truthy (v : value) : bool :=
  match v with
  | VUndefined | VNull => false
  | VBool b => b
  | VNum (Num z) => negb (z =? 0)
  | VNum NaN => false
  | VStr s => negb (String.eqb s "")
  | VDate _ | VFun _ | VArr _ | VObj _ => true
  end.

(** [a || b] *)
Definition or (a b : value) : value := if truthy a then a else b.

Fixpoint assoc {A : Type} (k : string) (l : list (string * A)) : option A :=
  match l with
  | [] => None
  | (k', x) :: rest => if String.eqb k' k then Some x else assoc k rest
  end.

(** Assignment to a property: the existing binding is replaced in
    place, a new one is added last. *)
Fixpoint assign {A : Type} (k : string) (x : A) (l : list (string * A))
  : list (string * A) :=
  match l with
  | [] => [(k, x)]
  | (k', y) :: rest =>
      if String.eqb k' k then (k, x) :: rest else (k', y) :: assign k x rest
  end.

(** [v.k] for the property names the store reads ([cookie], [expires],
    [passport], [user] and the names of the options): none of them is
    inherited by a primitive, an array, a date or a function, so only
    plain objects can hold them. *)
Definition member (v : value) (k : string) : completion value :=
  match v with
  | VUndefined =>
      Throw (TypeError ("Cannot read properties of undefined (reading '" ++ k ++ "')"))
  | VNull =>
      Throw (TypeError ("Cannot read properties of null (reading '" ++ k ++ "')"))
  | VObj fields => Normal (default VUndefined (assoc k fields))
  | _ => Normal VUndefined
  end.

(** [v?.k] *)
Definition optional_member (v : value) (k : string) : value :=
  match v with
  | VObj fields => default VUndefined (assoc k fields)
  | _ => VUndefined
  end.

(** [v.k = x] in strict-mode code (a class body): the object is updated
    in place; a primitive target raises.  Named properties added to an
    array, a date or a function are not represented. *)
Definition set_member (v : value) (k : string) (x : value) : completion value :=
  match v with
  | VUndefined =>
      Throw (TypeError ("Cannot set properties of undefined (setting '" ++ k ++ "')"))
  | VNull =>
      Throw (TypeError ("Cannot set properties of null (setting '" ++ k ++ "')"))
  | VBool _ | VNum _ | VStr _ =>
      Throw (TypeError ("Cannot create property '" ++ k ++ "' on a primitive"))
  | VObj fields => Normal (VObj (assign k x fields))
  | VDate _ | VFun _ | VArr _ => Normal v
  end.

(** *** JSON *)

(** A JSON document.  The text in the [data] column is modelled by the
    document it spells. *)
Inductive json :=
| JNull
| JBool (b : bool)
| JNum (z : Z)
| JStr (s : string)
| JArr (items : list json)
| JObj (fields : list (string * json)).

(** A column of text: either the spelling of a JSON document, or some
    text that is not JSON. *)
Inductive text :=
| JsonText (doc : json)
| NotJson.

(** SerializeJSONProperty: [None] is [undefined]. *)
Fixpoint serialize (v : value) : option json :=
  match v with
  | VUndefined | VFun _ => None
  | VNull => Some JNull
  | VBool b => Some (JBool b)
  | VNum (Num z) => Some (JNum z)
  | VNum NaN => Some JNull
  | VStr s => Some (JStr s)
  | VDate (Some t) => Some (JStr (Calendar.toISOString t))
  | VDate None => Some JNull
  | VArr items => Some (JArr (map (fun x => default JNull (serialize x)) items))
  | VObj fields =>
      Some (JObj (omap (fun kv => pair (fst kv) <$> serialize (snd kv)) fields))
  end.

(** [JSON.stringify(v)]: a text, or [undefined].  The values of this
    development are finite trees of the kinds above; for a session
    that contains itself or holds a BigInt the platform raises a
    TypeError instead, and no statement here speaks of such sessions. *)
Definition JSON_stringify (v : value) : option text := JsonText <$> serialize v.

Fixpoint revive (j : json) : value :=
  match j with
  | JNull => VNull
  | JBool b => VBool b
  | JNum z => VNum (Num z)
  | JStr s => VStr s
  | JArr items => VArr (map revive items)
  | JObj fields => VObj (map (fun kv => (fst kv, revive (snd kv))) fields)
  end.

(** [JSON.parse(x)] where [x] is a fetched text cell or [undefined]
    (a field the row does not have). *)
Definition JSON_parse (x : option text) : completion value :=
  match x with
  | Some (JsonText doc) => Normal (revive doc)
  | Some NotJson => Throw (SyntaxError "Unexpected token in JSON")
  | None => Throw (SyntaxError "undefined is not valid JSON")
  end.

(** *** Date *)

(** [Date.parse(v)].  The argument is converted to a string first: a
    Date object prints with a resolution of one second, so its
    milliseconds are dropped; [undefined], [null] and booleans print as
    words that are not dates.  Strings are recognised in the format of
    [toISOString]; the further formats the platform reads (other ISO
    forms, the RFC 2822 form, numbers printed as digit strings) yield
    NaN here, so that a NaN of this function says nothing about a
    string, and a Date is taken to print a year the platform reads
    back (which it does not before the year 100). *)
Definition Date_parse (v : value) : number :=
  match v with
  | VStr s =>
      match Calendar.parse_iso s with
      | Some t => Num t
      | None => NaN
      end
  | VDate (Some t) => Num (1000 * (t / 1000))
  | _ => NaN
  end.

(** [new Date(n)] *)
Definition new_Date (n : number) : value :=
  match n with
  | Num t => VDate (if Z.abs t <=? Calendar.max_time then Some t else None)
  | NaN => VDate None
  end.

(** [parseInt(s, 10)] on a string: leading blanks, an optional sign,
    then the longest run of digits; NaN without a digit. *)
Fixpoint digits_prefix (s : string) (acc : option Z) : option Z :=
  match s with
  | String c r =>
      match Calendar.digit_value c with
      | Some d => digits_prefix r (Some (10 * default 0 acc + d))
      | None => acc
      end
  | EmptyString => acc
  end.

Definition is_blank (c : ascii) : bool :=
  let n := nat_of_ascii c in
  ((9 <=? n)%nat && (n <=? 13)%nat) || (n =? 32)%nat.

Fixpoint skip_blanks (s : string) : string :=
  match s with
  | String c r => if is_blank c then skip_blanks r else s
  | EmptyString => s
  end.

Definition parseInt_string (s : string) : number :=
  let body := skip_blanks s in
  let '(neg, ds) :=
    match body with
    | String "-" r => (true, r)
    | String "+" r => (false, r)
    | _ => (false, body)
    end in
  match digits_prefix ds None with
  | Some z => Num (if neg then - z else z)
  | None => NaN
  end.

(** [parseInt(v, 10)].  The numbers of this development are integers
    and NaN; an integer of magnitude below 2^53 prints as its digits
    and is read back unchanged, which is what this definition answers
    for every integer; larger ones are read back differently (from 1e21
    on they print in exponent notation, 1e21 giving 1), so statements
    about a port carry that bound.  Other values print as text without
    a leading digit. *)
Definition parseInt (v : value) : number :=
  match v with
  | VStr s => parseInt_string s
  | VNum n => n
  | _ => NaN
  end.

End JS.

(** ** The session table on the MySQL server *)

Module MySQL.
Import JS.

(** The four column names of the session table, by role. *)
Record ColumnNames := mkColumnNames {
  c_sessionID : string;
  c_expires : string;
  c_data : string;
  c_user : string
}.

(** One record; the primary key is the key of the map that holds it.
    All four columns are declared [not null]. *)
Record Row := mkRow {
  r_expires : Z;
  r_data : text;
  r_user : string
}.

Record Table := mkTable {
  t_columns : ColumnNames;
  t_rows : gmap string Row
}.

Inductive dberror :=
| ECONNREFUSED            (* no connection to the server *)
| ER_NO_SUCH_TABLE
| ER_BAD_FIELD_ERROR      (* unknown column *)
| ER_BAD_NULL_ERROR       (* NULL for a not-null column, outside IGNORE *)
| ER_DUP_FIELDNAME
| ER_PARSE_ERROR.

(** The statements the store issues, with their bound parameters in the
    order of the [params] arrays. *)
Inductive Query :=
| SelectAllGe (table expiresCol : string) (now : Z)
    (* SELECT * FROM ?? WHERE ?? >= ? *)
| SelectAllLt (table expiresCol : string) (now : Z)
    (* SELECT * FROM ?? WHERE ?? < ? *)
| SelectCountGe (table expiresCol : string) (now : Z)
    (* SELECT COUNT( * ) AS LEN FROM ?? WHERE ?? >= ? *)
| SelectCountLt (table expiresCol : string) (now : Z)
    (* SELECT COUNT( * ) AS LEN FROM ?? WHERE ?? < ? *)
| Truncate (table : string)
    (* TRUNCATE ?? *)
| DeleteById (table idCol : string) (sessionID : string)
    (* DELETE FROM ?? WHERE ?? = ? *)
| DeleteByUser (table userCol : string) (user : string)
    (* DELETE FROM ?? WHERE ?? = ? *)
| DeleteLt (table expiresCol : string) (now : Z)
    (* DELETE FROM ?? WHERE ?? < ? *)
| SelectData (dataCol table idCol : string) (sessionID : string)
             (expiresCol : string) (now : Z)
    (* SELECT ?? FROM ?? WHERE ?? = ? AND ?? >= ? *)
| InsertIgnore (table idCol dataCol expiresCol userCol : string)
               (sessionID : string) (sessionData : option text)
               (expires : number) (user : value)
    (* INSERT IGNORE INTO ?? (??, ??, ??, ??) VALUES (?, ?, ?, ?) *)
| Update (table dataCol : string) (sessionData : option text)
         (expiresCol : string) (expires : number)
         (idCol : string) (sessionID : string)
    (* UPDATE ?? SET ?? = ?, ?? = ? WHERE ?? = ? *)
| CreateTableIfNotExists (table idCol expiresCol dataCol userCol : string).
    (* CREATE TABLE IF NOT EXISTS ?? (?? varchar(128) primary key not null,
         ?? bigint not null, ?? mediumtext not null, ?? varchar(255) not null) *)

Inductive cell := CNum (z : Z) | CStr (s : string) | CText (t : text).

(** A fetched row as the client hands it over: field name and cell, in
    column order. *)
Definition RowObject := list (string * cell).

Inductive result :=
| FullRows (rows : list RowObject)          (* SELECT * *)
| DataRows (rows : list (string * text))    (* SELECT of the one data column *)
| CountRow (len : Z)                        (* [ { LEN: len } ] *)
| OkPacket (affectedRows : nat).

Definition row_object (cols : ColumnNames) (kv : string * Row) : RowObject :=
  [ (c_sessionID cols, CStr kv.1);
    (c_expires cols, CNum (r_expires kv.2));
    (c_data cols, CText (r_data kv.2));
    (c_user cols, CStr (r_user kv.2)) ].

Definition unexpired (now : Z) (rows : gmap string Row) : gmap string Row :=
  filter (fun kv => now <= r_expires kv.2) rows.

Definition expired (now : Z) (rows : gmap string Row) : gmap string Row :=
  filter (fun kv => r_expires kv.2 < now) rows.

(** How the client and the server turn the bound user reference into the
    text of a [varchar not null] column under INSERT IGNORE: NULL (from
    [undefined] or [null]) is replaced by the implicit default, the
    empty string, with a warning; numbers and booleans are stored as
    their text.  Objects and functions are rendered by the client as
    something other than one scalar literal and are answered with a
    parse error; a bare NaN is an unknown column.  Dates and arrays,
    which the client renders as quoted literals in a format of its own,
    are answered here with a parse error as well: statements about the
    stored user take a user for which this function gives a text. *)
Definition user_cell (v : value) : dberror + string :=
  match v with
  | VUndefined | VNull => inr EmptyString
  | VStr s => inr s
  | VNum (Num z) =>
      inr (pretty z)
  | VNum NaN => inl ER_BAD_FIELD_ERROR
  | VBool b => inr (if b then "1" else "0")
  | VDate _ | VFun _ | VArr _ | VObj _ => inl ER_PARSE_ERROR
  end.

Definition distinct_columns (a b c d : string) : bool :=
  bool_decide (NoDup [a; b; c; d]).

(** One statement against the tables of the database.  Column names are
    checked against the table by role.  Values are assumed to fit their
    columns; strings compare exactly.  INSERT IGNORE turns the errors of
    the row into warnings, as MySQL documents for the IGNORE keyword: a
    duplicate key leaves the stored row in place, and NULL for a
    not-null column stores the column's implicit default.  UPDATE has
    no IGNORE and rejects a NULL. *)
Definition exec (q : Query) (db : gmap string Table)
  : (dberror + result) * gmap string Table :=
  let on (table : string) (named : ColumnNames -> bool)
         (k : Table -> (dberror + result) * gmap string Table) :=
    match db !! table with
    | None => (inl ER_NO_SUCH_TABLE, db)
    | Some t => if named (t_columns t) then k t else (inl ER_BAD_FIELD_ERROR, db)
    end in
  let put (table : string) (t : Table) (rows : gmap string Row) :=
    <[table := mkTable (t_columns t) rows]> db in
  match q with
  | SelectAllGe table expiresCol now =>
      on table (fun c => String.eqb expiresCol (c_expires c)) (fun t =>
        (inr (FullRows (row_object (t_columns t)
                          <$> map_to_list (unexpired now (t_rows t)))), db))
  | SelectAllLt table expiresCol now =>
      on table (fun c => String.eqb expiresCol (c_expires c)) (fun t =>
        (inr (FullRows (row_object (t_columns t)
                          <$> map_to_list (expired now (t_rows t)))), db))
  | SelectCountGe table expiresCol now =>
      on table (fun c => String.eqb expiresCol (c_expires c)) (fun t =>
        (inr (CountRow (Z.of_nat (size (unexpired now (t_rows t))))), db))
  | SelectCountLt table expiresCol now =>
      on table (fun c => String.eqb expiresCol (c_expires c)) (fun t =>
        (inr (CountRow (Z.of_nat (size (expired now (t_rows t))))), db))
  | Truncate table =>
      on table (fun _ => true) (fun t => (inr (OkPacket 0), put table t ∅))
  | DeleteById table idCol sessionID =>
      on table (fun c => String.eqb idCol (c_sessionID c)) (fun t =>
        match t_rows t !! sessionID with
        | Some _ => (inr (OkPacket 1), put table t (delete sessionID (t_rows t)))
        | None => (inr (OkPacket 0), db)
        end)
  | DeleteByUser table userCol user =>
      on table (fun c => String.eqb userCol (c_user c)) (fun t =>
        let gone := filter (fun kv => r_user kv.2 = user) (t_rows t) in
        (inr (OkPacket (size gone)),
         put table t (filter (fun kv => r_user kv.2 <> user) (t_rows t))))
  | DeleteLt table expiresCol now =>
      on table (fun c => String.eqb expiresCol (c_expires c)) (fun t =>
        (inr (OkPacket (size (expired now (t_rows t)))),
         put table t (unexpired now (t_rows t))))
  | SelectData dataCol table idCol sessionID expiresCol now =>
      on table (fun c => String.eqb dataCol (c_data c)
                         && String.eqb idCol (c_sessionID c)
                         && String.eqb expiresCol (c_expires c)) (fun t =>
        match t_rows t !! sessionID with
        | Some r =>
            if bool_decide (now <= r_expires r)
            then (inr (DataRows [(dataCol, r_data r)]), db)
            else (inr (DataRows []), db)
        | None => (inr (DataRows []), db)
        end)
  | InsertIgnore table idCol dataCol expiresCol userCol
                 sessionID sessionData expires user =>
      on table (fun c => String.eqb idCol (c_sessionID c)
                         && String.eqb dataCol (c_data c)
                         && String.eqb expiresCol (c_expires c)
                         && String.eqb userCol (c_user c)) (fun t =>
        match expires, user_cell user with
        | NaN, _ => (inl ER_BAD_FIELD_ERROR, db)
        | Num _, inl e => (inl e, db)
        | Num e, inr u =>
            match t_rows t !! sessionID with
            | Some _ => (inr (OkPacket 0), db)
            | None =>
                (inr (OkPacket 1),
                 put table t (<[sessionID := mkRow e (default NotJson sessionData) u]>
                                (t_rows t)))
            end
        end)
  | Update table dataCol sessionData expiresCol expires idCol sessionID =>
      on table (fun c => String.eqb dataCol (c_data c)
                         && String.eqb expiresCol (c_expires c)
                         && String.eqb idCol (c_sessionID c)) (fun t =>
        match expires, sessionData with
        | NaN, _ => (inl ER_BAD_FIELD_ERROR, db)
        | Num _, None => (inl ER_BAD_NULL_ERROR, db)
        | Num e, Some d =>
            match t_rows t !! sessionID with
            | Some r =>
                (inr (OkPacket 1),
                 put table t (<[sessionID := mkRow e d (r_user r)]> (t_rows t)))
            | None => (inr (OkPacket 0), db)
            end
        end)
  | CreateTableIfNotExists table idCol expiresCol dataCol userCol =>
      match db !! table with
      | Some _ => (inr (OkPacket 0), db)
      | None =>
          if distinct_columns idCol expiresCol dataCol userCol
          then (inr (OkPacket 0),
                <[table := mkTable (mkColumnNames idCol expiresCol dataCol userCol) ∅]> db)
          else (inl ER_DUP_FIELDNAME, db)
      end
  end.

End MySQL.

(** ** The store *)

Module AuthExpressStore.
Import JS MySQL.

(** *** Configuration *)

Record DatabaseConfig := mkDatabaseConfig {
  host : string;
  port : number;
  user : string;
  password : string;
  database : string
}.

Record Settings := mkSettings {
  databaseConfig : DatabaseConfig;
  tableName : string;
  columnNames : ColumnNames
}.

Definition databaseDefaults : DatabaseConfig :=
  {| host := "localhost";
     port := Num 3306;
     user := "auth_express_mysql_test_user";
     password := "password123456";
     database := "auth_express_mysql_testing" |}.

Definition schemaDefaults : string * ColumnNames :=
  ("SESSIONS",
   {| c_sessionID := "SESSION_ID"; c_expires := "EXPIRES";
      c_data := "DATA"; c_user := "USER" |}).

(** [process.env]: each variable is a string or not set. *)
Record Env := mkEnv {
  HOST : option string;
  DATABASE_PORT : option string;
  DATABASE_USER : option string;
  DATABASE_PASSWORD : option string;
  DATABASE_NAME : option string
}.

Definition env_value (x : option string) : value :=
  match x with
  | Some s => VStr s
  | None => VUndefined
  end.

(** [this.settings] as the constructor fills it, before any check: every
    entry is whatever value the cascade selected. *)
Record RawSettings := mkRawSettings {
  raw_host : value;
  raw_port : value;
  raw_user : value;
  raw_password : value;
  raw_database : value;
  raw_tableName : value;
  raw_columnNames : list (string * value)
}.

Definition resolve (env : Env) (configOptions : value) : RawSettings :=
  let columns := optional_member configOptions "columnNames" in
  {| raw_host :=
       JS.or (env_value (HOST env))
         (JS.or (optional_member configOptions "host") (VStr (host databaseDefaults)));
     raw_port :=
       JS.or (VNum (parseInt (env_value (DATABASE_PORT env))))
         (JS.or (optional_member configOptions "port") (VNum (port databaseDefaults)));
     raw_user :=
       JS.or (env_value (DATABASE_USER env))
         (JS.or (optional_member configOptions "user") (VStr (user databaseDefaults)));
     raw_password :=
       JS.or (env_value (DATABASE_PASSWORD env))
         (JS.or (optional_member configOptions "password")
            (VStr (password databaseDefaults)));
     raw_database :=
       JS.or (env_value (DATABASE_NAME env))
         (JS.or (optional_member configOptions "database")
            (VStr (database databaseDefaults)));
     raw_tableName :=
       JS.or (optional_member configOptions "tableName") (VStr (schemaDefaults.1));
     raw_columnNames :=
       [ ("sessionID", JS.or (optional_member columns "sessionID") (VStr "SESSION_ID"));
         ("expires", JS.or (optional_member columns "expires") (VStr "EXPIRES"));
         ("data", JS.or (optional_member columns "data") (VStr "DATA"));
         ("user", JS.or (optional_member columns "user") (VStr "USER")) ] |}.

Definition is_string (v : value) : bool := String.eqb (typeof v) "string".

Definition as_string (v : value) : string :=
  match v with
  | VStr s => s
  | _ => EmptyString
  end.

(** The [forEach] over the column names: the first entry that is not a
    string raises. *)
Fixpoint check_columns (columns : list (string * value)) : completion unit :=
  match columns with
  | [] => Normal tt
  | (column, v) :: rest =>
      if negb (is_string v)
      then Throw (Error ("The table column name for " ++ column
                         ++ " must be a string. Received: " ++ typeof v))
      else check_columns rest
  end.

Definition column (columns : list (string * value)) (k : string) : string :=
  as_string (default VUndefined (assoc k columns)).

Definition sanitizeConfiguration (st : RawSettings) : completion Settings :=
  if negb (is_string (raw_host st)) then
    Throw (Error ("The database host must be a string. Received: "
                  ++ typeof (raw_host st)))
  else if negb (String.eqb (typeof (raw_port st)) "number") then
    Throw (Error ("The database port must be coercible to an integer. Received: "
                  ++ typeof (raw_port st)))
  else
    let port' := parseInt (raw_port st) in
    if negb (is_string (raw_user st)) then
      Throw (Error ("The database user must be a string. Received: "
                    ++ typeof (raw_user st)))
    else if negb (is_string (raw_password st)) then
      Throw (Error ("The database user password must be a string. Received: "
                    ++ typeof (raw_password st)))
    else if negb (is_string (raw_database st)) then
      Throw (Error ("The database name must be a string. Received: "
                    ++ typeof (raw_database st)))
    else if negb (is_string (raw_tableName st)) then
      (* the message reads [typeof this.tableName], a property the store
         does not have *)
      Throw (Error ("The session table name must be a string. Received: "
                    ++ typeof VUndefined))
    else
      match check_columns (raw_columnNames st) with
      | Throw e => Throw e
      | Normal _ =>
          Normal
            {| databaseConfig :=
                 {| host := as_string (raw_host st);
                    port := port';
                    user := as_string (raw_user st);
                    password := as_string (raw_password st);
                    database := as_string (raw_database st) |};
               tableName := as_string (raw_tableName st);
               columnNames :=
                 {| c_sessionID := column (raw_columnNames st) "sessionID";
                    c_expires := column (raw_columnNames st) "expires";
                    c_data := column (raw_columnNames st) "data";
                    c_user := column (raw_columnNames st) "user" |} |}
      end.

(** [new AuthExpressStore(configOptions)] under the environment [env]. *)
Definition constructor (env : Env) (configOptions : value) : completion Settings :=
  sanitizeConfiguration (resolve env configOptions).

(** *** Connections, the event trace and the store as a state machine *)

Inductive ConnectionState := disconnected | connected | authenticated | protocol_error.

(** A connection object of the client library: its [state] field, and
    whether [destroy()] was called on it. *)
Record Connection := mkConnection {
  state : ConnectionState;
  destroyed : bool
}.

(** The error argument of a continuation. *)
Inductive cberror :=
| err_undefined                 (* the argument was not passed *)
| err_null                      (* the client's [null]: no error *)
| err (e : dberror).

(** The data argument of a continuation. *)
Inductive cbdata :=
| omitted
| payload (v : value)
| rowset (rows : list RowObject)
| scalar (c : cell)
| packet (affectedRows : nat).

Inductive Event :=
| EvConnect (c : nat)                         (* createConnection and connect *)
| EvQuery (c : nat) (q : Query)               (* connection.query *)
| EvClose (c : nat)                           (* closeDatabaseConnection entered *)
| EvDestroy (c : nat)                         (* connection.destroy() *)
| EvCallback (f : nat) (error : cberror) (data : cbdata).

(** The server, the connection objects created so far, the store's
    [connection] field and what has happened. *)
Record World := mkWorld {
  reachable : bool;
  tables : gmap string Table;
  connections : list Connection;
  connection : option nat;
  trace : list Event
}.

Definition M (A : Type) : Type := World -> completion A * World.

Definition ret {A} (a : A) : M A := fun w => (Normal a, w).

Definition bind {A B} (m : M A) (k : A -> M B) : M B :=
  fun w =>
    match m w with
    | (Normal a, w') => k a w'
    | (Throw e, w') => (Throw e, w')
    end.

Definition lift {A} (c : completion A) : M A := fun w => (c, w).

Notation "x <- m ;; k" := (bind m (fun x => k))
  (at level 100, m at next level, right associativity).
Notation "m ;; k" := (bind m (fun _ => k))
  (at level 100, right associativity).

Definition emit (e : Event) : M unit :=
  fun w => (Normal tt,
            mkWorld (reachable w) (tables w) (connections w) (connection w)
                    (trace w ++ [e])).

(** A query handed to the client, waiting for the server. *)
Record Pending := mkPending {
  p_connection : nat;
  p_query : Query;
  p_callback : dberror + result -> M unit
}.

Definition connectToDatabase : M unit :=
  fun w =>
    let c := length (connections w) in
    (Normal tt,
     mkWorld (reachable w) (tables w)
             (connections w ++ [mkConnection disconnected false])
             (Some c)
             (trace w ++ [EvConnect c])).

Definition closeDatabaseConnection : M unit :=
  fun w =>
    match connection w with
    | None =>
        (Throw (TypeError "Cannot read properties of undefined (reading 'state')"), w)
    | Some c =>
        match connections w !! c with
        | Some conn =>
            match state conn with
            | disconnected =>
                (Normal tt,
                 mkWorld (reachable w) (tables w) (connections w) (connection w)
                         (trace w ++ [EvClose c]))
            | _ =>
                (Normal tt,
                 mkWorld (reachable w) (tables w)
                         (<[c := mkConnection disconnected true]> (connections w))
                         (connection w)
                         (trace w ++ [EvClose c; EvDestroy c]))
            end
        | None => (Normal tt, w)
        end
    end.

Definition finalCallback (callback : value) (error : cberror) (data : cbdata)
  : M unit :=
  let safeCallback :=
    if negb (String.eqb (typeof callback) "function") then None else Some callback in
  closeDatabaseConnection ;;
  match safeCallback with
  | Some (VFun f) => emit (EvCallback f error data)
  | _ => ret tt
  end.

(** [this.connection.query(sql, params, callback)] *)
Definition query (q : Query) (callback : dberror + result -> M unit) : M Pending :=
  fun w =>
    match connection w with
    | None =>
        (Throw (TypeError "Cannot read properties of undefined (reading 'query')"), w)
    | Some c =>
        (Normal (mkPending c q callback),
         mkWorld (reachable w) (tables w) (connections w) (connection w)
                 (trace w ++ [EvQuery c q]))
    end.

(** The fetched rows as an array, [undefined] for an OkPacket. *)
Definition as_rows (r : result) : list RowObject :=
  match r with
  | FullRows rows => rows
  | DataRows rows => (fun kt => [(kt.1, CText kt.2)]) <$> rows
  | CountRow n => [[("LEN", CNum n)]]
  | OkPacket _ => []
  end.

Definition result_data (r : result) : cbdata :=
  match r with
  | OkPacket n => packet n
  | _ => rowset (as_rows r)
  end.

(** [result[0].LEN] *)
Definition first_LEN (r : result) : completion cbdata :=
  match as_rows r with
  | o :: _ =>
      Normal (match assoc "LEN" o with
              | Some c => scalar c
              | None => omitted
              end)
  | [] => Throw (TypeError "Cannot read properties of undefined (reading 'LEN')")
  end.

(** [row.DATA] on a row fetched by the one-column select *)
Definition field_DATA (row : string * text) : option text :=
  if String.eqb row.1 "DATA" then Some row.2 else None.

(** The two statements of [get] that turn the fetched cell into the
    session handed to the continuation: [JSON.parse], then the
    assignment that puts a Date back at [cookie.expires]. *)
Definition deserialize (x : option text) : completion value :=
  match JSON_parse x with
  | Throw e => Throw e
  | Normal sessionData =>
      match member sessionData "cookie" with
      | Throw e => Throw e
      | Normal cookie =>
          match member cookie "expires" with
          | Throw e => Throw e
          | Normal expires =>
              match set_member cookie "expires" (new_Date (Date_parse expires)) with
              | Throw e => Throw e
              | Normal cookie' =>
                  Normal (match sessionData with
                          | VObj fields => VObj (assign "cookie" cookie' fields)
                          | _ => sessionData
                          end)
              end
          end
      end
  end.

(** *** The repository operations *)

Definition all (s : Settings) (callback : value) (now : Z) : M Pending :=
  let sql := SelectAllGe (tableName s) (c_expires (columnNames s)) now in
  connectToDatabase ;;
  query sql (fun r =>
    match r with
    | inl error => finalCallback callback (err error) omitted
    | inr result => finalCallback callback err_null (result_data result)
    end).

Definition clear (s : Settings) (callback : value) : M Pending :=
  let sql := Truncate (tableName s) in
  connectToDatabase ;;
  query sql (fun r =>
    match r with
    | inl error => finalCallback callback (err error) omitted
    | inr _ => finalCallback callback err_undefined omitted
    end).

Definition destroy (s : Settings) (sessionID : string) (callback : value)
  : M Pending :=
  let sql := DeleteById (tableName s) (c_sessionID (columnNames s)) sessionID in
  connectToDatabase ;;
  query sql (fun r =>
    match r with
    | inl error => finalCallback callback (err error) omitted
    | inr _ => finalCallback callback err_null omitted
    end).

Definition get (s : Settings) (sessionID : string) (callback : value) (now : Z)
  : M Pending :=
  let sql := SelectData (c_data (columnNames s)) (tableName s)
                        (c_sessionID (columnNames s)) sessionID
                        (c_expires (columnNames s)) now in
  connectToDatabase ;;
  query sql (fun r =>
    match r with
    | inl error => finalCallback callback (err error) omitted
    | inr (DataRows [row]) =>
        sessionData <- lift (deserialize (field_DATA row)) ;;
        finalCallback callback err_null (payload sessionData)
    | inr _ => finalCallback callback err_null omitted
    end).

Definition length (s : Settings) (callback : value) (now : Z) : M Pending :=
  let sql := SelectCountGe (tableName s) (c_expires (columnNames s)) now in
  connectToDatabase ;;
  query sql (fun r =>
    match r with
    | inl error => finalCallback callback (err error) omitted
    | inr result =>
        n <- lift (first_LEN result) ;;
        finalCallback callback err_null n
    end).

Definition set (s : Settings) (sessionID : string) (session : value)
               (callback : value) : M Pending :=
  let sessionData := JSON_stringify session in
  cookie <- lift (member session "cookie") ;;
  timeExpires <- lift (member cookie "expires") ;;
  passport <- lift (member session "passport") ;;
  let sql :=
    InsertIgnore (tableName s)
      (c_sessionID (columnNames s)) (c_data (columnNames s))
      (c_expires (columnNames s)) (c_user (columnNames s))
      sessionID sessionData (Date_parse timeExpires)
      (optional_member passport "user") in
  connectToDatabase ;;
  query sql (fun r =>
    match r with
    | inl error => finalCallback callback (err error) omitted
    | inr _ => finalCallback callback err_null omitted
    end).

Definition touch (s : Settings) (sessionID : string) (session : value)
                 (callback : value) : M Pending :=
  let sessionData := JSON_stringify session in
  cookie <- lift (member session "cookie") ;;
  timeExpires <- lift (member cookie "expires") ;;
  let sql :=
    Update (tableName s) (c_data (columnNames s)) sessionData
      (c_expires (columnNames s)) (Date_parse timeExpires)
      (c_sessionID (columnNames s)) sessionID in
  connectToDatabase ;;
  query sql (fun r =>
    match r with
    | inl error => finalCallback callback (err error) omitted
    | inr _ => finalCallback callback err_null omitted
    end).

Definition expired (s : Settings) (callback : value) (now : Z) : M Pending :=
  let sql := SelectAllLt (tableName s) (c_expires (columnNames s)) now in
  connectToDatabase ;;
  query sql (fun r =>
    match r with
    | inl error => finalCallback callback (err error) omitted
    | inr result => finalCallback callback err_null (result_data result)
    end).

Definition expiredLength (s : Settings) (callback : value) (now : Z) : M Pending :=
  let sql := SelectCountLt (tableName s) (c_expires (columnNames s)) now in
  connectToDatabase ;;
  query sql (fun r =>
    match r with
    | inl error => finalCallback callback (err error) omitted
    | inr result =>
        n <- lift (first_LEN result) ;;
        finalCallback callback err_null n
    end).

Definition expiredClear (s : Settings) (callback : value) (now : Z) : M Pending :=
  let sql := DeleteLt (tableName s) (c_expires (columnNames s)) now in
  connectToDatabase ;;
  query sql (fun r =>
    match r with
    | inl error => finalCallback callback (err error) omitted
    | inr _ => finalCallback callback err_undefined omitted
    end).

Definition destroyUser (s : Settings) (user : string) (callback : value)
  : M Pending :=
  let sql := DeleteByUser (tableName s) (c_user (columnNames s)) user in
  connectToDatabase ;;
  query sql (fun r =>
    match r with
    | inl error => finalCallback callback (err error) omitted
    | inr _ => finalCallback callback err_undefined omitted
    end).

Definition createTable (s : Settings) (callback : value) : M Pending :=
  let sql :=
    CreateTableIfNotExists (tableName s)
      (c_sessionID (columnNames s)) (c_expires (columnNames s))
      (c_data (columnNames s)) (c_user (columnNames s)) in
  connectToDatabase ;;
  query sql (fun r =>
    match r with
    | inl error => finalCallback callback (err error) omitted
    | inr _ => finalCallback callback err_undefined omitted
    end).

(** *** Running an operation *)

(** The server answers a pending query and the client runs its
    callback.  A query queued on a destroyed connection is dropped with
    no callback.  When the server cannot be reached the connection
    attempt fails, the connection stays [disconnected], and the query
    fails with the connection error. *)
Definition deliver (p : Pending) : M unit :=
  fun w =>
    match connections w !! p_connection p with
    | None => (Normal tt, w)
    | Some conn =>
        if destroyed conn then (Normal tt, w)
        else if reachable w then
          let '(r, db) := exec (p_query p) (tables w) in
          p_callback p r
            (mkWorld (reachable w) db
                     (<[p_connection p := mkConnection authenticated false]>
                        (connections w))
                     (connection w) (trace w))
        else p_callback p (inl ECONNREFUSED) w
    end.

Inductive outcome :=
| completed                       (* the query callback returned *)
| thrown_to_caller (e : exn)      (* the call itself raised *)
| thrown_in_callback (e : exn).   (* the query callback raised: uncaught *)

(** One operation from call to completion, nothing else in between. *)
Definition run (op : M Pending) (w : World) : outcome * World :=
  match op w with
  | (Throw e, w') => (thrown_to_caller e, w')
  | (Normal p, w') =>
      match deliver p w' with
      | (Normal _, w'') => (completed, w'')
      | (Throw e, w'') => (thrown_in_callback e, w'')
      end
  end.

End AuthExpressStore.

(** ** The earlier, reduced variant of the class kept in [index.js]

    It shares the constructor (apart from an unused [isAsync] entry),
    [sanitizeConfiguration], the connection helpers, [finalCallback] and
    [destroy] with the class above.  Its
    [all], [clear], [length] and [touch] only call the continuation, its
    [get] has no expiry filter, and its [set] is an upsert that binds
    NULL for the expiry. *)

Module IndexJs.
Import JS MySQL AuthExpressStore.

(** [return callback()] *)
Definition call (callback : value) : M unit :=
  match callback with
  | VFun f => emit (EvCallback f err_undefined omitted)
  | _ => lift (Throw (TypeError "callback is not a function"))
  end.

Definition all (callback : value) : M unit := call callback.
Definition clear (callback : value) : M unit := call callback.
Definition length (callback : value) : M unit := call callback.
Definition touch (sessionID : string) (session : value) (callback : value)
  : M unit := call callback.

(** The two statements only this variant issues. *)
Inductive Query' :=
| SelectDataById (dataCol table idCol : string) (sessionID : string)
    (* SELECT ?? FROM ?? WHERE ?? = ? *)
| InsertOrUpdate (table idCol dataCol expiresCol userCol : string)
                 (sessionID : string) (sessionData : option text) (user : value)
                 (dataCol' : string) (sessionData' : option text)
                 (expiresCol' : string).
    (* INSERT INTO ?? (??, ??, ??, ??) VALUES (?, ?, NULL, ?)
       ON DUPLICATE KEY UPDATE ?? = ?, ?? = NULL *)

(** A single-row insert that names NULL for the [bigint not null]
    expiry column is rejected whatever the row. *)
Definition exec' (q : Query') (db : gmap string Table) : dberror + result :=
  match q with
  | SelectDataById dataCol table idCol sessionID =>
      match db !! table with
      | None => inl ER_NO_SUCH_TABLE
      | Some t =>
          if String.eqb dataCol (c_data (t_columns t))
             && String.eqb idCol (c_sessionID (t_columns t))
          then match t_rows t !! sessionID with
               | Some r => inr (DataRows [(dataCol, r_data r)])
               | None => inr (DataRows [])
               end
          else inl ER_BAD_FIELD_ERROR
      end
  | InsertOrUpdate table _ _ _ _ _ _ _ _ _ _ =>
      match db !! table with
      | None => inl ER_NO_SUCH_TABLE
      | Some _ => inl ER_BAD_NULL_ERROR
      end
  end.

(** What the continuation of [set] receives once the server answered. *)
Definition set_answer (s : Settings) (sessionID : string) (session : value)
                      (db : gmap string Table) : completion cberror :=
  let sessionData := JSON_stringify session in
  match member session "passport" with
  | Throw e => Throw e
  | Normal passport =>
      let sql :=
        InsertOrUpdate (tableName s)
          (c_sessionID (columnNames s)) (c_data (columnNames s))
          (c_expires (columnNames s)) (c_user (columnNames s))
          sessionID sessionData (optional_member passport "user")
          (c_data (columnNames s)) sessionData (c_expires (columnNames s)) in
      Normal (match exec' sql db with
              | inl error => err error
              | inr _ => err_null
              end)
  end.

(** What the continuation of [get] receives once the server answered. *)
Definition get_answer (s : Settings) (sessionID : string)
                      (db : gmap string Table) : completion (cberror * cbdata) :=
  let sql := SelectDataById (c_data (columnNames s)) (tableName s)
                            (c_sessionID (columnNames s)) sessionID in
  match exec' sql db with
  | inl error => Normal (err error, omitted)
  | inr (DataRows [row]) =>
      match JSON_parse (field_DATA row) with
      | Throw e => Throw e
      | Normal sessionData => Normal (err_null, payload sessionData)
      end
  | inr _ => Normal (err_null, omitted)
  end.

End IndexJs.

(** ** Vocabulary of the properties *)

Module Props.
Import JS MySQL AuthExpressStore.

(** Values that [JSON.stringify] followed by [JSON.parse] gives back
    unchanged. *)
Fixpoint plain (v : value) : bool :=
  match v with
  | VNull | VBool _ | VStr _ | VNum (Num _) => true
  | VArr items => forallb plain items
  | VObj fields => forallb (fun kv => plain (snd kv)) fields
  | _ => false
  end.

(** The first binding of [k] satisfies [q], every other binding [p]. *)
Fixpoint shaped (k : string) (p q : value -> bool) (fields : list (string * value))
  : bool :=
  match fields with
  | [] => false
  | (k', v) :: rest =>
      if String.eqb k' k
      then q v && forallb (fun kv => p (snd kv)) rest
      else p v && shaped k p q rest
  end.

Definition valid_date (v : value) : bool :=
  match v with
  | VDate (Some t) => Z.abs t <=? Calendar.max_time
  | _ => false
  end.

(** A session as the middleware keeps it: an object of plain data whose
    [cookie] is an object of plain data with a valid Date at
    [expires]. *)
Definition session_payload (v : value) : bool :=
  match v with
  | VObj fields =>
      shaped "cookie" plain
        (fun c => match c with
                  | VObj cs => shaped "expires" plain valid_date cs
                  | _ => false
                  end)
        fields
  | _ => false
  end.

(** The expiry [set] and [touch] extract from a session:
    [Date.parse(session.cookie.expires)], when that is a number. *)
Definition expiry (session : value) : option Z :=
  match member session "cookie" with
  | Normal cookie =>
      match member cookie "expires" with
      | Normal timeExpires =>
          match Date_parse timeExpires with
          | Num e => Some e
          | NaN => None
          end
      | Throw _ => None
      end
  | Throw _ => None
  end.

(** The user reference [set] binds, as the [user] column receives it. *)
Definition owner (session : value) : dberror + string :=
  user_cell (optional_member (optional_member session "passport") "user").

(** The continuation calls made so far, oldest first. *)
Definition called (w : World) : list (nat * cberror * cbdata) :=
  omap (fun e => match e with
                 | EvCallback f error data => Some (f, error, data)
                 | _ => None
                 end) (trace w).

Definition after (op : M Pending) (w : World) : World := (run op w).2.

(** The call [finalCallback] makes, if the continuation is a function. *)
Definition notify (callback : value) (error : cberror) (data : cbdata)
  : list Event :=
  match callback with
  | VFun f => [EvCallback f error data]
  | _ => []
  end.

(** What the server answers to a statement, and the tables it leaves. *)
Definition answer (w : World) (q : Query)
  : (dberror + result) * gmap string Table :=
  if reachable w then exec q (tables w) else (inl ECONNREFUSED, tables w).

(** The world one operation leaves when it ran to [finalCallback]: its
    connection is the newest one and is closed, and the trace grew by
    the connect, the statement, the close (with the destroy when the
    connection had been established) and the continuation call. *)
Definition settled (w : World) (q : Query) (db : gmap string Table)
                   (callback : value) (error : cberror) (data : cbdata) : World :=
  let c := Datatypes.length (connections w) in
  mkWorld (reachable w) db
          (connections w ++ [mkConnection disconnected (reachable w)])
          (Some c)
          (trace w ++ [EvConnect c; EvQuery c q; EvClose c]
                   ++ (if reachable w then [EvDestroy c] else [])
                   ++ notify callback error data).

(** The statements of [set], [touch] and [get], once the expiry [e] was
    read from the session. *)
Definition set_statement (s : Settings) (sessionID : string) (session : value)
                         (e : Z) : Query :=
  InsertIgnore (tableName s)
    (c_sessionID (columnNames s)) (c_data (columnNames s))
    (c_expires (columnNames s)) (c_user (columnNames s))
    sessionID (JSON_stringify session) (Num e)
    (optional_member (optional_member session "passport") "user").

Definition touch_statement (s : Settings) (sessionID : string) (session : value)
                           (e : Z) : Query :=
  Update (tableName s) (c_data (columnNames s)) (JSON_stringify session)
    (c_expires (columnNames s)) (Num e)
    (c_sessionID (columnNames s)) sessionID.

Definition get_statement (s : Settings) (sessionID : string) (now : Z) : Query :=
  SelectData (c_data (columnNames s)) (tableName s)
    (c_sessionID (columnNames s)) sessionID (c_expires (columnNames s)) now.

(** How a session reads once stored: the Date at [cookie.expires] is
    kept as its ISO text. *)
Definition stored_date (v : value) : value :=
  match v with
  | VDate (Some t) => VStr (Calendar.toISOString t)
  | _ => v
  end.

Definition stored_cookie (c : value) : value :=
  match c with
  | VObj cs =>
      match assoc "expires" cs with
      | Some d => VObj (assign "expires" (stored_date d) cs)
      | None => c
      end
  | _ => c
  end.

(** The server is reachable and holds the store's table, with the
    configured column names and the rows [rows]. *)
Definition serves (s : Settings) (w : World) (rows : gmap string Row) : Prop :=
  reachable w = true
  /\ tables w !! tableName s = Some (mkTable (columnNames s) rows).

Definition absent (e : cberror) : bool :=
  match e with
  | err_undefined | err_null => true
  | err _ => false
  end.

(** A call of one of the twelve operations. *)
Inductive Operation :=
| OpAll (callback : value) (now : Z)
| OpClear (callback : value)
| OpDestroy (sessionID : string) (callback : value)
| OpGet (sessionID : string) (callback : value) (now : Z)
| OpLength (callback : value) (now : Z)
| OpSet (sessionID : string) (session : value) (callback : value)
| OpTouch (sessionID : string) (session : value) (callback : value)
| OpExpired (callback : value) (now : Z)
| OpExpiredLength (callback : value) (now : Z)
| OpExpiredClear (callback : value) (now : Z)
| OpDestroyUser (user : string) (callback : value)
| OpCreateTable (callback : value).

Definition perform (s : Settings) (op : Operation) : M Pending :=
  match op with
  | OpAll callback now => all s callback now
  | OpClear callback => clear s callback
  | OpDestroy sessionID callback => destroy s sessionID callback
  | OpGet sessionID callback now => get s sessionID callback now
  | OpLength callback now => length s callback now
  | OpSet sessionID session callback => set s sessionID session callback
  | OpTouch sessionID session callback => touch s sessionID session callback
  | OpExpired callback now => expired s callback now
  | OpExpiredLength callback now => expiredLength s callback now
  | OpExpiredClear callback now => expiredClear s callback now
  | OpDestroyUser user callback => destroyUser s user callback
  | OpCreateTable callback => createTable s callback
  end.

Definition callback_of (op : Operation) : value :=
  match op with
  | OpAll callback _ | OpClear callback | OpDestroy _ callback
  | OpGet _ callback _ | OpLength callback _ | OpSet _ _ callback
  | OpTouch _ _ callback | OpExpired callback _ | OpExpiredLength callback _
  | OpExpiredClear callback _ | OpDestroyUser _ callback
  | OpCreateTable callback => callback
  end.

(** Operations whose continuation takes the error only. *)
Definition no_result (op : Operation) : bool :=
  match op with
  | OpClear _ | OpDestroy _ _ | OpSet _ _ _ | OpTouch _ _ _
  | OpExpiredClear _ _ | OpDestroyUser _ _ | OpCreateTable _ => true
  | _ => false
  end.

(** The statement an operation sends, when building it does not raise. *)
Definition statement (s : Settings) (op : Operation) : option Query :=
  match perform s op (mkWorld true ∅ [] None []) with
  | (Normal p, _) => Some (p_query p)
  | (Throw _, _) => None
  end.

(** The call is well formed: the session handed to [set] or [touch]
    has a cookie to read the expiry from, and the row [get] would
    fetch, if there is one, holds a session that deserializes. *)
Definition well_formed_call (s : Settings) (op : Operation) (w : World) : Prop :=
  match op with
  | OpSet _ session _ | OpTouch _ session _ =>
      exists cookie timeExpires,
        member session "cookie" = Normal cookie
        /\ member cookie "expires" = Normal timeExpires
  | OpGet sessionID _ now =>
      forall t r,
        reachable w = true ->
        tables w !! tableName s = Some t ->
        t_rows t !! sessionID = Some r ->
        now <= r_expires r ->
        exists v,
          deserialize (field_DATA (c_data (columnNames s), r_data r)) = Normal v
  | _ => True
  end.

(** The type rules in the order [sanitizeConfiguration] checks them:
    how the message names the entry, the value found, and whether it
    passes. *)
Definition checks (st : RawSettings) : list (string * value * bool) :=
  ([ ("The database host must be a string.",
      raw_host st, is_string (raw_host st));
     ("The database port must be coercible to an integer.",
      raw_port st, String.eqb (typeof (raw_port st)) "number");
     ("The database user must be a string.",
      raw_user st, is_string (raw_user st));
     ("The database user password must be a string.",
      raw_password st, is_string (raw_password st));
     ("The database name must be a string.",
      raw_database st, is_string (raw_database st));
     ("The session table name must be a string.",
      raw_tableName st, is_string (raw_tableName st)) ]
   ++ map (fun cv => (String.append "The table column name for "
                        (String.append cv.1 " must be a string."),
                      cv.2, is_string cv.2))
          (raw_columnNames st))%list.

(** The first entry that breaks its rule. *)
Definition first_offence (st : RawSettings) : option (string * value) :=
  (fun c => (c.1.1, c.1.2)) <$> find (fun c => negb c.2) (checks st).

(** The error and data handed over fit the server's answer: a failure
    is passed on with no data, a success comes with an absent error;
    operations without a result never pass data. *)
Definition fits (op : Operation) (a : dberror + result)
                (error : cberror) (data : cbdata) : Prop :=
  match a with
  | inl e => error = err e /\ data = omitted
  | inr _ => absent error = true
  end
  /\ (no_result op = true -> data = omitted).

(** What the query callback of an operation passes to [finalCallback]
    for an answer of the server, read off the twelve callbacks: a
    failure with no data; on success the rows, the count, the
    deserialized session, or nothing.  ([omitted] also stands where a
    callback raises instead of reaching [finalCallback].) *)
Definition handed (op : Operation) (a : dberror + result) : cberror * cbdata :=
  match a with
  | inl error => (err error, omitted)
  | inr r =>
      match op with
      | OpAll _ _ | OpExpired _ _ => (err_null, result_data r)
      | OpLength _ _ | OpExpiredLength _ _ =>
          (err_null, match first_LEN r with
                     | Normal n => n
                     | Throw _ => omitted
                     end)
      | OpGet _ _ _ =>
          (err_null, match r with
                     | DataRows [row] =>
                         match deserialize (field_DATA row) with
                         | Normal sessionData => payload sessionData
                         | Throw _ => omitted
                         end
                     | _ => omitted
                     end)
      | OpDestroy _ _ | OpSet _ _ _ | OpTouch _ _ _ => (err_null, omitted)
      | OpClear _ | OpExpiredClear _ _ | OpDestroyUser _ _ | OpCreateTable _ =>
          (err_undefined, omitted)
      end
  end.

(** *** Sample inputs *)

Definition sample_settings : Settings :=
  {| databaseConfig := databaseDefaults;
     tableName := schemaDefaults.1;
     columnNames := schemaDefaults.2 |}.

Definition no_env : Env := mkEnv None None None None None.

(** A reachable server holding the empty session table. *)
Definition sample_world : World :=
  mkWorld true {[ "SESSIONS" := mkTable (schemaDefaults.2) ∅ ]} [] None [].

(** A reachable server whose table holds the one row [xyz], expired at
    1699999999000. *)
Definition stale_rows : gmap string Row :=
  {[ "xyz" := mkRow 1699999999000 (JsonText (JObj [("cookie", JObj [])])) "" ]}.

Definition stale_world : World :=
  mkWorld true {[ "SESSIONS" := mkTable (schemaDefaults.2) stale_rows ]} [] None [].

(** A reachable server whose one row holds text that is not JSON. *)
Definition corrupt_world : World :=
  mkWorld true
    {[ "SESSIONS" := mkTable (schemaDefaults.2)
                       {[ "bad" := mkRow 1800000000000 NotJson "" ]} ]}
    [] None [].

(** Options that rename the data column. *)
Definition renamed_options : value :=
  VObj [ ("columnNames", VObj [ ("data", VStr "PAYLOAD") ]) ].

Definition renamed_settings : Settings :=
  {| databaseConfig := databaseDefaults;
     tableName := "SESSIONS";
     columnNames := {| c_sessionID := "SESSION_ID"; c_expires := "EXPIRES";
                       c_data := "PAYLOAD"; c_user := "USER" |} |}.

(** The one unexpired session [abc]. *)
Definition live_rows : gmap string Row :=
  {[ "abc" := mkRow 1800000000000
                (JsonText (JObj [("cookie",
                                  JObj [("expires", JStr "2027-01-15T08:00:00.000Z")])]))
                "" ]}.

(** A reachable server holding [live_rows] under the default column
    names, and one holding them in a table laid out for
    [renamed_settings]. *)
Definition live_world : World :=
  mkWorld true {[ "SESSIONS" := mkTable (schemaDefaults.2) live_rows ]} [] None [].

Definition renamed_world : World :=
  mkWorld true {[ "SESSIONS" := mkTable (columnNames renamed_settings) live_rows ]}
          [] None [].

(** A session of a logged-in user expiring at 2023-11-14T22:13:30.123Z. *)
Definition session_A : value :=
  VObj [ ("cookie",
          VObj [ ("originalMaxAge", VNum (Num 10000));
                 ("expires", VDate (Some 1700000010123));
                 ("httpOnly", VBool true);
                 ("path", VStr "/") ]);
         ("passport", VObj [ ("user", VStr "ann@example.org") ]) ].

(** A later session of the same shape, with one more entry. *)
Definition session_B : value :=
  VObj [ ("cookie",
          VObj [ ("originalMaxAge", VNum (Num 10000));
                 ("expires", VDate (Some 1700000020456));
                 ("httpOnly", VBool true);
                 ("path", VStr "/") ]);
         ("passport", VObj [ ("user", VStr "ann@example.org") ]);
         ("views", VNum (Num 2)) ].

(** A session nobody logged into. *)
Definition session_anonymous : value :=
  VObj [ ("cookie",
          VObj [ ("originalMaxAge", VNum (Num 10000));
                 ("expires", VDate (Some 1700000010123)) ]) ].

(** *** Vocabulary of the further properties *)

(** The table a statement names. *)
Definition table_of (q : Query) : string :=
  match q with
  | SelectAllGe table _ _ | SelectAllLt table _ _
  | SelectCountGe table _ _ | SelectCountLt table _ _
  | Truncate table | DeleteById table _ _ | DeleteByUser table _ _
  | DeleteLt table _ _ | SelectData _ table _ _ _ _
  | InsertIgnore table _ _ _ _ _ _ _ _ | Update table _ _ _ _ _ _
  | CreateTableIfNotExists table _ _ _ _ => table
  end.

(** [undefined] or [null]: the values a property cannot be read from. *)
Definition nullish (v : value) : bool :=
  match v with
  | VUndefined | VNull => true
  | _ => false
  end.

(** A value that holds no time at all: [undefined], [null] or an
    invalid Date. *)
Definition no_date (v : value) : bool :=
  match v with
  | VUndefined | VNull | VDate None => true
  | _ => false
  end.

(** Text of ASCII characters only. *)
Definition ascii_text (x : string) : bool :=
  forallb (fun c => (nat_of_ascii c <? 128)%nat) (list_ascii_of_string x).

(** Three sessions of two users: [abc] and [old] belong to ann, [xyz]
    to bob; [abc] expires at 1800000000000, the other two are long
    expired. *)
Definition mixed_rows : gmap string Row :=
  {[ "abc" := mkRow 1800000000000
                (JsonText (JObj [("cookie",
                                  JObj [("expires", JStr "2027-01-15T08:00:00.000Z")])]))
                "ann";
     "xyz" := mkRow 1699999999000 (JsonText (JObj [("cookie", JObj [])])) "bob";
     "old" := mkRow 1600000000000 (JsonText (JObj [("cookie", JObj [])])) "ann" ]}.

Definition mixed_world : World :=
  mkWorld true {[ "SESSIONS" := mkTable (schemaDefaults.2) mixed_rows ]} [] None [].

(** The calls of a list, each completed before the next is made: the
    outcomes, oldest first, and the world left. *)
Fixpoint run_each (s : Settings) (ops : list Operation) (w : World)
  : list outcome * World :=
  match ops with
  | [] => ([], w)
  | op :: rest =>
      let '(o, w1) := run (perform s op) w in
      let '(os, w2) := run_each s rest w1 in
      (o :: os, w2)
  end.

(** The session handed to [set] or [touch] has a cookie. *)
Definition has_cookie (op : Operation) : bool :=
  match op with
  | OpSet _ session _ | OpTouch _ session _ =>
      negb (nullish session || nullish (optional_member session "cookie"))
  | _ => true
  end.

(** The store at rest: the server is reachable and holds the table,
    every row of it deserializes, and every connection made so far is
    closed. *)
Definition at_rest (s : Settings) (w : World) : Prop :=
  (exists rows,
     serves s w rows
     /\ forall k r, rows !! k = Some r ->
                    exists v, deserialize (Some (r_data r)) = Normal v)
  /\ Forall (fun c => state c = disconnected) (connections w).

(** The connection entries the environment alone selects: each is its
    variable when that is set and not empty, and the default
    otherwise; the port is what [parseInt] reads from DATABASE_PORT
    when that is a number other than 0. *)
Definition environment_config (env : Env) : DatabaseConfig :=
  let pick (x : option string) (d : string) :=
    match x with
    | Some h => if String.eqb h "" then d else h
    | None => d
    end in
  {| host := pick (HOST env) (host databaseDefaults);
     port := (let n := parseInt (env_value (DATABASE_PORT env)) in
              if truthy (VNum n) then parseInt (VNum n) else port databaseDefaults);
     user := pick (DATABASE_USER env) (user databaseDefaults);
     password := pick (DATABASE_PASSWORD env) (password databaseDefaults);
     database := pick (DATABASE_NAME env) (database databaseDefaults) |}.

End Props.

(** * Facts and theorems *)

Import JS MySQL AuthExpressStore Props.

(** ** The calendar: [Date.parse] inverts [toISOString] *)

Import Calendar.

Lemma all_from_spec n p :
  forall z0, all_from n z0 p = true ->
  forall z, z0 <= z < z0 + Z.of_nat n -> p z = true.
Proof.
  induction n as [|k IH]; intros z0 H z Hz; [lia|].
  simpl in H. apply andb_true_iff in H as [Hk Hr].
  destruct (Z.eq_dec z z0) as [->|Hne]; [exact Hk|].
  apply (IH (z0 + 1)); [exact Hr|lia].
Qed.

Lemma era_days_checked : all_from (Z.to_nat 146097) 0 era_day_ok = true.
Proof. vm_cast_no_check (eq_refl true). Qed.

Lemma era_day_ok_all doe : 0 <= doe < 146097 -> era_day_ok doe = true.
Proof.
  intros H.
  apply (all_from_spec (Z.to_nat 146097) _ 0); [apply era_days_checked|lia].
Qed.

Lemma civil_from_days_inv days :
  match civil_from_days days with
  | (y, m, d) => days_from_civil y m d = days /\ 1 <= m <= 12 /\ 1 <= d <= 31
  end.
Proof.
  unfold civil_from_days.
  pose proof (Z.mod_pos_bound (days + 719468) 146097 ltac:(lia)) as Hdoe.
  pose proof (Z.div_mod (days + 719468) 146097 ltac:(lia)) as Hsplit.
  set (era := (days + 719468) / 146097) in *.
  set (doe := (days + 719468) mod 146097) in *.
  pose proof (era_day_ok_all doe Hdoe) as Hok.
  unfold era_day_ok in Hok.
  set (yoe := year_of_era doe) in *.
  set (doy := day_of_year doe) in *.
  set (mp := (5 * doy + 2) / 153) in *.
  set (d := doy - (153 * mp + 2) / 5 + 1) in *.
  repeat (apply andb_true_iff in Hok as [Hok ?]).
  assert (Hdoy : doe = yoe * 365 + yoe / 4 - yoe / 100 + doy).
  { subst doy. unfold day_of_year. fold yoe. lia. }
  unfold days_from_civil, month_of.
  destruct (mp <? 10) eqn:Hmp.
  - replace (mp + 3 <=? 2) with false by lia.
    replace (2 <? mp + 3) with true by lia.
    replace ((yoe + era * 400 + 0) / 400) with era
      by (apply (Z.div_unique _ _ _ yoe); lia).
    replace ((yoe + era * 400 + 0) mod 400) with yoe
      by (apply (Z.mod_unique _ _ era); lia).
    replace (mp + 3 - 3) with mp by lia.
    lia.
  - replace (mp - 9 <=? 2) with true by lia.
    replace (2 <? mp - 9) with false by lia.
    replace ((yoe + era * 400 + 1 - 1) / 400) with era
      by (apply (Z.div_unique _ _ _ yoe); lia).
    replace ((yoe + era * 400 + 1 - 1) mod 400) with yoe
      by (apply (Z.mod_unique _ _ era); lia).
    replace (mp - 9 + 9) with mp by lia.
    lia.
Qed.

Lemma digit_cases n :
  exists k, (k < 10)%nat /\ digit n = ascii_of_nat (48 + k) /\ n mod 10 = Z.of_nat k.
Proof.
  pose proof (Z.mod_pos_bound n 10 ltac:(lia)) as Hb.
  exists (Z.to_nat (n mod 10)). unfold digit.
  repeat split; [lia| |lia].
  f_equal. lia.
Qed.

Lemma digit_value_digit n : digit_value (digit n) = Some (n mod 10).
Proof.
  destruct (digit_cases n) as (k & Hk & -> & ->).
  do 10 (destruct k as [|k]; [reflexivity|]). lia.
Qed.

Lemma append_cons c (s r : string) : String c s ++ r = String c (s ++ r).
Proof. reflexivity. Qed.

Lemma append_nil (r : string) : "" ++ r = r.
Proof. reflexivity. Qed.

Lemma bind_Some {A B} (x : A) (f : A -> option B) : Some x ≫= f = f x.
Proof. reflexivity. Qed.

Lemma take_digits_pad w :
  forall n acc rest,
    take_digits w acc (pad w n ++ rest)
    = Some (acc * 10 ^ Z.of_nat w + n mod 10 ^ Z.of_nat w, rest).
Proof.
  induction w as [|w IH]; intros n acc rest.
  - simpl. rewrite Z.mod_1_r. do 2 f_equal. lia.
  - cbn [pad take_digits]. rewrite append_cons, digit_value_digit, IH.
    do 2 f_equal.
    rewrite Nat2Z.inj_succ, Z.pow_succ_r by lia.
    assert (0 < 10 ^ Z.of_nat w) by (apply Z.pow_pos_nonneg; lia).
    rewrite (Z.mul_comm 10 (10 ^ Z.of_nat w)).
    rewrite (Z.rem_mul_r n (10 ^ Z.of_nat w) 10) by lia.
    lia.
Qed.

Lemma take_digits_pad_small w n acc rest :
  0 <= n < 10 ^ Z.of_nat w ->
  take_digits w acc (pad w n ++ rest) = Some (acc * 10 ^ Z.of_nat w + n, rest).
Proof. intros H. rewrite take_digits_pad, Z.mod_small by lia. reflexivity. Qed.

Lemma take_year_text y rest :
  Z.abs y < 1000000 -> take_year (year_text y ++ rest) = Some (y, rest).
Proof.
  intros Hy. unfold year_text.
  destruct ((0 <=? y) && (y <=? 9999)) eqn:Hr.
  - transitivity (take_digits 4 0 (pad 4 y ++ rest)).
    + cbn [pad]. rewrite append_cons.
      destruct (digit_cases (y / 10 ^ Z.of_nat 3)) as (k & Hk & -> & _).
      do 10 (destruct k as [|k]; [reflexivity|]). lia.
    + rewrite take_digits_pad_small; [f_equal|]; simpl; lia.
  - destruct (y <? 0) eqn:Hneg; rewrite append_cons; cbn [take_year].
    + rewrite take_digits_pad_small by (simpl; lia). f_equal. f_equal. lia.
    + rewrite take_digits_pad_small by (simpl; lia). f_equal. f_equal. lia.
Qed.

Lemma civil_year_bound days :
  -100000001 <= days <= 100000001 -> Z.abs (civil_from_days days).1.1 < 1000000.
Proof.
  intros Hd. unfold civil_from_days. cbn [fst].
  pose proof (Z.mod_pos_bound (days + 719468) 146097 ltac:(lia)) as Hdoe.
  pose proof (era_day_ok_all _ Hdoe) as Hok. unfold era_day_ok in Hok.
  repeat (apply andb_true_iff in Hok as [Hok ?]).
  set (yoe := year_of_era _) in *.
  set (era := (days + 719468) / 146097).
  assert (-700 <= era <= 700) by (subst era; Z.div_mod_to_equations; lia).
  destruct (month_of _ <=? 2); lia.
Qed.

Lemma parse_fields_toISOString t :
  Z.abs t <= max_time -> parse_fields (toISOString t) = Some t.
Proof.
  intros Ht. unfold toISOString, max_time, ms_per_day in *.
  pose proof (civil_from_days_inv (t / 86400000)) as Hinv.
  assert (Hrange : -100000001 <= t / 86400000 <= 100000001)
    by (Z.div_mod_to_equations; lia).
  pose proof (civil_year_bound (t / 86400000) Hrange) as Hy.
  destruct (civil_from_days (t / 86400000)) as [[y m] d].
  cbn [fst] in Hy. destruct Hinv as (Hdays & Hm & Hd).
  pose proof (Z.mod_pos_bound t 86400000 ltac:(lia)) as Hms.
  set (ms := t mod 86400000) in *.
  unfold parse_fields.
  rewrite take_year_text by exact Hy.
  repeat (rewrite bind_Some; cbv beta iota;
          rewrite ?append_cons, ?append_nil; cbn [expect];
          rewrite ?Ascii.eqb_refl;
          try rewrite take_digits_pad_small by (simpl; Z.div_mod_to_equations; lia)).
  rewrite !Z.mul_0_l, !Z.add_0_l.
  f_equal. rewrite Hdays. unfold ms_per_day.
  pose proof (Z.div_mod t 86400000 ltac:(lia)) as Hsplit. fold ms in Hsplit.
  Z.div_mod_to_equations; lia.
Qed.

Lemma parse_iso_toISOString t :
  Z.abs t <= max_time -> parse_iso (toISOString t) = Some t.
Proof.
  intros Ht. unfold parse_iso. rewrite parse_fields_toISOString by exact Ht.
  rewrite String.eqb_refl. replace (Z.abs t <=? max_time) with true by lia.
  reflexivity.
Qed.

(** ** JSON: what is stored reads back *)

Lemma value_induction (P : value -> Prop) :
  P VUndefined -> P VNull -> (forall b, P (VBool b)) -> (forall n, P (VNum n)) ->
  (forall s, P (VStr s)) -> (forall t, P (VDate t)) -> (forall f, P (VFun f)) ->
  (forall items, Forall P items -> P (VArr items)) ->
  (forall fields, Forall (fun kv => P kv.2) fields -> P (VObj fields)) ->
  forall v, P v.
Proof.
  intros Hu Hn Hb Hnum Hs Hd Hf Harr Hobj.
  fix IH 1. intros [ | | b | n | s | t | f | items | fields].
  - exact Hu.
  - exact Hn.
  - apply Hb.
  - apply Hnum.
  - apply Hs.
  - apply Hd.
  - apply Hf.
  - apply Harr. induction items as [|x xs IHxs]; constructor; [apply IH | exact IHxs].
  - apply Hobj. induction fields as [|[k x] xs IHxs]; constructor; [apply IH | exact IHxs].
Qed.

Lemma plain_roundtrip v :
  plain v = true -> exists j, serialize v = Some j /\ revive j = v.
Proof.
  induction v as [ | | b | [z|] | s | t | f | items IH | fields IH ]
    using value_induction; cbn [plain serialize]; intros Hp;
    try discriminate; try (eexists; split; reflexivity).
  - eexists; split; [reflexivity|]. cbn [revive]. f_equal.
    induction IH as [|x xs Hx _ IHxs]; [reflexivity|].
    cbn [forallb] in Hp. apply andb_true_iff in Hp as [Hpx Hpxs].
    destruct (Hx Hpx) as (j & Hj & Hr).
    cbn [map]. rewrite Hj. cbn [default map]. unfold id. rewrite Hr. f_equal.
    apply (IHxs Hpxs).
  - eexists; split; [reflexivity|]. cbn [revive]. f_equal.
    induction IH as [|[k x] xs Hx _ IHxs]; [reflexivity|].
    cbn [forallb snd] in Hp. apply andb_true_iff in Hp as [Hpx Hpxs].
    destruct (Hx Hpx) as (j & Hj & Hr). cbn [snd] in Hj.
    cbn [omap list_omap fst snd]. rewrite Hj.
    cbn [fmap option_fmap option_map map fst snd].
    rewrite Hr. f_equal. apply (IHxs Hpxs).
Qed.

Lemma assoc_assign {A} k (x : A) l : assoc k (assign k x l) = Some x.
Proof.
  induction l as [|[k' y] l IH]; cbn [assign assoc].
  - rewrite String.eqb_refl. reflexivity.
  - destruct (String.eqb k' k) eqn:E; cbn [assoc].
    + rewrite String.eqb_refl. reflexivity.
    + rewrite E. exact IH.
Qed.

Lemma assign_assign {A} k (x y : A) l : assign k x (assign k y l) = assign k x l.
Proof.
  induction l as [|[k' z] l IH]; cbn [assign].
  - rewrite String.eqb_refl. reflexivity.
  - destruct (String.eqb k' k) eqn:E; cbn [assign].
    + rewrite String.eqb_refl. reflexivity.
    + rewrite E, IH. reflexivity.
Qed.

Lemma assign_id {A} k (x : A) l : assoc k l = Some x -> assign k x l = l.
Proof.
  induction l as [|[k' z] l IH]; cbn [assign assoc]; [discriminate|].
  destruct (String.eqb k' k) eqn:E.
  - intros [= ->]. apply String.eqb_eq in E as ->. reflexivity.
  - intros H. rewrite (IH H). reflexivity.
Qed.

Lemma plain_fields fields :
  forallb (fun kv : string * value => plain kv.2) fields = true ->
  map (fun kv : string * json => (kv.1, revive kv.2))
      (omap (fun kv : string * value => pair kv.1 <$> serialize kv.2) fields) = fields.
Proof.
  intros H. destruct (plain_roundtrip (VObj fields) H) as (j & Hj & Hr).
  cbn [serialize] in Hj. injection Hj as <-. cbn [revive] in Hr.
  injection Hr as Hr. exact Hr.
Qed.

(** Serializing and reviving an object whose bindings are plain, except
    the first binding of [k] which turns into [rt c]. *)
Lemma shaped_fields k q (rt : value -> value) fields :
  (forall c, q c = true -> exists j, serialize c = Some j /\ revive j = rt c) ->
  shaped k plain q fields = true ->
  exists c,
    assoc k fields = Some c /\ q c = true
    /\ map (fun kv : string * json => (kv.1, revive kv.2))
          (omap (fun kv : string * value => pair kv.1 <$> serialize kv.2) fields)
       = assign k (rt c) fields.
Proof.
  intros Hq. induction fields as [|[k' v] rest IH]; cbn [shaped]; [discriminate|].
  cbn [assoc assign]. destruct (String.eqb k' k) eqn:E; intros H;
    apply andb_true_iff in H as [Hv Hrest].
  - exists v. split; [reflexivity|]. split; [exact Hv|].
    destruct (Hq v Hv) as (j & Hj & Hr).
    cbn [omap list_omap fst snd]. rewrite Hj.
    cbn [fmap option_fmap option_map map fst snd].
    rewrite Hr, (plain_fields rest Hrest).
    apply String.eqb_eq in E as ->. reflexivity.
  - destruct (IH Hrest) as (c & Hc & Hqc & Heq). exists c.
    split; [exact Hc|]. split; [exact Hqc|].
    destruct (plain_roundtrip v Hv) as (j & Hj & Hr).
    cbn [omap list_omap fst snd]. rewrite Hj.
    cbn [fmap option_fmap option_map map fst snd].
    rewrite Hr. f_equal. exact Heq.
Qed.

Lemma valid_date_json d :
  valid_date d = true -> exists j, serialize d = Some j /\ revive j = stored_date d.
Proof.
  destruct d as [ | | | | |[t|]| | | ]; cbn [valid_date]; try discriminate.
  intros _. eexists. split; reflexivity.
Qed.

Lemma cookie_json c :
  match c with
  | VObj cs => shaped "expires" plain valid_date cs
  | _ => false
  end = true ->
  exists j, serialize c = Some j /\ revive j = stored_cookie c.
Proof.
  destruct c as [ | | | | | | | |cs]; try discriminate. intros H.
  destruct (shaped_fields _ _ stored_date cs valid_date_json H) as (d & Hd & _ & Heq).
  exists (JObj (omap (fun kv : string * value => pair kv.1 <$> serialize kv.2) cs)).
  split; [reflexivity|]. cbn [revive stored_cookie].
  rewrite Hd, Heq. reflexivity.
Qed.

Lemma deserialize_stringify p :
  session_payload p = true ->
  exists doc, JSON_stringify p = Some (JsonText doc)
              /\ AuthExpressStore.deserialize (Some (JsonText doc)) = Normal p.
Proof.
  destruct p as [ | | | | | | | |fields]; try discriminate.
  unfold session_payload. intros H.
  destruct (shaped_fields _ _ stored_cookie fields cookie_json H)
    as (c & Hc & Hqc & Heq).
  exists (JObj (omap (fun kv : string * value => pair kv.1 <$> serialize kv.2) fields)).
  split; [reflexivity|].
  unfold AuthExpressStore.deserialize. cbn [JSON_parse revive]. rewrite Heq.
  cbn [member]. rewrite assoc_assign. cbn [default]. unfold id.
  destruct c as [ | | | | | | | |cs]; try discriminate.
  pose proof Hqc as Hs.
  destruct (shaped_fields _ _ stored_date cs valid_date_json Hs) as (d & Hd & Hvd & _).
  cbn [stored_cookie]. rewrite Hd.
  destruct d as [ | | | | |[t|]| | | ]; try discriminate. cbn [valid_date] in Hvd.
  cbn [stored_date member]. rewrite assoc_assign. cbn [default Date_parse]. unfold id.
  cbn [Date_parse].
  rewrite parse_iso_toISOString by lia.
  cbn [new_Date]. rewrite Hvd. cbn [set_member].
  rewrite !assign_assign, (assign_id _ _ _ Hd), (assign_id _ _ _ Hc).
  reflexivity.
Qed.

(** ** Running a query to its callback *)

Local Open Scope list_scope.
Local Open Scope Z_scope.

Lemma lookup_newest {A} (l : list A) (x : A) : (l ++ [x]) !! Datatypes.length l = Some x.
Proof. rewrite lookup_app_r by lia. rewrite Nat.sub_diag. reflexivity. Qed.

Lemma insert_newest {A} (l : list A) (x y : A) :
  <[Datatypes.length l := y]> (l ++ [x]) = l ++ [y].
Proof.
  rewrite insert_app_r_alt by lia. rewrite Nat.sub_diag. reflexivity.
Qed.

Lemma finalCallback_newest callback error data r db conns tr st :
  finalCallback callback error data
    (mkWorld r db (conns ++ [mkConnection st false]) (Some (Datatypes.length conns)) tr)
  = (Normal tt,
     mkWorld r db
       (conns ++ [mkConnection disconnected
                    (match st with disconnected => false | _ => true end)])
       (Some (Datatypes.length conns))
       (tr ++ [EvClose (Datatypes.length conns)]
           ++ (match st with disconnected => [] | _ => [EvDestroy (Datatypes.length conns)] end)
           ++ notify callback error data)).
Proof.
  unfold finalCallback, bind, closeDatabaseConnection. cbn [connection connections].
  rewrite lookup_newest. cbn [state].
  destruct st; cbn [reachable tables connections connection trace];
    rewrite ?insert_newest;
    destruct callback; cbn [typeof String.eqb Ascii.eqb Bool.eqb negb notify];
    unfold ret, emit; cbn [reachable tables connections connection trace];
    rewrite <- ?app_assoc; cbn [app]; rewrite ?app_nil_r; reflexivity.
Qed.

(** An operation whose query callback ends in [finalCallback]. *)
Lemma run_query q k w callback error data :
  (forall w', k (answer w q).1 w' = finalCallback callback error data w') ->
  run (connectToDatabase ;; query q k) w
  = (completed, settled w q (answer w q).2 callback error data).
Proof.
  intros Hk. unfold run, bind, connectToDatabase, query, deliver, settled, answer in *.
  cbn [connection connections p_connection p_query p_callback reachable tables trace].
  rewrite lookup_newest. cbn [destroyed].
  destruct (reachable w) eqn:Hr.
  - destruct (exec q (tables w)) as [r db] eqn:He. cbn [fst snd] in *.
    rewrite insert_newest, Hk, finalCallback_newest.
    rewrite <- !app_assoc. reflexivity.
  - cbn [fst snd] in *. rewrite Hk, <- Hr.
    destruct w as [r db conns c tr]. cbn in *. subst r.
    rewrite finalCallback_newest. rewrite <- !app_assoc. reflexivity.
Qed.

(** An operation whose query callback raises before [finalCallback]. *)
Lemma run_query_throw q k w e :
  reachable w = true ->
  (forall w', k (exec q (tables w)).1 w' = (Throw e, w')) ->
  run (connectToDatabase ;; query q k) w
  = (thrown_in_callback e,
     mkWorld true (exec q (tables w)).2
       (connections w ++ [mkConnection authenticated false])
       (Some (Datatypes.length (connections w)))
       (trace w ++ [EvConnect (Datatypes.length (connections w));
                    EvQuery (Datatypes.length (connections w)) q])).
Proof.
  intros Hr Hk. unfold run, bind, connectToDatabase, query, deliver.
  cbn [connection connections p_connection p_query p_callback reachable tables trace].
  rewrite lookup_newest. cbn [destroyed]. rewrite Hr.
  destruct (exec q (tables w)) as [r db] eqn:He. cbn [fst snd] in *.
  rewrite insert_newest, Hk, <- !app_assoc. reflexivity.
Qed.

Lemma called_settled w q db f error data :
  called (settled w q db (VFun f) error data) = called w ++ [(f, error, data)].
Proof.
  unfold settled, called. cbn [trace]. rewrite !omap_app.
  destruct (reachable w); reflexivity.
Qed.

Lemma serves_settled s w q rows rows' callback error data :
  serves s w rows ->
  serves s (settled w q (<[tableName s := mkTable (columnNames s) rows']> (tables w))
              callback error data) rows'.
Proof.
  intros [Hr Ht]. split; [exact Hr|]. cbn [tables settled]. apply lookup_insert_eq.
Qed.

Lemma serves_settled_same s w q rows callback error data :
  serves s w rows -> serves s (settled w q (tables w) callback error data) rows.
Proof. intros [Hr Ht]. split; [exact Hr|exact Ht]. Qed.

(** ** The operations against a reachable server *)

Lemma run_lift {A} (x : A) (f : A -> M Pending) w :
  run (bind (lift (Normal x)) f) w = run (f x) w.
Proof. reflexivity. Qed.

Lemma run_lift_throw {A} e (f : A -> M Pending) w :
  run (bind (lift (Throw e)) f) w = (thrown_to_caller e, w).
Proof. reflexivity. Qed.

Lemma expiry_inv session e :
  expiry session = Some e ->
  exists cookie timeExpires,
    member session "cookie" = Normal cookie
    /\ member cookie "expires" = Normal timeExpires
    /\ Date_parse timeExpires = Num e.
Proof.
  unfold expiry.
  destruct (member session "cookie") as [cookie|] eqn:Hc; [|discriminate].
  destruct (member cookie "expires") as [te|] eqn:Hte; [|discriminate].
  destruct (Date_parse te) as [z|] eqn:Hd; [|discriminate].
  intros [= ->]. exists cookie, te. repeat split; assumption.
Qed.

(** Where one property can be read, any can. *)
Lemma member_defined v k c k' :
  member v k = Normal c -> member v k' = Normal (optional_member v k').
Proof. destruct v; try discriminate; reflexivity. Qed.

Lemma answer_serves s w rows q :
  serves s w rows -> answer w q = exec q (tables w).
Proof. intros [Hr _]. unfold answer. rewrite Hr. reflexivity. Qed.

Lemma set_run s w rows sessionID session callback e u d :
  serves s w rows ->
  expiry session = Some e ->
  owner session = inr u ->
  JSON_stringify session = Some d ->
  run (set s sessionID session callback) w
  = (completed,
     settled w (set_statement s sessionID session e)
       (match rows !! sessionID with
        | Some _ => tables w
        | None =>
            <[tableName s := mkTable (columnNames s)
                               (<[sessionID := mkRow e d u]> rows)]> (tables w)
        end)
       callback err_null omitted).
Proof.
  intros Hs He Hu Hd. destruct (expiry_inv _ _ He) as (cookie & te & Hc & Hte & Hp).
  unfold set.
  rewrite Hc, run_lift, Hte, run_lift, (member_defined _ _ _ "passport" Hc), run_lift, Hp.
  fold (set_statement s sessionID session e).
  pose proof (answer_serves _ _ _ (set_statement s sessionID session e) Hs) as Ha.
  destruct Hs as [Hr Ht].
  assert (Hex : exec (set_statement s sessionID session e) (tables w)
                = (inr (OkPacket (match rows !! sessionID with Some _ => 0 | None => 1 end)),
                   match rows !! sessionID with
                   | Some _ => tables w
                   | None =>
                       <[tableName s := mkTable (columnNames s)
                                          (<[sessionID := mkRow e d u]> rows)]> (tables w)
                   end)).
  { unfold set_statement, exec. rewrite Ht. cbn [t_columns t_rows].
    rewrite !String.eqb_refl. cbn [andb]. unfold owner in Hu. rewrite Hu, Hd.
    destruct (rows !! sessionID); reflexivity. }
  rewrite (run_query _ _ _ callback err_null omitted).
  - rewrite Ha, Hex. reflexivity.
  - intros w'. rewrite Ha, Hex. reflexivity.
Qed.

Lemma touch_run s w rows sessionID session callback e d :
  serves s w rows ->
  expiry session = Some e ->
  JSON_stringify session = Some d ->
  run (touch s sessionID session callback) w
  = (completed,
     settled w (touch_statement s sessionID session e)
       (match rows !! sessionID with
        | Some r =>
            <[tableName s := mkTable (columnNames s)
                               (<[sessionID := mkRow e d (r_user r)]> rows)]> (tables w)
        | None => tables w
        end)
       callback err_null omitted).
Proof.
  intros Hs He Hd. destruct (expiry_inv _ _ He) as (cookie & te & Hc & Hte & Hp).
  unfold touch. rewrite Hc, run_lift, Hte, run_lift, Hp.
  fold (touch_statement s sessionID session e).
  pose proof (answer_serves _ _ _ (touch_statement s sessionID session e) Hs) as Ha.
  destruct Hs as [Hr Ht].
  assert (Hex : exec (touch_statement s sessionID session e) (tables w)
                = (inr (OkPacket (match rows !! sessionID with Some _ => 1 | None => 0 end)),
                   match rows !! sessionID with
                   | Some r =>
                       <[tableName s := mkTable (columnNames s)
                                          (<[sessionID := mkRow e d (r_user r)]> rows)]> (tables w)
                   | None => tables w
                   end)).
  { unfold touch_statement, exec. rewrite Ht. cbn [t_columns t_rows].
    rewrite !String.eqb_refl. cbn [andb]. rewrite Hd.
    destruct (rows !! sessionID); reflexivity. }
  rewrite (run_query _ _ _ callback err_null omitted).
  - rewrite Ha, Hex. reflexivity.
  - intros w'. rewrite Ha, Hex. reflexivity.
Qed.

Lemma get_exec s db rows sessionID now :
  db !! tableName s = Some (mkTable (columnNames s) rows) ->
  exec (get_statement s sessionID now) db
  = (inr (DataRows
            (match rows !! sessionID with
             | Some r =>
                 if bool_decide (now <= r_expires r)
                 then [(c_data (columnNames s), r_data r)] else []
             | None => []
             end)), db).
Proof.
  intros Ht. unfold get_statement, exec. rewrite Ht. cbn [t_columns t_rows].
  rewrite !String.eqb_refl. cbn [andb].
  destruct (rows !! sessionID) as [r|]; [|reflexivity].
  destruct (bool_decide (now <= r_expires r)); reflexivity.
Qed.

Lemma get_run_hit s w rows sessionID callback now r v :
  serves s w rows ->
  rows !! sessionID = Some r ->
  now <= r_expires r ->
  deserialize (field_DATA (c_data (columnNames s), r_data r)) = Normal v ->
  run (get s sessionID callback now) w
  = (completed,
     settled w (get_statement s sessionID now) (tables w) callback err_null (payload v)).
Proof.
  intros Hs Hrow Hnow Hv. unfold get. fold (get_statement s sessionID now).
  pose proof (answer_serves _ _ _ (get_statement s sessionID now) Hs) as Ha.
  destruct Hs as [Hr Ht]. pose proof (get_exec s _ _ sessionID now Ht) as Hex.
  rewrite Hrow, bool_decide_true in Hex by exact Hnow.
  rewrite (run_query _ _ _ callback err_null (payload v)).
  - rewrite Ha, Hex. reflexivity.
  - intros w'. rewrite Ha, Hex. cbn [fst]. unfold bind, lift. rewrite Hv. reflexivity.
Qed.

Lemma get_run_miss s w rows sessionID callback now :
  serves s w rows ->
  (forall r, rows !! sessionID = Some r -> r_expires r < now) ->
  run (get s sessionID callback now) w
  = (completed,
     settled w (get_statement s sessionID now) (tables w) callback err_null omitted).
Proof.
  intros Hs Hmiss. unfold get. fold (get_statement s sessionID now).
  pose proof (answer_serves _ _ _ (get_statement s sessionID now) Hs) as Ha.
  destruct Hs as [Hr Ht]. pose proof (get_exec s _ _ sessionID now Ht) as Hex.
  assert (Hnone : match rows !! sessionID with
                  | Some r =>
                      if bool_decide (now <= r_expires r)
                      then [(c_data (columnNames s), r_data r)] else []
                  | None => []
                  end = []).
  { destruct (rows !! sessionID) as [r|] eqn:E; [|reflexivity].
    rewrite bool_decide_false; [reflexivity|]. specialize (Hmiss r eq_refl). lia. }
  rewrite Hnone in Hex.
  rewrite (run_query _ _ _ callback err_null omitted).
  - rewrite Ha, Hex. reflexivity.
  - intros w'. rewrite Ha, Hex. reflexivity.
Qed.

Lemma get_run_throw s w rows sessionID callback now r e :
  serves s w rows ->
  rows !! sessionID = Some r ->
  now <= r_expires r ->
  deserialize (field_DATA (c_data (columnNames s), r_data r)) = Throw e ->
  run (get s sessionID callback now) w
  = (thrown_in_callback e,
     mkWorld true (tables w)
       (connections w ++ [mkConnection authenticated false])
       (Some (Datatypes.length (connections w)))
       (trace w ++ [EvConnect (Datatypes.length (connections w));
                    EvQuery (Datatypes.length (connections w))
                            (get_statement s sessionID now)])).
Proof.
  intros [Hr Ht] Hrow Hnow Hv. unfold get. fold (get_statement s sessionID now).
  pose proof (get_exec s _ _ sessionID now Ht) as Hex.
  rewrite Hrow, bool_decide_true in Hex by exact Hnow.
  rewrite (run_query_throw _ _ _ e Hr).
  - rewrite Hex. reflexivity.
  - intros w'. rewrite Hex. cbn [fst]. unfold bind, lift. rewrite Hv. reflexivity.
Qed.

Lemma expiry_stringify session e :
  expiry session = Some e -> exists d, JSON_stringify session = Some d.
Proof.
  destruct session as [ | | | | | | | |fields]; try discriminate.
  intros _. eexists. reflexivity.
Qed.

Lemma select_all_ge_exec s db rows now :
  db !! tableName s = Some (mkTable (columnNames s) rows) ->
  exec (SelectAllGe (tableName s) (c_expires (columnNames s)) now) db
  = (inr (FullRows (row_object (columnNames s) <$> map_to_list (unexpired now rows))), db).
Proof.
  intros Ht. unfold exec. rewrite Ht. cbn [t_columns t_rows].
  rewrite String.eqb_refl. reflexivity.
Qed.

Lemma select_all_lt_exec s db rows now :
  db !! tableName s = Some (mkTable (columnNames s) rows) ->
  exec (SelectAllLt (tableName s) (c_expires (columnNames s)) now) db
  = (inr (FullRows (row_object (columnNames s) <$> map_to_list (MySQL.expired now rows))), db).
Proof.
  intros Ht. unfold exec. rewrite Ht. cbn [t_columns t_rows].
  rewrite String.eqb_refl. reflexivity.
Qed.

Lemma select_count_ge_exec s db rows now :
  db !! tableName s = Some (mkTable (columnNames s) rows) ->
  exec (SelectCountGe (tableName s) (c_expires (columnNames s)) now) db
  = (inr (CountRow (Z.of_nat (size (unexpired now rows)))), db).
Proof.
  intros Ht. unfold exec. rewrite Ht. cbn [t_columns t_rows].
  rewrite String.eqb_refl. reflexivity.
Qed.

Lemma select_count_lt_exec s db rows now :
  db !! tableName s = Some (mkTable (columnNames s) rows) ->
  exec (SelectCountLt (tableName s) (c_expires (columnNames s)) now) db
  = (inr (CountRow (Z.of_nat (size (MySQL.expired now rows)))), db).
Proof.
  intros Ht. unfold exec. rewrite Ht. cbn [t_columns t_rows].
  rewrite String.eqb_refl. reflexivity.
Qed.

Lemma all_run s w rows callback now :
  serves s w rows ->
  run (all s callback now) w
  = (completed,
     settled w (SelectAllGe (tableName s) (c_expires (columnNames s)) now) (tables w)
       callback err_null
       (rowset (row_object (columnNames s) <$> map_to_list (unexpired now rows)))).
Proof.
  intros Hs. unfold all.
  pose proof (answer_serves _ _ _
    (SelectAllGe (tableName s) (c_expires (columnNames s)) now) Hs) as Ha.
  destruct Hs as [Hr Ht]. pose proof (select_all_ge_exec s _ _ now Ht) as Hex.
  rewrite (run_query _ _ _ callback err_null
             (rowset (row_object (columnNames s) <$> map_to_list (unexpired now rows)))).
  - rewrite Ha, Hex. reflexivity.
  - intros w'. rewrite Ha, Hex. reflexivity.
Qed.

Lemma expired_run s w rows callback now :
  serves s w rows ->
  run (AuthExpressStore.expired s callback now) w
  = (completed,
     settled w (SelectAllLt (tableName s) (c_expires (columnNames s)) now) (tables w)
       callback err_null
       (rowset (row_object (columnNames s) <$> map_to_list (MySQL.expired now rows)))).
Proof.
  intros Hs. unfold AuthExpressStore.expired.
  pose proof (answer_serves _ _ _
    (SelectAllLt (tableName s) (c_expires (columnNames s)) now) Hs) as Ha.
  destruct Hs as [Hr Ht]. pose proof (select_all_lt_exec s _ _ now Ht) as Hex.
  rewrite (run_query _ _ _ callback err_null
             (rowset (row_object (columnNames s) <$> map_to_list (MySQL.expired now rows)))).
  - rewrite Ha, Hex. reflexivity.
  - intros w'. rewrite Ha, Hex. reflexivity.
Qed.

Lemma length_run s w rows callback now :
  serves s w rows ->
  run (AuthExpressStore.length s callback now) w
  = (completed,
     settled w (SelectCountGe (tableName s) (c_expires (columnNames s)) now) (tables w)
       callback err_null (scalar (CNum (Z.of_nat (size (unexpired now rows)))))).
Proof.
  intros Hs. unfold AuthExpressStore.length.
  pose proof (answer_serves _ _ _
    (SelectCountGe (tableName s) (c_expires (columnNames s)) now) Hs) as Ha.
  destruct Hs as [Hr Ht]. pose proof (select_count_ge_exec s _ _ now Ht) as Hex.
  rewrite (run_query _ _ _ callback err_null
             (scalar (CNum (Z.of_nat (size (unexpired now rows)))))).
  - rewrite Ha, Hex. reflexivity.
  - intros w'. rewrite Ha, Hex. reflexivity.
Qed.

Lemma expiredLength_run s w rows callback now :
  serves s w rows ->
  run (expiredLength s callback now) w
  = (completed,
     settled w (SelectCountLt (tableName s) (c_expires (columnNames s)) now) (tables w)
       callback err_null (scalar (CNum (Z.of_nat (size (MySQL.expired now rows)))))).
Proof.
  intros Hs. unfold expiredLength.
  pose proof (answer_serves _ _ _
    (SelectCountLt (tableName s) (c_expires (columnNames s)) now) Hs) as Ha.
  destruct Hs as [Hr Ht]. pose proof (select_count_lt_exec s _ _ now Ht) as Hex.
  rewrite (run_query _ _ _ callback err_null
             (scalar (CNum (Z.of_nat (size (MySQL.expired now rows)))))).
  - rewrite Ha, Hex. reflexivity.
  - intros w'. rewrite Ha, Hex. reflexivity.
Qed.

Lemma row_object_inj cols kv kv' : row_object cols kv = row_object cols kv' -> kv = kv'.
Proof.
  destruct kv as [k [e d u]], kv' as [k' [e' d' u']]. unfold row_object. cbn [fst snd r_expires r_data r_user].
  intros H. injection H as -> -> -> ->. reflexivity.
Qed.

Lemma elem_of_rowset cols (m : gmap string Row) k r :
  row_object cols (k, r) ∈ row_object cols <$> map_to_list m <-> m !! k = Some r.
Proof.
  rewrite list_elem_of_fmap. split.
  - intros ([k' r'] & Heq & Hin). apply row_object_inj in Heq. injection Heq as -> ->.
    apply elem_of_map_to_list. exact Hin.
  - intros H. exists (k, r). split; [reflexivity|]. apply elem_of_map_to_list. exact H.
Qed.

Lemma expired_complement now (rows : gmap string Row) :
  MySQL.expired now rows = filter (fun kv => ~ now <= r_expires kv.2) rows.
Proof.
  unfold MySQL.expired. apply map_filter_ext. intros i x _. cbn [snd]. lia.
Qed.

Lemma partition_size now (rows : gmap string Row) :
  (size (unexpired now rows) + size (MySQL.expired now rows) = size rows)%nat.
Proof.
  rewrite expired_complement. unfold unexpired.
  rewrite <- map_size_disj_union by apply map_disjoint_filter_complement.
  rewrite map_filter_union_complement. reflexivity.
Qed.

(** ** Every operation ends in [finalCallback] *)

(** What [exec] can answer to the select of [get]. *)
Lemma select_data_answers dataCol table idCol sessionID expiresCol now db :
  let q := SelectData dataCol table idCol sessionID expiresCol now in
  (exists e, exec q db = (inl e, db))
  \/ exec q db = (inr (DataRows []), db)
  \/ exists t r,
       db !! table = Some t /\ t_rows t !! sessionID = Some r /\ now <= r_expires r
       /\ exec q db = (inr (DataRows [(dataCol, r_data r)]), db).
Proof.
  cbv zeta. unfold exec. destruct (db !! table) as [t|] eqn:Ht; [|left; eauto].
  destruct (_ && _); [|left; eauto].
  destruct (t_rows t !! sessionID) as [r|] eqn:Hr; [|right; left; reflexivity].
  destruct (bool_decide (now <= r_expires r)) eqn:Hb; [|right; left; reflexivity].
  apply bool_decide_eq_true in Hb. right. right. exists t, r. auto.
Qed.

(** What [exec] can answer to a count. *)
Lemma select_count_answers q db :
  (exists table expiresCol now,
     q = SelectCountGe table expiresCol now \/ q = SelectCountLt table expiresCol now) ->
  (exists e, exec q db = (inl e, db)) \/ (exists n, exec q db = (inr (CountRow n), db)).
Proof.
  intros (table & col & now & [-> | ->]); unfold exec;
    (destruct (db !! table) as [t|]; [|left; eauto]);
    (destruct (String.eqb col (c_expires (t_columns t))); [right|left]; eauto).
Qed.

Lemma answer_cases w q :
  (reachable w = true /\ answer w q = exec q (tables w))
  \/ (reachable w = false /\ answer w q = (inl ECONNREFUSED, tables w)).
Proof. unfold answer. destruct (reachable w); auto. Qed.

(** Every well-formed call runs to [finalCallback]: it completes, and
    the world it leaves is [settled] with the error and data [handed]
    gives for the server's answer. *)
Lemma operation_hands s op w :
  well_formed_call s op w ->
  exists q,
    statement s op = Some q
    /\ run (perform s op) w
       = (completed,
          settled w q (answer w q).2 (callback_of op)
                  (handed op (answer w q).1).1 (handed op (answer w q).1).2).
Proof.
  intros Hwf.
  assert (Hshape : forall q k,
             perform s op = (connectToDatabase ;; query q k) ->
             statement s op = Some q ->
             (forall w', k (answer w q).1 w'
                         = finalCallback (callback_of op) (handed op (answer w q).1).1
                                         (handed op (answer w q).1).2 w') ->
             exists q,
               statement s op = Some q
               /\ run (perform s op) w
                  = (completed,
                     settled w q (answer w q).2 (callback_of op)
                             (handed op (answer w q).1).1 (handed op (answer w q).1).2)).
  { intros q k Hop Hst Hk. exists q. rewrite Hop. split; [exact Hst|].
    apply (run_query _ _ _ _ _ _ Hk). }
  assert (Hplain : forall q k,
             perform s op = (connectToDatabase ;; query q k) ->
             statement s op = Some q ->
             (forall a w', k a w' = finalCallback (callback_of op) (handed op a).1
                                                  (handed op a).2 w') ->
             exists q,
               statement s op = Some q
               /\ run (perform s op) w
                  = (completed,
                     settled w q (answer w q).2 (callback_of op)
                             (handed op (answer w q).1).1 (handed op (answer w q).1).2))
    by (intros q k Hop Hst Hk; apply (Hshape q k Hop Hst); intros w'; apply Hk).
  destruct op as [cb now|cb|sid cb|sid cb now|cb now|sid session cb|sid session cb
                 |cb now|cb now|cb now|u cb|cb]; cbn [perform callback_of] in *.
  - (* all *)
    eapply Hplain; [reflexivity | reflexivity | intros [e|r] w'; reflexivity].
  - (* clear *)
    eapply Hplain; [reflexivity | reflexivity | intros [e|r] w'; reflexivity].
  - (* destroy *)
    eapply Hplain; [reflexivity | reflexivity | intros [e|r] w'; reflexivity].
  - (* get *)
    set (q := get_statement s sid now).
    apply (Hshape q _ eq_refl eq_refl). intros w'.
    destruct (answer_cases w q) as [[Hr Ha]|[Hr Ha]]; rewrite Ha; [|reflexivity].
    destruct (select_data_answers (c_data (columnNames s)) (tableName s)
                (c_sessionID (columnNames s)) sid (c_expires (columnNames s)) now
                (tables w)) as [[e He]|[He|(t & r & Ht & Hrow & Hnow & He)]];
      fold (get_statement s sid now) in He; fold q in He; rewrite He;
      try reflexivity.
    destruct (Hwf t r Hr Ht Hrow Hnow) as (v & Hv).
    cbn [fst snd handed]. unfold bind, lift. rewrite Hv. reflexivity.
  - (* length *)
    set (q := SelectCountGe (tableName s) (c_expires (columnNames s)) now).
    apply (Hshape q _ eq_refl eq_refl). intros w'.
    destruct (answer_cases w q) as [[Hr Ha]|[Hr Ha]]; rewrite Ha; [|reflexivity].
    destruct (select_count_answers q (tables w)) as [[e He]|[n He]];
      [unfold q; eauto 10 | |]; rewrite He; reflexivity.
  - (* set *)
    destruct Hwf as (cookie & te & Hc & Hte).
    pose proof (member_defined _ _ _ "passport" Hc) as Hpass.
    eapply Hplain;
      [ unfold set; rewrite Hc; unfold bind at 1, lift at 1; rewrite Hte;
        unfold bind at 1, lift at 1; rewrite Hpass; reflexivity
      | unfold statement, perform, set, bind, lift; rewrite Hc, Hte, Hpass; reflexivity
      | intros [e|r] w'; reflexivity ].
  - (* touch *)
    destruct Hwf as (cookie & te & Hc & Hte).
    eapply Hplain;
      [ unfold touch; rewrite Hc; unfold bind at 1, lift at 1; rewrite Hte; reflexivity
      | unfold statement, perform, touch, bind, lift; rewrite Hc, Hte; reflexivity
      | intros [e|r] w'; reflexivity ].
  - (* expired *)
    eapply Hplain; [reflexivity | reflexivity | intros [e|r] w'; reflexivity].
  - (* expiredLength *)
    set (q := SelectCountLt (tableName s) (c_expires (columnNames s)) now).
    apply (Hshape q _ eq_refl eq_refl). intros w'.
    destruct (answer_cases w q) as [[Hr Ha]|[Hr Ha]]; rewrite Ha; [|reflexivity].
    destruct (select_count_answers q (tables w)) as [[e He]|[n He]];
      [unfold q; eauto 10 | |]; rewrite He; reflexivity.
  - (* expiredClear *)
    eapply Hplain; [reflexivity | reflexivity | intros [e|r] w'; reflexivity].
  - (* destroyUser *)
    eapply Hplain; [reflexivity | reflexivity | intros [e|r] w'; reflexivity].
  - (* createTable *)
    eapply Hplain; [reflexivity | reflexivity | intros [e|r] w'; reflexivity].
Qed.

Lemma handed_fits op a : fits op a (handed op a).1 (handed op a).2.
Proof.
  destruct a as [e|r]; [split; [split|]; reflexivity|].
  destruct op; (split; [reflexivity | cbn [no_result]; intros H; try discriminate H; reflexivity]).
Qed.

(** The same, keeping of the error and data only how they [fits] the
    answer. *)
Lemma operation_settles s op w :
  well_formed_call s op w ->
  exists q error data,
    statement s op = Some q
    /\ run (perform s op) w
       = (completed, settled w q (answer w q).2 (callback_of op) error data)
    /\ fits op (answer w q).1 error data.
Proof.
  intros Hwf. destruct (operation_hands s op w Hwf) as (q & Hst & Hrun).
  exists q, (handed op (answer w q).1).1, (handed op (answer w q).1).2.
  split; [exact Hst|]. split; [exact Hrun | apply handed_fits].
Qed.

Lemma serves_sample : serves sample_settings sample_world ∅.
Proof. split; reflexivity. Qed.

Lemma field_DATA_default s t :
  c_data (columnNames s) = "DATA" -> field_DATA (c_data (columnNames s), t) = Some t.
Proof. intros ->. reflexivity. Qed.

(** ** What a call does to the server *)

Lemma statement_table s op q : statement s op = Some q -> table_of q = tableName s.
Proof.
  unfold statement.
  destruct op as [cb now|cb|sid cb|sid cb now|cb now|sid session cb|sid session cb
                 |cb now|cb now|cb now|u cb|cb]; cbn [perform];
    try (intros [= <-]; reflexivity).
  - unfold set, bind, lift.
    destruct (member session "cookie") as [cookie|]; [|discriminate].
    destruct (member cookie "expires") as [te|]; [|discriminate].
    destruct (member session "passport") as [pass|]; [|discriminate].
    intros [= <-]. reflexivity.
  - unfold touch, bind, lift.
    destruct (member session "cookie") as [cookie|]; [|discriminate].
    destruct (member cookie "expires") as [te|]; [|discriminate].
    intros [= <-]. reflexivity.
Qed.

Lemma answer_select_data s sid now w :
  (answer w (get_statement s sid now)).2 = tables w.
Proof.
  destruct (answer_cases w (get_statement s sid now)) as [[_ ->]|[_ ->]]; [|reflexivity].
  destruct (select_data_answers (c_data (columnNames s)) (tableName s)
              (c_sessionID (columnNames s)) sid (c_expires (columnNames s)) now
              (tables w)) as [[e He]|[He|(t & r & _ & _ & _ & He)]];
    fold (get_statement s sid now) in He; rewrite He; reflexivity.
Qed.

Lemma get_tables s sid cb now w : tables (after (get s sid cb now) w) = tables w.
Proof.
  unfold after, get. fold (get_statement s sid now).
  match goal with
  | |- context [query ?q0 ?k0] => set (q := q0); set (k := k0)
  end.
  assert (Hquiet : forall error data,
            (forall w', k (answer w q).1 w' = finalCallback cb error data w') ->
            tables (run (connectToDatabase ;; query q k) w).2 = tables w).
  { intros error data Hk. rewrite (run_query _ _ _ cb error data Hk).
    cbn [snd settled tables]. apply answer_select_data. }
  destruct (answer_cases w q) as [[Hr Ha]|[Hr Ha]].
  - destruct (select_data_answers (c_data (columnNames s)) (tableName s)
                (c_sessionID (columnNames s)) sid (c_expires (columnNames s)) now
                (tables w)) as [[e He]|[He|(t & r & Ht & Hrow & Hnow & He)]];
      fold (get_statement s sid now) in He; fold q in He.
    + apply (Hquiet (err e) omitted). intros w'. rewrite Ha, He. reflexivity.
    + apply (Hquiet err_null omitted). intros w'. rewrite Ha, He. reflexivity.
    + destruct (deserialize (field_DATA (c_data (columnNames s), r_data r)))
        as [v|e] eqn:Hv.
      * apply (Hquiet err_null (payload v)). intros w'. rewrite Ha, He. cbn [fst].
        subst k. cbv beta iota. unfold bind, lift. rewrite Hv. reflexivity.
      * rewrite (run_query_throw _ _ _ e Hr).
        -- cbn [snd tables]. rewrite He. reflexivity.
        -- intros w'. rewrite He. cbn [fst]. subst k. cbv beta iota.
           unfold bind, lift. rewrite Hv. reflexivity.
  - apply (Hquiet (err ECONNREFUSED) omitted). intros w'. rewrite Ha. reflexivity.
Qed.

(** The tables after a call are those the server left when it answered
    the statement of the call; a call that raised before it had a
    statement changed nothing. *)
Lemma after_tables s op w :
  tables (after (perform s op) w)
  = match statement s op with
    | Some q => (answer w q).2
    | None => tables w
    end.
Proof.
  assert (Hwf : well_formed_call s op w ->
                tables (after (perform s op) w)
                = match statement s op with
                  | Some q => (answer w q).2
                  | None => tables w
                  end).
  { intros H. destruct (operation_settles s op w H) as (q & error & data & Hst & Hrun & _).
    unfold after. rewrite Hrun, Hst. reflexivity. }
  destruct op as [cb now|cb|sid cb|sid cb now|cb now|sid session cb|sid session cb
                 |cb now|cb now|cb now|u cb|cb];
    try (apply Hwf; exact I).
  - cbn [perform]. rewrite get_tables.
    change (statement s (OpGet sid cb now)) with (Some (get_statement s sid now)).
    symmetry. apply answer_select_data.
  - destruct (member session "cookie") as [cookie|e] eqn:Hc.
    + destruct (member cookie "expires") as [te|e] eqn:Hte.
      * apply Hwf. exists cookie, te. auto.
      * unfold statement, after. cbn [perform]. unfold set.
        rewrite Hc, run_lift, Hte, run_lift_throw.
        unfold bind, lift. rewrite Hte. reflexivity.
    + unfold statement, after. cbn [perform]. unfold set.
      rewrite Hc, run_lift_throw. reflexivity.
  - destruct (member session "cookie") as [cookie|e] eqn:Hc.
    + destruct (member cookie "expires") as [te|e] eqn:Hte.
      * apply Hwf. exists cookie, te. auto.
      * unfold statement, after. cbn [perform]. unfold touch.
        rewrite Hc, run_lift, Hte, run_lift_throw.
        unfold bind, lift. rewrite Hte. reflexivity.
    + unfold statement, after. cbn [perform]. unfold touch.
      rewrite Hc, run_lift_throw. reflexivity.
Qed.

Lemma answer_snd w q : (answer w q).2 = if reachable w then (exec q (tables w)).2 else tables w.
Proof. unfold answer. destruct (reachable w); reflexivity. Qed.

(** A call leaves the server as reachable as it found it. *)
Lemma after_reachable s op w : reachable (after (perform s op) w) = reachable w.
Proof.
  assert (Hwf : well_formed_call s op w ->
                reachable (after (perform s op) w) = reachable w).
  { intros H. destruct (operation_settles s op w H) as (q & error & data & _ & Hrun & _).
    unfold after. rewrite Hrun. reflexivity. }
  destruct op as [cb now|cb|sid cb|sid cb now|cb now|sid session cb|sid session cb
                 |cb now|cb now|cb now|u cb|cb];
    try (apply Hwf; exact I).
  - cbn [perform]. unfold after, get. fold (get_statement s sid now).
    match goal with
    | |- context [query ?q0 ?k0] => set (q := q0); set (k := k0)
    end.
    assert (Hquiet : forall error data,
              (forall w', k (answer w q).1 w' = finalCallback cb error data w') ->
              reachable (run (connectToDatabase ;; query q k) w).2 = reachable w).
    { intros error data Hk. rewrite (run_query _ _ _ cb error data Hk). reflexivity. }
    destruct (answer_cases w q) as [[Hr Ha]|[Hr Ha]].
    + destruct (select_data_answers (c_data (columnNames s)) (tableName s)
                  (c_sessionID (columnNames s)) sid (c_expires (columnNames s)) now
                  (tables w)) as [[e He]|[He|(t & r & Ht & Hrow & Hnow & He)]];
        fold (get_statement s sid now) in He; fold q in He.
      * apply (Hquiet (err e) omitted). intros w'. rewrite Ha, He. reflexivity.
      * apply (Hquiet err_null omitted). intros w'. rewrite Ha, He. reflexivity.
      * destruct (deserialize (field_DATA (c_data (columnNames s), r_data r)))
          as [v|e] eqn:Hv.
        -- apply (Hquiet err_null (payload v)). intros w'. rewrite Ha, He. cbn [fst].
           subst k. cbv beta iota. unfold bind, lift. rewrite Hv. reflexivity.
        -- rewrite (run_query_throw _ _ _ e Hr).
           ++ cbn [snd reachable]. symmetry. exact Hr.
           ++ intros w'. rewrite He. cbn [fst]. subst k. cbv beta iota.
              unfold bind, lift. rewrite Hv. reflexivity.
    + apply (Hquiet (err ECONNREFUSED) omitted). intros w'. rewrite Ha. reflexivity.
  - destruct (member session "cookie") as [cookie|e] eqn:Hc.
    + destruct (member cookie "expires") as [te|e] eqn:Hte.
      * apply Hwf. exists cookie, te. auto.
      * unfold after. cbn [perform]. unfold set.
        rewrite Hc, run_lift, Hte, run_lift_throw. reflexivity.
    + unfold after. cbn [perform]. unfold set. rewrite Hc, run_lift_throw. reflexivity.
  - destruct (member session "cookie") as [cookie|e] eqn:Hc.
    + destruct (member cookie "expires") as [te|e] eqn:Hte.
      * apply Hwf. exists cookie, te. auto.
      * unfold after. cbn [perform]. unfold touch.
        rewrite Hc, run_lift, Hte, run_lift_throw. reflexivity.
    + unfold after. cbn [perform]. unfold touch. rewrite Hc, run_lift_throw. reflexivity.
Qed.

Lemma statement_set s sid session cb q :
  statement s (OpSet sid session cb) = Some q ->
  exists cookie te,
    member session "cookie" = Normal cookie
    /\ member cookie "expires" = Normal te
    /\ q = InsertIgnore (tableName s)
             (c_sessionID (columnNames s)) (c_data (columnNames s))
             (c_expires (columnNames s)) (c_user (columnNames s))
             sid (JSON_stringify session) (Date_parse te)
             (optional_member (optional_member session "passport") "user").
Proof.
  unfold statement. cbn [perform]. unfold set, bind, lift.
  destruct (member session "cookie") as [cookie|] eqn:Hc; [|discriminate].
  destruct (member cookie "expires") as [te|] eqn:Hte; [|discriminate].
  rewrite (member_defined _ _ _ "passport" Hc).
  intros [= <-]. exists cookie, te. auto.
Qed.

Lemma statement_touch s sid session cb q :
  statement s (OpTouch sid session cb) = Some q ->
  exists cookie te,
    member session "cookie" = Normal cookie
    /\ member cookie "expires" = Normal te
    /\ q = Update (tableName s) (c_data (columnNames s)) (JSON_stringify session)
             (c_expires (columnNames s)) (Date_parse te)
             (c_sessionID (columnNames s)) sid.
Proof.
  unfold statement. cbn [perform]. unfold touch, bind, lift.
  destruct (member session "cookie") as [cookie|] eqn:Hc; [|discriminate].
  destruct (member cookie "expires") as [te|] eqn:Hte; [|discriminate].
  intros [= <-]. exists cookie, te. auto.
Qed.

(** ** The claims *)

(** C1, as amended. Insert-ignore law: after [set] stored a session
    payload [A], expiring in 1970 or later, under a session ID that had
    no row, a second [set] under that ID, whatever session [B] and
    continuation it is given, leaves every table as it was; it
    completes with no error when the expiry and the user of [B] can be
    bound; and a following [get] no later than the stored expiry of [A]
    (the expiry of its cookie, a Date, with the milliseconds dropped)
    hands over a payload equal to [A]. *)
Theorem set_twice_keeps_first s w rows sessionID A B f1 callback g ea ua now :
  c_data (columnNames s) = "DATA" ->
  serves s w rows ->
  rows !! sessionID = None ->
  session_payload A = true ->
  expiry A = Some ea ->
  0 <= ea ->
  owner A = inr ua ->
  now <= ea ->
  let w1 := after (set s sessionID A (VFun f1)) w in
  let w2 := after (set s sessionID B callback) w1 in
  run (set s sessionID A (VFun f1)) w = (completed, w1)
  /\ called w1 = called w ++ [(f1, err_null, omitted)]
  /\ tables w2 = tables w1
  /\ (forall eb ub f2,
        expiry B = Some eb -> owner B = inr ub -> callback = VFun f2 ->
        run (set s sessionID B callback) w1 = (completed, w2)
        /\ called w2 = called w1 ++ [(f2, err_null, omitted)])
  /\ exists w3,
       run (get s sessionID (VFun g) now) w2 = (completed, w3)
       /\ called w3 = called w2 ++ [(g, err_null, payload A)].
Proof.
  intros Hcol Hs Hfresh HA Hea _ Hua Hnow.
  destruct (deserialize_stringify A HA) as (doc & Hdoc & Hback).
  pose proof (set_run s w rows sessionID A (VFun f1) ea ua _ Hs Hea Hua Hdoc) as Hset1.
  rewrite Hfresh in Hset1. cbv zeta.
  replace (after (set s sessionID A (VFun f1)) w) with (run (set s sessionID A (VFun f1)) w).2
    by reflexivity.
  rewrite Hset1. cbn [snd].
  set (rows1 := <[sessionID := mkRow ea (JsonText doc) ua]> rows) in *.
  set (w1 := settled w _ _ _ _ _).
  assert (Hs1 : serves s w1 rows1) by (apply (serves_settled _ _ _ rows); exact Hs).
  assert (Hrow : rows1 !! sessionID = Some (mkRow ea (JsonText doc) ua))
    by apply lookup_insert_eq.
  assert (Ht2 : tables (after (set s sessionID B callback) w1) = tables w1).
  { pose proof (after_tables s (OpSet sessionID B callback) w1) as Ht.
    cbn [perform] in Ht. rewrite Ht.
    destruct (statement s (OpSet sessionID B callback)) as [q|] eqn:Hst; [|reflexivity].
    destruct (statement_set _ _ _ _ _ Hst) as (cookie & te & _ & _ & ->).
    destruct Hs1 as [Hr1 Ht1]. rewrite answer_snd, Hr1. unfold exec. rewrite Ht1.
    cbn [t_columns t_rows]. rewrite !String.eqb_refl, Hrow. cbn [andb].
    destruct (Date_parse te); [|reflexivity].
    destruct (user_cell _); reflexivity. }
  assert (Hs2 : serves s (after (set s sessionID B callback) w1) rows1).
  { pose proof (after_reachable s (OpSet sessionID B callback) w1) as Hr.
    cbn [perform] in Hr. destruct Hs1 as [Hr1 Ht1].
    split; [rewrite Hr; exact Hr1 | rewrite Ht2; exact Ht1]. }
  split; [reflexivity|]. split; [apply called_settled|]. split; [exact Ht2|]. split.
  - intros eb ub f2 Heb Hub ->.
    destruct (expiry_stringify B eb Heb) as (dB & HdB).
    pose proof (set_run s w1 rows1 sessionID B (VFun f2) eb ub _ Hs1 Heb Hub HdB) as Hset2.
    rewrite Hrow in Hset2. unfold after. rewrite Hset2. cbn [snd].
    split; [reflexivity | apply called_settled].
  - eexists.
    rewrite (get_run_hit s _ rows1 sessionID (VFun g) now
               (mkRow ea (JsonText doc) ua) A Hs2 Hrow Hnow)
      by (rewrite field_DATA_default by exact Hcol; exact Hback).
    split; [reflexivity | apply called_settled].
Qed.

Lemma set_twice_keeps_first_witness :
  let w1 := after (set sample_settings "abc" session_A (VFun 1)) sample_world in
  let w2 := after (set sample_settings "abc" session_B (VFun 2)) w1 in
  tables w2 = tables w1
  /\ called w2 = called w1 ++ [(2%nat, err_null, omitted)]
  /\ exists w3,
       run (get sample_settings "abc" (VFun 3) 1700000010000) w2 = (completed, w3)
       /\ called w3 = called w2 ++ [(3%nat, err_null, payload session_A)].
Proof.
  destruct (set_twice_keeps_first sample_settings sample_world ∅ "abc"
              session_A session_B 1 (VFun 2) 3
              1700000010000 "ann@example.org" 1700000010000)
    as (_ & _ & Ht & Hsecond & Hget);
    [reflexivity | apply serves_sample | reflexivity | reflexivity
    | vm_compute; reflexivity | lia | reflexivity | lia | ].
  split; [exact Ht|]. split; [|exact Hget].
  apply (Hsecond 1700000020000 "ann@example.org" 2%nat);
    [vm_compute; reflexivity | reflexivity | reflexivity].
Defined.

(** C1, as stated, fails.  The first payload is not handed back by a
    [get] made before the cookie of [A] expires, when that [get] falls
    into the last part-second (the stored expiry has no milliseconds),
    or when an expired row that was never cleared sits under the ID;
    and the second [set] reports an error when the expiry of [B] cannot
    be read. *)
Lemma set_twice_can_lose_the_first :
  called (after (get sample_settings "abc" (VFun 3) 1700000010050)
            (after (set sample_settings "abc" session_B (VFun 2))
               (after (set sample_settings "abc" session_A (VFun 1)) sample_world)))
  = [(1%nat, err_null, omitted); (2%nat, err_null, omitted); (3%nat, err_null, omitted)]
  /\ called (after (get sample_settings "xyz" (VFun 3) 1700000000000)
               (after (set sample_settings "xyz" session_B (VFun 2))
                  (after (set sample_settings "xyz" session_A (VFun 1)) stale_world)))
     = [(1%nat, err_null, omitted); (2%nat, err_null, omitted); (3%nat, err_null, omitted)]
  /\ called (after (set sample_settings "abc"
                      (VObj [("cookie", VObj [("expires", VNull)])]) (VFun 2))
               (after (set sample_settings "abc" session_A (VFun 1)) sample_world))
     = [(1%nat, err_null, omitted); (2%nat, err ER_BAD_FIELD_ERROR, omitted)].
Proof. vm_compute. repeat split. Qed.



(** C3 fails on the code: a session without a cookie makes [set] raise
    to its caller before any connection is opened; the continuation is
    never called. *)
Theorem set_without_cookie_throws s w sessionID callback :
  run (set s sessionID (VObj []) callback) w
  = (thrown_to_caller
       (TypeError "Cannot read properties of undefined (reading 'expires')"), w).
Proof. reflexivity. Qed.

(** The same for [touch]. *)
Lemma touch_without_cookie_throws s w sessionID callback :
  run (touch s sessionID (VObj []) callback) w
  = (thrown_to_caller
       (TypeError "Cannot read properties of undefined (reading 'expires')"), w).
Proof. reflexivity. Qed.

(** A stored text that is not JSON makes the query callback of [get]
    raise: the continuation is not called and the connection stays
    open. *)
Lemma get_unparsable_throws s w rows sessionID callback now r :
  c_data (columnNames s) = "DATA" ->
  serves s w rows ->
  rows !! sessionID = Some r ->
  now <= r_expires r ->
  r_data r = NotJson ->
  exists w',
    run (get s sessionID callback now) w
    = (thrown_in_callback (SyntaxError "Unexpected token in JSON"), w')
    /\ called w' = called w
    /\ connections w' !! Datatypes.length (connections w)
       = Some (mkConnection authenticated false).
Proof.
  intros Hcol Hs Hrow Hnow Hdata. eexists. split.
  - apply (get_run_throw s w rows sessionID callback now r _ Hs Hrow Hnow).
    rewrite field_DATA_default, Hdata by exact Hcol. reflexivity.
  - split; [|apply lookup_newest].
    unfold called. cbn [trace]. rewrite omap_app. cbn. apply app_nil_r.
Qed.

Example get_unparsable_throws_sample :
  (run (get sample_settings "bad" (VFun 1) 1700000000000) corrupt_world).1
  = thrown_in_callback (SyntaxError "Unexpected token in JSON").
Proof. vm_compute. reflexivity. Qed.

(** C4, as amended. Round trip: on a store whose data column is named
    DATA, with the server reachable and no row yet under [sessionID],
    [set] of a session payload (plain data around a cookie whose
    expires is a Date) expiring in 1970 or later, followed by [get] no
    later than the stored expiry (the expiry of the cookie with its
    milliseconds dropped), hands the continuation a payload equal to
    the one set. *)
Theorem set_get_round_trip s w rows sessionID p f g e u now :
  c_data (columnNames s) = "DATA" ->
  serves s w rows ->
  rows !! sessionID = None ->
  session_payload p = true ->
  expiry p = Some e ->
  0 <= e ->
  owner p = inr u ->
  now <= e ->
  let w1 := after (set s sessionID p (VFun f)) w in
  run (set s sessionID p (VFun f)) w = (completed, w1)
  /\ called w1 = called w ++ [(f, err_null, omitted)]
  /\ exists w2,
       run (get s sessionID (VFun g) now) w1 = (completed, w2)
       /\ called w2 = called w1 ++ [(g, err_null, payload p)].
Proof.
  intros Hcol Hs Hfresh Hp He _ Hu Hnow.
  destruct (deserialize_stringify p Hp) as (doc & Hdoc & Hback).
  pose proof (set_run s w rows sessionID p (VFun f) e u _ Hs He Hu Hdoc) as Hset.
  rewrite Hfresh in Hset. unfold after. rewrite Hset. cbn [snd].
  split; [reflexivity|]. split; [apply called_settled|].
  eexists. split; [|apply called_settled].
  apply (get_run_hit _ _ (<[sessionID := mkRow e (JsonText doc) u]> rows) _ _ _
           (mkRow e (JsonText doc) u)).
  - apply (serves_settled _ _ _ rows). exact Hs.
  - apply lookup_insert_eq.
  - exact Hnow.
  - rewrite field_DATA_default by exact Hcol. exact Hback.
Qed.

Lemma set_get_round_trip_witness :
  exists w2,
    run (get sample_settings "abc" (VFun 2) 1700000010000)
        (after (set sample_settings "abc" session_A (VFun 1)) sample_world)
    = (completed, w2)
    /\ called w2 = [(1%nat, err_null, omitted); (2%nat, err_null, payload session_A)].
Proof.
  destruct (set_get_round_trip sample_settings sample_world ∅ "abc" session_A 1 2
              1700000010000 "ann@example.org" 1700000010000)
    as (_ & Hc & w2 & Hrun & Hcalled);
    [reflexivity | apply serves_sample | reflexivity | reflexivity
    | vm_compute; reflexivity | lia | reflexivity | lia | ].
  exists w2. split; [exact Hrun|]. rewrite Hcalled, Hc. reflexivity.
Defined.

(** C4, as stated, fails.  A [get] made before the cookie expires finds
    nothing when it falls into the last part-second, or when an expired
    row that was never cleared sits under the ID; and a payload that
    keeps a second Date comes back with that Date as text. *)
Lemma round_trip_can_fail :
  called (after (get sample_settings "abc" (VFun 2) 1700000010050)
            (after (set sample_settings "abc" session_A (VFun 1)) sample_world))
  = [(1%nat, err_null, omitted); (2%nat, err_null, omitted)]
  /\ called (after (get sample_settings "xyz" (VFun 2) 1700000000000)
               (after (set sample_settings "xyz" session_A (VFun 1)) stale_world))
     = [(1%nat, err_null, omitted); (2%nat, err_null, omitted)]
  /\ called (after (get sample_settings "abc" (VFun 2) 1700000000000)
               (after (set sample_settings "abc"
                         (VObj [ ("cookie",
                                  VObj [ ("expires", VDate (Some 1700000010123)) ]);
                                 ("lastSeen", VDate (Some 1700000000456)) ])
                         (VFun 1)) sample_world))
     = [(1%nat, err_null, omitted);
        (2%nat, err_null,
         payload (VObj [ ("cookie", VObj [ ("expires", VDate (Some 1700000010123)) ]);
                         ("lastSeen", VStr "2023-11-14T22:13:20.456Z") ]))].
Proof. vm_compute. repeat split. Qed.

(** The expiry read from a Date has whole seconds: [Date.parse] prints
    its argument first, and a Date prints without milliseconds. *)
Lemma expiry_of_date fields cs t :
  assoc "cookie" fields = Some (VObj cs) ->
  assoc "expires" cs = Some (VDate (Some t)) ->
  expiry (VObj fields) = Some (1000 * (t / 1000)).
Proof.
  intros Hc He. unfold expiry. cbn [member]. rewrite Hc. cbn [default]. unfold id.
  cbn [member]. rewrite He. reflexivity.
Qed.

(** So a session reads as expired from the start of the second its
    cookie expires in: [session_A] expires at ...010123 and is gone at
    ...010050. *)
Example get_in_last_second_sample :
  called (after (get sample_settings "abc" (VFun 2) 1700000010050)
            (after (set sample_settings "abc" session_A (VFun 1)) sample_world))
  = [(1%nat, err_null, omitted); (2%nat, err_null, omitted)].
Proof. vm_compute. reflexivity. Qed.

(** [createTable] on a reachable server without the table leaves the
    empty table [serves] asks for; a second call changes nothing. *)
Lemma createTable_serves s w callback :
  reachable w = true ->
  tables w !! tableName s = None ->
  distinct_columns (c_sessionID (columnNames s)) (c_expires (columnNames s))
                   (c_data (columnNames s)) (c_user (columnNames s)) = true ->
  let w1 := after (createTable s callback) w in
  serves s w1 ∅
  /\ tables (after (createTable s callback) w1) = tables w1.
Proof.
  intros Hr Hnone Hdistinct. cbv zeta. unfold after, createTable.
  set (q := CreateTableIfNotExists _ _ _ _ _).
  assert (Ha : answer w q
               = (inr (OkPacket 0),
                  <[tableName s := mkTable (columnNames s) ∅]> (tables w))).
  { unfold answer, q, exec. rewrite Hr, Hnone, Hdistinct.
    destruct (columnNames s). reflexivity. }
  rewrite (run_query q _ w callback err_undefined omitted)
    by (intros w'; rewrite Ha; reflexivity).
  rewrite Ha. cbn [snd].
  set (w1 := settled w q _ callback err_undefined omitted).
  assert (Hs1 : serves s w1 ∅) by (split; [exact Hr | apply lookup_insert_eq]).
  split; [exact Hs1|].
  assert (Ha1 : answer w1 q = (inr (OkPacket 0), tables w1)).
  { destruct Hs1 as [Hr1 Ht1]. unfold answer, q, exec. rewrite Hr1, Ht1. reflexivity. }
  rewrite (run_query q _ w1 callback err_undefined omitted)
    by (intros w'; rewrite Ha1; reflexivity).
  rewrite Ha1. reflexivity.
Qed.

Example createTable_sample :
  tables (after (createTable sample_settings (VFun 0)) (mkWorld true ∅ [] None []))
  = tables sample_world.
Proof. vm_compute. reflexivity. Qed.

(** C5, as amended. Touch-overwrite law: for sessions expiring in 1970
    or later, [touch] replaces the data and expires of the row under
    [sessionID] and leaves its user, so that after [set] of a session
    [A] that can be stored and [touch] with a session payload [B], a
    [get] no later than the stored expiry of [B] (the expiry of its
    cookie with the milliseconds dropped) hands over a payload equal to
    [B], whether [set] inserted the row or found one; where no row
    matches, [touch] changes no row (the server reports zero affected
    rows) and the continuation gets no error. *)
Theorem touch_overwrites s w rows sessionID A B f1 f2 g ea ua eb now :
  c_data (columnNames s) = "DATA" ->
  serves s w rows ->
  expiry A = Some ea ->
  0 <= ea ->
  owner A = inr ua ->
  session_payload B = true ->
  expiry B = Some eb ->
  0 <= eb ->
  now <= eb ->
  let w1 := after (set s sessionID A (VFun f1)) w in
  let w2 := after (touch s sessionID B (VFun f2)) w1 in
  (run (touch s sessionID B (VFun f2)) w1 = (completed, w2)
   /\ called w2 = called w1 ++ [(f2, err_null, omitted)]
   /\ (exists d u, JSON_stringify B = Some d
                   /\ serves s w2 (<[sessionID := mkRow eb d u]> rows)
                   /\ u = match rows !! sessionID with
                          | Some r => r_user r
                          | None => ua
                          end)
   /\ exists w3,
        run (get s sessionID (VFun g) now) w2 = (completed, w3)
        /\ called w3 = called w2 ++ [(g, err_null, payload B)])
  /\ (rows !! sessionID = None ->
      let w' := after (touch s sessionID B (VFun f2)) w in
      run (touch s sessionID B (VFun f2)) w = (completed, w')
      /\ exec (touch_statement s sessionID B eb) (tables w)
         = (inr (OkPacket 0), tables w)
      /\ tables w' = tables w
      /\ called w' = called w ++ [(f2, err_null, omitted)]).
Proof.
  intros Hcol Hs Hea _ Hua HB Heb _ Hnow.
  destruct (deserialize_stringify B HB) as (doc & Hdoc & Hback).
  destruct (expiry_stringify A ea Hea) as (dA & HdA).
  cbv zeta. unfold after. split.
  - pose proof (set_run s w rows sessionID A (VFun f1) ea ua _ Hs Hea Hua HdA) as Hset.
    rewrite Hset. cbn [snd].
    set (u := match rows !! sessionID with Some r => r_user r | None => ua end).
    set (w1 := settled w _ _ _ _ _).
    assert (Hs1 : exists rows1 r1,
               serves s w1 rows1 /\ rows1 !! sessionID = Some r1 /\ r_user r1 = u
               /\ forall x, <[sessionID := x]> rows1 = <[sessionID := x]> rows).
    { subst w1 u. destruct (rows !! sessionID) as [r|] eqn:Hrow.
      - exists rows, r. split; [apply serves_settled_same; exact Hs|]. auto.
      - exists (<[sessionID := mkRow ea dA ua]> rows), (mkRow ea dA ua).
        split; [apply (serves_settled _ _ _ rows); exact Hs|].
        split; [apply lookup_insert_eq|]. split; [reflexivity|].
        intros x. apply insert_insert_eq. }
    destruct Hs1 as (rows1 & r1 & Hs1 & Hrow1 & Hu1 & Hins).
    pose proof (touch_run s w1 rows1 sessionID B (VFun f2) eb _ Hs1 Heb Hdoc) as Htouch.
    rewrite Hrow1, Hu1, Hins in Htouch. rewrite Htouch. cbn [snd].
    assert (Hs2 : serves s
                    (settled w1 (touch_statement s sessionID B eb)
                       (<[tableName s := mkTable (columnNames s)
                            (<[sessionID := mkRow eb (JsonText doc) u]> rows)]> (tables w1))
                       (VFun f2) err_null omitted)
                    (<[sessionID := mkRow eb (JsonText doc) u]> rows))
      by (apply (serves_settled _ _ _ rows1); exact Hs1).
    split; [reflexivity|]. split; [apply called_settled|].
    split; [exists (JsonText doc), u; split; [exact Hdoc | split; [exact Hs2 | reflexivity]]|].
    eexists. split; [|apply called_settled].
    apply (get_run_hit _ _ _ _ _ _ (mkRow eb (JsonText doc) u) B Hs2).
    + apply lookup_insert_eq.
    + exact Hnow.
    + rewrite field_DATA_default by exact Hcol. exact Hback.
  - intros Hfresh.
    pose proof (touch_run s w rows sessionID B (VFun f2) eb _ Hs Heb Hdoc) as Htouch.
    rewrite Hfresh in Htouch. rewrite Htouch. cbn [snd].
    split; [reflexivity|]. split.
    + destruct Hs as [_ Ht]. unfold touch_statement, exec. rewrite Ht.
      cbn [t_columns t_rows]. rewrite !String.eqb_refl, Hdoc, Hfresh. reflexivity.
    + split; [reflexivity | apply called_settled].
Qed.

Lemma touch_overwrites_witness :
  let w1 := after (set sample_settings "abc" session_A (VFun 1)) sample_world in
  let w2 := after (touch sample_settings "abc" session_B (VFun 2)) w1 in
  exists w3,
    run (get sample_settings "abc" (VFun 3) 1700000020000) w2 = (completed, w3)
    /\ called w3 = called w2 ++ [(3%nat, err_null, payload session_B)].
Proof.
  destruct (touch_overwrites sample_settings sample_world ∅ "abc"
              session_A session_B 1 2 3
              1700000010000 "ann@example.org" 1700000020000 1700000020000)
    as ((_ & _ & _ & Hget) & _);
    [reflexivity | apply serves_sample
    | vm_compute; reflexivity | lia | reflexivity | reflexivity
    | vm_compute; reflexivity | lia | lia | ].
  exact Hget.
Defined.

(** C5, as stated, fails.  After [set] of [A] and [touch] with [B], a
    [get] made before the cookie of [B] expires finds nothing when it
    falls into the last part-second; and [touch] with a session whose
    expiry cannot be read reports an error and updates nothing, so that
    [get] still hands over [A]. *)
Lemma touch_then_get_can_miss :
  called (after (get sample_settings "abc" (VFun 3) 1700000020100)
            (after (touch sample_settings "abc" session_B (VFun 2))
               (after (set sample_settings "abc" session_A (VFun 1)) sample_world)))
  = [(1%nat, err_null, omitted); (2%nat, err_null, omitted); (3%nat, err_null, omitted)]
  /\ called (after (get sample_settings "abc" (VFun 3) 1700000000000)
               (after (touch sample_settings "abc"
                         (VObj [("cookie", VObj [("expires", VNull)])]) (VFun 2))
                  (after (set sample_settings "abc" session_A (VFun 1)) sample_world)))
     = [(1%nat, err_null, omitted); (2%nat, err ER_BAD_FIELD_ERROR, omitted);
        (3%nat, err_null, payload session_A)].
Proof. vm_compute. repeat split. Qed.

(** C6. Expiry partition: with the server reachable, at any time of
    the query, [all] hands over exactly the rows whose expires is at
    least that time, the empty collection with no error when there is
    none (an empty table included), and [length] their number;
    [expired] hands over exactly the rows whose expires lies before
    that time and [expiredLength] their number; the two counts add up
    to the number of rows.  So every row whose expires lies before the
    time of the query is left out by [get], [all] and [length] and is
    among the results of [expired] and [expiredLength]. *)
Theorem expiry_partition s w rows f now :
  serves s w rows ->
  let live := row_object (columnNames s) <$> map_to_list (unexpired now rows) in
  let dead := row_object (columnNames s) <$> map_to_list (MySQL.expired now rows) in
  run (all s (VFun f) now) w = (completed, after (all s (VFun f) now) w)
  /\ called (after (all s (VFun f) now) w) = called w ++ [(f, err_null, rowset live)]
  /\ (forall k x, (row_object (columnNames s) (k, x) ∈ live)
                  <-> (rows !! k = Some x /\ now <= r_expires x))
  /\ ((forall k x, rows !! k = Some x -> r_expires x < now) -> live = [])
  /\ called (after (AuthExpressStore.length s (VFun f) now) w)
     = called w ++ [(f, err_null, scalar (CNum (Z.of_nat (size (unexpired now rows)))))]
  /\ called (after (AuthExpressStore.expired s (VFun f) now) w)
     = called w ++ [(f, err_null, rowset dead)]
  /\ (forall k x, (row_object (columnNames s) (k, x) ∈ dead)
                  <-> (rows !! k = Some x /\ r_expires x < now))
  /\ called (after (expiredLength s (VFun f) now) w)
     = called w ++ [(f, err_null, scalar (CNum (Z.of_nat (size (MySQL.expired now rows)))))]
  /\ (size (unexpired now rows) + size (MySQL.expired now rows) = size rows)%nat
  /\ (forall sessionID r,
        rows !! sessionID = Some r ->
        r_expires r < now ->
        called (after (get s sessionID (VFun f) now) w)
        = called w ++ [(f, err_null, omitted)]
        /\ (row_object (columnNames s) (sessionID, r) ∉ live)
        /\ unexpired now rows !! sessionID = None
        /\ (row_object (columnNames s) (sessionID, r) ∈ dead)
        /\ MySQL.expired now rows !! sessionID = Some r).
Proof.
  intros Hs live dead. unfold after.
  rewrite (all_run s w rows (VFun f) now Hs), (length_run s w rows (VFun f) now Hs),
    (expired_run s w rows (VFun f) now Hs), (expiredLength_run s w rows (VFun f) now Hs).
  cbn [snd]. rewrite !called_settled.
  assert (Hlive : forall k x, (row_object (columnNames s) (k, x) ∈ live)
                              <-> (rows !! k = Some x /\ now <= r_expires x)).
  { intros k x. unfold live. rewrite elem_of_rowset. unfold unexpired.
    rewrite map_lookup_filter_Some. reflexivity. }
  assert (Hdead : forall k x, (row_object (columnNames s) (k, x) ∈ dead)
                              <-> (rows !! k = Some x /\ r_expires x < now)).
  { intros k x. unfold dead. rewrite elem_of_rowset. unfold MySQL.expired.
    rewrite map_lookup_filter_Some. reflexivity. }
  repeat apply conj; try reflexivity.
  - exact Hlive.
  - intros Hall. unfold live.
    replace (unexpired now rows) with (∅ : gmap string Row);
      [rewrite map_to_list_empty; reflexivity|].
    symmetry. unfold unexpired. apply map_empty_filter_2.
    intros k x Hx. cbn [snd]. specialize (Hall k x Hx). lia.
  - exact Hdead.
  - apply partition_size.
  - intros sessionID r Hrow Hpast. repeat apply conj.
    + rewrite (get_run_miss s w rows sessionID (VFun f) now Hs)
        by (intros r' Hr'; rewrite Hrow in Hr'; injection Hr' as <-; exact Hpast).
      cbn [snd]. apply called_settled.
    + intros Hin. apply Hlive in Hin as [_ Hle]. lia.
    + unfold unexpired. apply map_lookup_filter_None. right. intros x Hx.
      rewrite Hrow in Hx. injection Hx as <-. cbn [snd]. lia.
    + apply Hdead. split; assumption.
    + unfold MySQL.expired. apply map_lookup_filter_Some. split; assumption.
Qed.

Lemma serves_stale : serves sample_settings stale_world stale_rows.
Proof. split; reflexivity. Qed.

Lemma expiry_partition_witness :
  called (after (all sample_settings (VFun 1) 1700000000000) sample_world)
  = [(1%nat, err_null, rowset [])]
  /\ called (after (all sample_settings (VFun 1) 1700000000000) stale_world)
     = [(1%nat, err_null, rowset [])]
  /\ called (after (get sample_settings "xyz" (VFun 1) 1700000000000) stale_world)
     = [(1%nat, err_null, omitted)]
  /\ called (after (AuthExpressStore.expired sample_settings (VFun 1) 1700000000000)
               stale_world)
     = [(1%nat, err_null,
         rowset (row_object (schemaDefaults.2)
                   <$> map_to_list (MySQL.expired 1700000000000 stale_rows)))].
Proof.
  destruct (expiry_partition sample_settings sample_world ∅ 1 1700000000000
              serves_sample)
    as (_ & Hall0 & _ & Hnone0 & _).
  destruct (expiry_partition sample_settings stale_world stale_rows 1 1700000000000
              serves_stale)
    as (_ & Hall & _ & Hnone & _ & Hexp & _ & _ & _ & Hrow).
  destruct (Hrow "xyz" (mkRow 1699999999000 (JsonText (JObj [("cookie", JObj [])])) "")
              eq_refl eq_refl) as (Hget & _).
  rewrite Hnone0 in Hall0
    by (intros k x Hx; rewrite lookup_empty in Hx; discriminate Hx).
  rewrite Hnone in Hall.
  2:{ intros k x Hx. unfold stale_rows in Hx.
      apply lookup_singleton_Some in Hx as [_ <-]. reflexivity. }
  repeat split; assumption.
Defined.





(** Two operations in flight at once share the store's one [connection]
    field: when the first answer arrives the field already points at
    the second connection, so the first connection is never closed. *)
Example overlapping_operations_leak :
  let s := sample_settings in
  match all s (VFun 1) 0 sample_world with
  | (Normal p1, w1) =>
      match all s (VFun 2) 0 w1 with
      | (Normal p2, w2) =>
          connections (deliver p2 (deliver p1 w2).2).2
          = [mkConnection authenticated false; mkConnection disconnected true]
      | _ => False
      end
  | _ => False
  end.
Proof. vm_compute. reflexivity. Qed.

Lemma append_assoc (a b c : string) : ((a ++ b) ++ c = a ++ (b ++ c))%string.
Proof.
  induction a as [|x a IH]; [reflexivity|].
  rewrite !append_cons, IH. reflexivity.
Qed.

Lemma check_columns_find columns :
  check_columns columns
  = match find (fun c : string * value * bool => negb c.2)
               (map (fun cv : string * value =>
                       (String.append "The table column name for "
                          (String.append cv.1 " must be a string."),
                        cv.2, is_string cv.2)) columns) with
    | None => Normal tt
    | Some c => Throw (Error (c.1.1 ++ " Received: " ++ typeof c.1.2)%string)
    end.
Proof.
  induction columns as [|[k v] rest IH]; [reflexivity|].
  cbn [check_columns map find fst snd]. destruct (negb (is_string v)); [|exact IH].
  do 2 f_equal. cbn [fst snd]. rewrite !append_assoc. reflexivity.
Qed.

Lemma or_not_NaN a b : b <> VNum NaN -> JS.or a b <> VNum NaN.
Proof.
  intros Hb. unfold JS.or. destruct (truthy a) eqn:Ht; [|exact Hb].
  intros ->. discriminate.
Qed.

Lemma resolve_port env configOptions :
  raw_port (resolve env configOptions) <> VNum NaN.
Proof. cbn [resolve raw_port]. apply or_not_NaN, or_not_NaN. discriminate. Qed.

Lemma typeof_number v :
  String.eqb (typeof v) "number" = true -> exists n, v = VNum n.
Proof. destruct v; try discriminate. eauto. Qed.

Lemma is_string_inv v : is_string v = true -> v = VStr (as_string v).
Proof. destruct v; try discriminate. reflexivity. Qed.

(** C8, as amended. Construction checks the settings the cascade
    resolved.  When the host, user, password, database, table name and
    column names are strings and the port is a number, it succeeds and
    keeps the strings; the port is kept when it is an integer of
    magnitude below 2^53 (what [parseInt] makes of other numbers is
    not stated).  Otherwise it raises an Error whose message names the
    first entry that breaks its rule and, for every entry but the table
    name, the type found. *)
Theorem constructor_checks_resolved_types env configOptions :
  let st := resolve env configOptions in
  match first_offence st with
  | None =>
      exists s z,
        constructor env configOptions = Normal s
        /\ raw_port st = VNum (Num z)
        /\ (Z.abs z < 2 ^ 53 -> port (databaseConfig s) = Num z)
        /\ raw_host st = VStr (host (databaseConfig s))
        /\ raw_user st = VStr (user (databaseConfig s))
        /\ raw_password st = VStr (password (databaseConfig s))
        /\ raw_database st = VStr (database (databaseConfig s))
        /\ raw_tableName st = VStr (tableName s)
        /\ raw_columnNames st
           = [ ("sessionID", VStr (c_sessionID (columnNames s)));
               ("expires", VStr (c_expires (columnNames s)));
               ("data", VStr (c_data (columnNames s)));
               ("user", VStr (c_user (columnNames s))) ]
  | Some (what, v) =>
      exists received,
        constructor env configOptions
        = Throw (Error (what ++ " Received: " ++ received)%string)
        /\ (what <> "The session table name must be a string." -> received = typeof v)
  end.
Proof.
  cbv zeta. pose proof (resolve_port env configOptions) as Hport.
  unfold constructor. set (st := resolve env configOptions) in *.
  unfold first_offence, checks, sanitizeConfiguration.
  rewrite (check_columns_find (raw_columnNames st)).
  cbn [app find fst snd fmap option_fmap option_map].
  destruct (is_string (raw_host st)) eqn:H1; cbn [negb];
    [|eexists; split; [reflexivity | reflexivity]].
  destruct (String.eqb (typeof (raw_port st)) "number") eqn:H2; cbn [negb];
    [|eexists; split; [reflexivity | reflexivity]].
  destruct (is_string (raw_user st)) eqn:H3; cbn [negb];
    [|eexists; split; [reflexivity | reflexivity]].
  destruct (is_string (raw_password st)) eqn:H4; cbn [negb];
    [|eexists; split; [reflexivity | reflexivity]].
  destruct (is_string (raw_database st)) eqn:H5; cbn [negb];
    [|eexists; split; [reflexivity | reflexivity]].
  destruct (is_string (raw_tableName st)) eqn:H6; cbn [negb];
    [|exists (typeof VUndefined); split; [reflexivity | intros Hne; contradiction]].
  destruct (find _ _) as [[[what v] ok]|] eqn:Hfind; cbn [fst snd].
  - eexists. split; [reflexivity | reflexivity].
  - destruct (typeof_number _ H2) as ([z|] & Hz); [|contradiction].
    eexists _, z. split; [reflexivity|].
    cbn [databaseConfig port host user password database tableName columnNames
         c_sessionID c_expires c_data c_user].
    rewrite Hz. cbn [parseInt].
    repeat apply conj; try reflexivity; try (apply is_string_inv; assumption).
    subst st. cbn [resolve raw_columnNames map find fst snd] in Hfind |- *.
    unfold column. cbn [assoc String.eqb Ascii.eqb Bool.eqb default]. unfold id.
    repeat match type of Hfind with
           | context [negb (is_string ?v)] =>
               let E := fresh "E" in
               destruct (is_string v) eqn:E; cbn [negb] in Hfind; [|discriminate];
               apply is_string_inv in E
           end.
    congruence.
Qed.

(** C8, as stated, fails: a port given as the string 3306 is not
    coerced; construction raises. *)
Lemma constructor_rejects_string_port :
  constructor no_env (VObj [("port", VStr "3306")])
  = Throw (Error "The database port must be coercible to an integer. Received: string").
Proof. reflexivity. Qed.

(** C9, as amended. A session without a passport user makes [set] bind
    NULL ([undefined]) for the user column; under INSERT IGNORE the
    not-null column takes the empty string instead, the row is stored
    and the continuation gets no error. *)
Theorem set_without_user_stores_row s w rows sessionID session f e d :
  serves s w rows ->
  rows !! sessionID = None ->
  expiry session = Some e ->
  JSON_stringify session = Some d ->
  optional_member (optional_member session "passport") "user" = VUndefined ->
  let w' := after (set s sessionID session (VFun f)) w in
  run (set s sessionID session (VFun f)) w = (completed, w')
  /\ statement s (OpSet sessionID session (VFun f))
     = Some (InsertIgnore (tableName s)
               (c_sessionID (columnNames s)) (c_data (columnNames s))
               (c_expires (columnNames s)) (c_user (columnNames s))
               sessionID (Some d) (Num e) VUndefined)
  /\ serves s w' (<[sessionID := mkRow e d ""]> rows)
  /\ called w' = called w ++ [(f, err_null, omitted)].
Proof.
  intros Hs Hfresh He Hd Hu. cbv zeta. unfold after.
  assert (Hown : owner session = inr "") by (unfold owner; rewrite Hu; reflexivity).
  pose proof (set_run s w rows sessionID session (VFun f) e "" d Hs He Hown Hd) as Hset.
  rewrite Hfresh in Hset. rewrite Hset. cbn [snd].
  split; [reflexivity|]. split; [|split].
  - destruct (expiry_inv _ _ He) as (cookie & te & Hc & Hte & Hp).
    unfold statement, perform, set, bind, lift.
    rewrite Hc, Hte, (member_defined _ _ _ "passport" Hc), Hp, Hd, Hu. reflexivity.
  - apply (serves_settled _ _ _ rows). exact Hs.
  - apply called_settled.
Qed.

Lemma set_without_user_stores_row_witness :
  exists d,
    serves sample_settings
      (after (set sample_settings "s1" session_anonymous (VFun 1)) sample_world)
      {[ "s1" := mkRow 1700000010000 d "" ]}
    /\ called (after (set sample_settings "s1" session_anonymous (VFun 1)) sample_world)
       = [(1%nat, err_null, omitted)].
Proof.
  destruct (set_without_user_stores_row sample_settings sample_world ∅ "s1"
              session_anonymous 1 1700000010000
              (default NotJson (JSON_stringify session_anonymous)))
    as (_ & _ & Hs & Hc);
    [apply serves_sample | reflexivity | vm_compute; reflexivity
    | reflexivity | reflexivity | ].
  eexists. split; [exact Hs | exact Hc].
Defined.

(** C9, as stated, fails: the insert of a session without a user is
    not rejected; the row is stored, with the empty string as its user,
    and the continuation receives no error. *)
Lemma set_without_user_is_not_rejected :
  let w' := after (set sample_settings "s1" session_anonymous (VFun 1)) sample_world in
  (run (set sample_settings "s1" session_anonymous (VFun 1)) sample_world).1 = completed
  /\ called w' = [(1%nat, err_null, omitted)]
  /\ (exists t r, tables w' !! "SESSIONS" = Some t
                  /\ t_rows t !! "s1" = Some r /\ r_user r = "").
Proof.
  cbv zeta. unfold after.
  rewrite (set_run sample_settings sample_world ∅ "s1" session_anonymous (VFun 1)
             1700000010000 "" (default NotJson (JSON_stringify session_anonymous))
             serves_sample);
    [| vm_compute; reflexivity | reflexivity | reflexivity].
  rewrite lookup_empty. cbn [fst snd]. split; [reflexivity|]. split; [reflexivity|].
  eexists _, _. cbn [settled tables]. split; [apply lookup_insert_eq|].
  cbn [t_rows]. split; [apply lookup_insert_eq | reflexivity].
Qed.

(** The constructor takes any non-empty string given as
    [columnNames.data] for the data column; the empty string is falsy
    and gives way to the default. *)
Lemma constructor_data_column env configOptions s x :
  constructor env configOptions = Normal s ->
  optional_member (optional_member configOptions "columnNames") "data" = VStr x ->
  c_data (columnNames s) = (if String.eqb x "" then "DATA" else x).
Proof.
  intros H Hx. unfold constructor, sanitizeConfiguration in H.
  repeat match type of H with
         | context [if ?b then _ else _] => destruct b; try discriminate
         end.
  destruct (check_columns _); [|discriminate]. injection H as <-.
  cbn [columnNames c_data]. unfold column.
  cbn [resolve raw_columnNames assoc String.eqb Ascii.eqb Bool.eqb default]. unfold id.
  rewrite Hx. unfold JS.or. cbn [truthy].
  destruct (String.eqb x ""); reflexivity.
Qed.

(** C10. On a store whose data column is not named DATA, [get] never
    hands a session to the continuation; when the row exists and is
    unexpired the query callback raises on the missing field, with no
    continuation call. *)
Theorem get_reads_literal_DATA s w sessionID g now :
  c_data (columnNames s) <> "DATA" ->
  (forall f error v,
     (f, error, payload v) ∈ called (after (get s sessionID (VFun g) now) w) ->
     (f, error, payload v) ∈ called w)
  /\ (forall rows r,
        serves s w rows ->
        rows !! sessionID = Some r ->
        now <= r_expires r ->
        exists w',
          run (get s sessionID (VFun g) now) w
          = (thrown_in_callback (SyntaxError "undefined is not valid JSON"), w')
          /\ called w' = called w).
Proof.
  intros Hcol.
  assert (Hfield : forall t, deserialize (field_DATA (c_data (columnNames s), t))
                             = Throw (SyntaxError "undefined is not valid JSON")).
  { intros t. unfold field_DATA. cbn [fst].
    destruct (String.eqb (c_data (columnNames s)) "DATA") eqn:E; [|reflexivity].
    apply String.eqb_eq in E. contradiction. }
  split.
  - intros f error v. unfold after, get. fold (get_statement s sessionID now).
    match goal with
    | |- context [query ?q0 ?k0] => set (q := q0); set (k := k0)
    end.
    assert (Hquiet : forall error',
              (forall w', k (answer w q).1 w' = finalCallback (VFun g) error' omitted w') ->
              (f, error, payload v) ∈ called (run (connectToDatabase ;; query q k) w).2 ->
              (f, error, payload v) ∈ called w).
    { intros error' Hk. rewrite (run_query _ _ _ (VFun g) error' omitted Hk).
      cbn [snd]. rewrite called_settled, elem_of_app, list_elem_of_singleton.
      intros [Hin|Heq]; [exact Hin | discriminate]. }
    destruct (answer_cases w q) as [[Hr Ha]|[Hr Ha]].
    + destruct (select_data_answers (c_data (columnNames s)) (tableName s)
                  (c_sessionID (columnNames s)) sessionID (c_expires (columnNames s)) now
                  (tables w)) as [[e He]|[He|(t & r & Ht & Hrow & Hnow & He)]];
        fold (get_statement s sessionID now) in He; fold q in He.
      * apply (Hquiet (err e)). intros w'. rewrite Ha, He. reflexivity.
      * apply (Hquiet err_null). intros w'. rewrite Ha, He. reflexivity.
      * rewrite (run_query_throw _ _ _ (SyntaxError "undefined is not valid JSON") Hr).
        -- cbn [snd]. unfold called. cbn [trace]. rewrite omap_app. cbn.
           rewrite app_nil_r. trivial.
        -- intros w'. rewrite He. cbn [fst]. subst k. cbv beta iota.
           unfold bind, lift. rewrite Hfield. reflexivity.
    + apply (Hquiet (err ECONNREFUSED)). intros w'. rewrite Ha. reflexivity.
  - intros rows r Hs Hrow Hnow. eexists. split.
    + apply (get_run_throw s w rows sessionID (VFun g) now r _ Hs Hrow Hnow). apply Hfield.
    + unfold called. cbn [trace]. rewrite omap_app. cbn. apply app_nil_r.
Qed.

Lemma get_reads_literal_DATA_witness :
  constructor no_env renamed_options = Normal renamed_settings
  /\ exists w',
       run (get renamed_settings "abc" (VFun 1) 1700000000000) renamed_world
       = (thrown_in_callback (SyntaxError "undefined is not valid JSON"), w')
       /\ called w' = [].
Proof.
  split; [reflexivity|].
  destruct (get_reads_literal_DATA renamed_settings renamed_world "abc" 1 1700000000000)
    as (_ & Hthrow); [discriminate|].
  apply (Hthrow live_rows
           (mkRow 1800000000000
              (JsonText (JObj [("cookie",
                                JObj [("expires", JStr "2027-01-15T08:00:00.000Z")])]))
              "")); [split; reflexivity | reflexivity | cbn [r_expires]; lia].
Defined.

(** With the default column name the same row is handed over. *)
Example get_default_column_sample :
  called (after (get sample_settings "abc" (VFun 1) 1700000000000)
            (mkWorld true
               {[ "SESSIONS" := mkTable (schemaDefaults.2) live_rows ]} [] None []))
  = [(1%nat, err_null,
      payload (VObj [("cookie", VObj [("expires", VDate (Some 1800000000000))])]))].
Proof. vm_compute. reflexivity. Qed.

(** *** The reduced variant in index.js *)

Lemma IndexJs_touch_only_calls_back sessionID session f w :
  IndexJs.touch sessionID session (VFun f) w
  = (Normal tt,
     mkWorld (reachable w) (tables w) (connections w) (connection w)
             (trace w ++ [EvCallback f err_undefined omitted])).
Proof. reflexivity. Qed.

Lemma IndexJs_stub_without_function_throws w :
  IndexJs.all VUndefined w = (Throw (TypeError "callback is not a function"), w).
Proof. reflexivity. Qed.

Lemma IndexJs_set_is_rejected s sessionID session db t passport :
  member session "passport" = Normal passport ->
  db !! tableName s = Some t ->
  IndexJs.set_answer s sessionID session db = Normal (err ER_BAD_NULL_ERROR).
Proof.
  intros Hp Ht. unfold IndexJs.set_answer. rewrite Hp. cbn [IndexJs.exec'].
  rewrite Ht. reflexivity.
Qed.

Lemma IndexJs_get_ignores_expiry s sessionID db rows r v :
  c_data (columnNames s) = "DATA" ->
  db !! tableName s = Some (mkTable (columnNames s) rows) ->
  rows !! sessionID = Some r ->
  JSON_parse (Some (r_data r)) = Normal v ->
  IndexJs.get_answer s sessionID db = Normal (err_null, payload v).
Proof.
  intros Hcol Ht Hrow Hv. unfold IndexJs.get_answer. cbn [IndexJs.exec'].
  rewrite Ht. cbn [t_columns t_rows]. rewrite !String.eqb_refl, Hrow. cbn [andb].
  rewrite field_DATA_default by exact Hcol. rewrite Hv. reflexivity.
Qed.

(** ** Further properties of the store *)

(** *** The operations that delete *)

Lemma destroy_run s w rows sessionID callback :
  serves s w rows ->
  run (destroy s sessionID callback) w
  = (completed,
     settled w (DeleteById (tableName s) (c_sessionID (columnNames s)) sessionID)
       (match rows !! sessionID with
        | Some _ =>
            <[tableName s := mkTable (columnNames s) (delete sessionID rows)]> (tables w)
        | None => tables w
        end)
       callback err_null omitted).
Proof.
  intros Hs. unfold destroy.
  set (q := DeleteById _ _ _).
  pose proof (answer_serves _ _ _ q Hs) as Ha. destruct Hs as [Hr Ht].
  assert (Hex : exec q (tables w)
                = (inr (OkPacket (match rows !! sessionID with Some _ => 1 | None => 0 end)),
                   match rows !! sessionID with
                   | Some _ =>
                       <[tableName s := mkTable (columnNames s) (delete sessionID rows)]>
                         (tables w)
                   | None => tables w
                   end)).
  { unfold q, exec. rewrite Ht. cbn [t_columns t_rows]. rewrite String.eqb_refl.
    destruct (rows !! sessionID); reflexivity. }
  rewrite (run_query _ _ _ callback err_null omitted).
  - rewrite Ha, Hex. reflexivity.
  - intros w'. rewrite Ha, Hex. reflexivity.
Qed.

Lemma clear_run s w rows callback :
  serves s w rows ->
  run (clear s callback) w
  = (completed,
     settled w (Truncate (tableName s))
       (<[tableName s := mkTable (columnNames s) ∅]> (tables w))
       callback err_undefined omitted).
Proof.
  intros Hs. unfold clear.
  set (q := Truncate _).
  pose proof (answer_serves _ _ _ q Hs) as Ha. destruct Hs as [Hr Ht].
  assert (Hex : exec q (tables w)
                = (inr (OkPacket 0),
                   <[tableName s := mkTable (columnNames s) ∅]> (tables w))).
  { unfold q, exec. rewrite Ht. reflexivity. }
  rewrite (run_query _ _ _ callback err_undefined omitted).
  - rewrite Ha, Hex. reflexivity.
  - intros w'. rewrite Ha, Hex. reflexivity.
Qed.

Lemma destroyUser_run s w rows u callback :
  serves s w rows ->
  run (destroyUser s u callback) w
  = (completed,
     settled w (DeleteByUser (tableName s) (c_user (columnNames s)) u)
       (<[tableName s := mkTable (columnNames s)
                           (filter (fun kv => r_user kv.2 <> u) rows)]> (tables w))
       callback err_undefined omitted).
Proof.
  intros Hs. unfold destroyUser.
  set (q := DeleteByUser _ _ _).
  pose proof (answer_serves _ _ _ q Hs) as Ha. destruct Hs as [Hr Ht].
  assert (Hex : exec q (tables w)
                = (inr (OkPacket (size (filter (fun kv => r_user kv.2 = u) rows))),
                   <[tableName s := mkTable (columnNames s)
                                       (filter (fun kv => r_user kv.2 <> u) rows)]>
                     (tables w))).
  { unfold q, exec. rewrite Ht. cbn [t_columns t_rows]. rewrite String.eqb_refl.
    reflexivity. }
  rewrite (run_query _ _ _ callback err_undefined omitted).
  - rewrite Ha, Hex. reflexivity.
  - intros w'. rewrite Ha, Hex. reflexivity.
Qed.

Lemma expiredClear_run s w rows callback now :
  serves s w rows ->
  run (expiredClear s callback now) w
  = (completed,
     settled w (DeleteLt (tableName s) (c_expires (columnNames s)) now)
       (<[tableName s := mkTable (columnNames s) (unexpired now rows)]> (tables w))
       callback err_undefined omitted).
Proof.
  intros Hs. unfold expiredClear.
  set (q := DeleteLt _ _ _).
  pose proof (answer_serves _ _ _ q Hs) as Ha. destruct Hs as [Hr Ht].
  assert (Hex : exec q (tables w)
                = (inr (OkPacket (size (MySQL.expired now rows))),
                   <[tableName s := mkTable (columnNames s) (unexpired now rows)]>
                     (tables w))).
  { unfold q, exec. rewrite Ht. cbn [t_columns t_rows]. rewrite String.eqb_refl.
    reflexivity. }
  rewrite (run_query _ _ _ callback err_undefined omitted).
  - rewrite Ha, Hex. reflexivity.
  - intros w'. rewrite Ha, Hex. reflexivity.
Qed.

Lemma unexpired_idem now (rows : gmap string Row) :
  unexpired now (unexpired now rows) = unexpired now rows.
Proof.
  unfold unexpired. apply map_filter_id. intros i x Hx.
  apply map_lookup_filter_Some in Hx as [_ Hx]. exact Hx.
Qed.

Lemma expired_unexpired now (rows : gmap string Row) :
  MySQL.expired now (unexpired now rows) = ∅.
Proof.
  unfold MySQL.expired, unexpired. apply map_empty_filter_2.
  intros i x Hx. apply map_lookup_filter_Some in Hx as [_ Hx]. cbn [snd] in *. lia.
Qed.

(** X1. [destroy] removes the row of its session and no other,
    reports no error also when there was none to remove, and a
    following [get] of that session finds nothing. *)
Theorem destroy_removes_the_session s w rows sessionID f g now :
  serves s w rows ->
  let w1 := after (destroy s sessionID (VFun f)) w in
  run (destroy s sessionID (VFun f)) w = (completed, w1)
  /\ called w1 = called w ++ [(f, err_null, omitted)]
  /\ serves s w1 (delete sessionID rows)
  /\ (rows !! sessionID = None -> tables w1 = tables w)
  /\ called (after (get s sessionID (VFun g) now) w1)
     = called w1 ++ [(g, err_null, omitted)].
Proof.
  intros Hs. cbv zeta. unfold after. rewrite (destroy_run s w rows sessionID _ Hs).
  cbn [snd].
  set (w1 := settled w _ _ _ _ _).
  assert (Hs1 : serves s w1 (delete sessionID rows)).
  { subst w1. destruct (rows !! sessionID) eqn:Hrow.
    - apply (serves_settled _ _ _ rows). exact Hs.
    - rewrite delete_id by exact Hrow. apply serves_settled_same. exact Hs. }
  split; [reflexivity|]. split; [apply called_settled|]. split; [exact Hs1|].
  split.
  - intros Hnone. subst w1. rewrite Hnone. reflexivity.
  - rewrite (get_run_miss s w1 _ sessionID (VFun g) now Hs1).
    + cbn [snd]. apply called_settled.
    + intros r Hr. rewrite lookup_delete_eq in Hr. discriminate.
Qed.

Lemma serves_mixed : serves sample_settings mixed_world mixed_rows.
Proof. split; reflexivity. Qed.

Lemma destroy_removes_the_session_witness :
  serves sample_settings
    (after (destroy sample_settings "abc" (VFun 1)) mixed_world)
    (delete "abc" mixed_rows)
  /\ called (after (destroy sample_settings "nobody" (VFun 1)) sample_world)
     = [(1%nat, err_null, omitted)].
Proof.
  split.
  - destruct (destroy_removes_the_session sample_settings mixed_world mixed_rows "abc"
                1 2 0 serves_mixed) as (_ & _ & Hs & _).
    exact Hs.
  - destruct (destroy_removes_the_session sample_settings sample_world ∅ "nobody"
                1 2 0 serves_sample) as (_ & Hc & _).
    exact Hc.
Defined.

(** X2. [clear] empties the table whatever it held and passes the
    continuation neither error nor data; afterwards [length] hands over
    0 and [all] the empty collection. *)
Theorem clear_empties_the_table s w rows f g h now :
  serves s w rows ->
  let w1 := after (clear s (VFun f)) w in
  run (clear s (VFun f)) w = (completed, w1)
  /\ called w1 = called w ++ [(f, err_undefined, omitted)]
  /\ serves s w1 ∅
  /\ called (after (AuthExpressStore.length s (VFun g) now) w1)
     = called w1 ++ [(g, err_null, scalar (CNum 0))]
  /\ called (after (all s (VFun h) now) w1)
     = called w1 ++ [(h, err_null, rowset [])].
Proof.
  intros Hs. cbv zeta. unfold after. rewrite (clear_run s w rows _ Hs). cbn [snd].
  set (w1 := settled w _ _ _ _ _).
  assert (Hs1 : serves s w1 ∅) by (apply (serves_settled _ _ _ rows); exact Hs).
  split; [reflexivity|]. split; [apply called_settled|]. split; [exact Hs1|].
  rewrite (length_run s w1 ∅ (VFun g) now Hs1), (all_run s w1 ∅ (VFun h) now Hs1).
  cbn [snd]. rewrite !called_settled. unfold unexpired.
  rewrite map_filter_empty, map_to_list_empty, map_size_empty. split; reflexivity.
Qed.

Lemma clear_empties_the_table_witness :
  serves sample_settings (after (clear sample_settings (VFun 1)) mixed_world) ∅
  /\ called (after (AuthExpressStore.length sample_settings (VFun 2) 0)
               (after (clear sample_settings (VFun 1)) mixed_world))
     = [(1%nat, err_undefined, omitted); (2%nat, err_null, scalar (CNum 0))].
Proof.
  destruct (clear_empties_the_table sample_settings mixed_world mixed_rows 1 2 3 0
              serves_mixed) as (_ & Hc & Hs & Hlen & _).
  split; [exact Hs|]. rewrite Hlen, Hc. reflexivity.
Defined.

(** X3. [destroyUser] removes exactly the rows whose user equals the
    one given (users compare exactly), expired or not; every other row
    stays as it was, and the continuation gets neither error nor data,
    also when no row matched. *)
Theorem destroyUser_removes_that_users_sessions s w rows u f :
  serves s w rows ->
  let w1 := after (destroyUser s u (VFun f)) w in
  run (destroyUser s u (VFun f)) w = (completed, w1)
  /\ called w1 = called w ++ [(f, err_undefined, omitted)]
  /\ exists rows',
       serves s w1 rows'
       /\ (forall k r, rows' !! k = Some r <-> rows !! k = Some r /\ r_user r <> u)
       /\ ((forall k r, rows !! k = Some r -> r_user r <> u) -> rows' = rows).
Proof.
  intros Hs. cbv zeta. unfold after. rewrite (destroyUser_run s w rows u _ Hs).
  cbn [snd]. split; [reflexivity|]. split; [apply called_settled|].
  exists (filter (fun kv => r_user kv.2 <> u) rows).
  split; [apply (serves_settled _ _ _ rows); exact Hs|]. split.
  - intros k r. rewrite map_lookup_filter_Some. reflexivity.
  - intros Hnone. apply map_filter_id. intros k r Hr. cbn [snd]. eapply Hnone, Hr.
Qed.

Lemma destroyUser_removes_that_users_sessions_witness :
  exists rows',
    serves sample_settings (after (destroyUser sample_settings "ann" (VFun 1)) mixed_world)
           rows'
    /\ rows' !! "abc" = None /\ rows' !! "old" = None
    /\ rows' !! "xyz" = mixed_rows !! "xyz".
Proof.
  destruct (destroyUser_removes_that_users_sessions sample_settings mixed_world
              mixed_rows "ann" 1 serves_mixed) as (_ & _ & rows' & Hs & Hrows & _).
  exists rows'. split; [exact Hs|].
  split; [|split].
  - destruct (rows' !! "abc") as [r|] eqn:E; [|reflexivity].
    apply Hrows in E as [E Hu]. vm_compute in E. injection E as <-.
    exfalso. apply Hu. reflexivity.
  - destruct (rows' !! "old") as [r|] eqn:E; [|reflexivity].
    apply Hrows in E as [E Hu]. vm_compute in E. injection E as <-.
    exfalso. apply Hu. reflexivity.
  - apply Hrows. split; [reflexivity|]. cbn [r_user]. discriminate.
Defined.

(** X4. [expiredClear] removes exactly the rows whose expires lies
    before the time of the call: afterwards the table holds the
    unexpired rows, [expiredLength] at that time hands over 0 and [all]
    hands over what it handed over before. *)
Theorem expiredClear_removes_the_expired s w rows f g h now :
  serves s w rows ->
  let w1 := after (expiredClear s (VFun f) now) w in
  run (expiredClear s (VFun f) now) w = (completed, w1)
  /\ called w1 = called w ++ [(f, err_undefined, omitted)]
  /\ serves s w1 (unexpired now rows)
  /\ called (after (expiredLength s (VFun g) now) w1)
     = called w1 ++ [(g, err_null, scalar (CNum 0))]
  /\ (exists live,
        called (after (all s (VFun h) now) w) = called w ++ [(h, err_null, rowset live)]
        /\ called (after (all s (VFun h) now) w1)
           = called w1 ++ [(h, err_null, rowset live)]).
Proof.
  intros Hs. cbv zeta. unfold after. rewrite (expiredClear_run s w rows _ now Hs).
  cbn [snd].
  set (w1 := settled w _ _ _ _ _).
  assert (Hs1 : serves s w1 (unexpired now rows))
    by (apply (serves_settled _ _ _ rows); exact Hs).
  split; [reflexivity|]. split; [apply called_settled|]. split; [exact Hs1|].
  rewrite (expiredLength_run s w1 _ (VFun g) now Hs1), (all_run s w1 _ (VFun h) now Hs1),
    (all_run s w rows (VFun h) now Hs).
  cbn [snd]. rewrite !called_settled, expired_unexpired, unexpired_idem, map_size_empty.
  split; [reflexivity|]. eexists. split; reflexivity.
Qed.

Lemma expiredClear_removes_the_expired_witness :
  serves sample_settings
    (after (expiredClear sample_settings (VFun 1) 1700000000000) mixed_world)
    (unexpired 1700000000000 mixed_rows)
  /\ unexpired 1700000000000 mixed_rows !! "xyz" = None
  /\ unexpired 1700000000000 mixed_rows !! "abc" = mixed_rows !! "abc".
Proof.
  destruct (expiredClear_removes_the_expired sample_settings mixed_world mixed_rows
              1 2 3 1700000000000 serves_mixed) as (_ & _ & Hs & _).
  split; [exact Hs|]. split; vm_compute; reflexivity.
Defined.

(** X5. [createTable] is idempotent: on a reachable server it creates
    the empty table when there is none and the configured column names
    differ, leaves a table of that name as it is, whatever its layout
    and rows, and passes the continuation neither error nor data both
    times. *)
Theorem createTable_is_idempotent s w f g :
  reachable w = true ->
  distinct_columns (c_sessionID (columnNames s)) (c_expires (columnNames s))
                   (c_data (columnNames s)) (c_user (columnNames s)) = true ->
  let w1 := after (createTable s (VFun f)) w in
  let w2 := after (createTable s (VFun g)) w1 in
  run (createTable s (VFun f)) w = (completed, w1)
  /\ called w1 = called w ++ [(f, err_undefined, omitted)]
  /\ run (createTable s (VFun g)) w1 = (completed, w2)
  /\ called w2 = called w1 ++ [(g, err_undefined, omitted)]
  /\ tables w2 = tables w1
  /\ (tables w !! tableName s = None -> serves s w1 ∅)
  /\ (forall t, tables w !! tableName s = Some t -> tables w1 = tables w).
Proof.
  intros Hr Hdistinct. cbv zeta. unfold after, createTable.
  set (q := CreateTableIfNotExists _ _ _ _ _).
  set (db1 := match tables w !! tableName s with
              | Some _ => tables w
              | None => <[tableName s := mkTable (columnNames s) ∅]> (tables w)
              end).
  assert (Ha : answer w q = (inr (OkPacket 0), db1)).
  { unfold answer, q, exec, db1. rewrite Hr.
    destruct (tables w !! tableName s); [reflexivity|].
    rewrite Hdistinct. destruct (columnNames s). reflexivity. }
  rewrite (run_query q _ w (VFun f) err_undefined omitted)
    by (intros w'; rewrite Ha; reflexivity).
  rewrite Ha. cbn [snd].
  set (w1 := settled w q db1 (VFun f) err_undefined omitted).
  assert (Hsome : exists t, tables w1 !! tableName s = Some t).
  { subst w1 db1. cbn [settled tables].
    destruct (tables w !! tableName s) as [t|] eqn:Ht; [eauto|].
    rewrite lookup_insert_eq. eauto. }
  assert (Ha1 : answer w1 q = (inr (OkPacket 0), tables w1)).
  { destruct Hsome as [t Ht]. unfold answer, q, exec.
    replace (reachable w1) with true by (symmetry; exact Hr). rewrite Ht. reflexivity. }
  rewrite (run_query q _ w1 (VFun g) err_undefined omitted)
    by (intros w'; rewrite Ha1; reflexivity).
  rewrite Ha1. cbn [snd].
  repeat apply conj; try reflexivity; try apply called_settled.
  - intros Hnone. split; [exact Hr|]. subst w1 db1. cbn [settled tables].
    rewrite Hnone. apply lookup_insert_eq.
  - intros t Ht. subst w1 db1. cbn [settled tables]. rewrite Ht. reflexivity.
Qed.

Lemma createTable_is_idempotent_witness :
  serves sample_settings
    (after (createTable sample_settings (VFun 1)) (mkWorld true ∅ [] None [])) ∅
  /\ tables (after (createTable sample_settings (VFun 1)) mixed_world)
     = tables mixed_world.
Proof.
  split.
  - destruct (createTable_is_idempotent sample_settings (mkWorld true ∅ [] None []) 1 2)
      as (_ & _ & _ & _ & _ & Hnew & _); [reflexivity | reflexivity |].
    apply Hnew. reflexivity.
  - destruct (createTable_is_idempotent sample_settings mixed_world 1 2)
      as (_ & _ & _ & _ & _ & _ & Hold); [reflexivity | reflexivity |].
    apply (Hold (mkTable (schemaDefaults.2) mixed_rows)). reflexivity.
Defined.

(** *** Every well-formed call, whatever the server answers *)

Lemma statement_creates s op q :
  statement s op = Some q ->
  (forall cb, op <> OpCreateTable cb) ->
  forall a b c d e, q <> CreateTableIfNotExists a b c d e.
Proof.
  unfold statement.
  destruct op as [cb now|cb|sid cb|sid cb now|cb now|sid session cb|sid session cb
                 |cb now|cb now|cb now|u cb|cb]; cbn [perform];
    try (intros [= <-]; discriminate).
  - unfold set, bind, lift.
    destruct (member session "cookie") as [cookie|]; [|discriminate].
    destruct (member cookie "expires") as [te|]; [|discriminate].
    destruct (member session "passport") as [pass|]; [|discriminate].
    intros [= <-]. discriminate.
  - unfold touch, bind, lift.
    destruct (member session "cookie") as [cookie|]; [|discriminate].
    destruct (member cookie "expires") as [te|]; [|discriminate].
    intros [= <-]. discriminate.
  - intros _ H. exfalso. apply (H cb). reflexivity.
Qed.

Lemma exec_no_table q db :
  db !! table_of q = None ->
  (forall a b c d e, q <> CreateTableIfNotExists a b c d e) ->
  exec q db = (inl ER_NO_SUCH_TABLE, db).
Proof.
  intros Hnone Hq. destruct q; cbn [table_of] in Hnone; unfold exec;
    try (rewrite Hnone; reflexivity).
  exfalso. eapply Hq. reflexivity.
Qed.

(** X6. While the server has no table of the configured name, every
    well-formed call other than [createTable] completes, hands its
    continuation the server's error for the missing table and no data,
    and leaves the tables as they were. *)
Theorem missing_table_is_reported s op w :
  well_formed_call s op w ->
  reachable w = true ->
  tables w !! tableName s = None ->
  (forall cb, op <> OpCreateTable cb) ->
  let w' := after (perform s op) w in
  run (perform s op) w = (completed, w')
  /\ tables w' = tables w
  /\ (forall f, callback_of op = VFun f ->
                called w' = called w ++ [(f, err ER_NO_SUCH_TABLE, omitted)])
  /\ ((forall f, callback_of op <> VFun f) -> called w' = called w).
Proof.
  intros Hwf Hr Hnone Hop. cbv zeta. unfold after.
  destruct (operation_settles s op w Hwf) as (q & error & data & Hst & Hrun & Hfit).
  assert (Ha : answer w q = (inl ER_NO_SUCH_TABLE, tables w)).
  { unfold answer. rewrite Hr. apply exec_no_table.
    - rewrite (statement_table _ _ _ Hst). exact Hnone.
    - apply (statement_creates _ _ _ Hst Hop). }
  rewrite Hrun, Ha in *. cbn [fst snd] in *. destruct Hfit as [[-> ->] _].
  split; [reflexivity|]. split; [reflexivity|]. split.
  - intros f ->. apply called_settled.
  - intros Hnf. unfold called, settled. cbn [trace]. rewrite !omap_app.
    replace (notify (callback_of op) (err ER_NO_SUCH_TABLE) omitted) with (@nil Event)
      by (destruct (callback_of op); try reflexivity; exfalso; eapply Hnf; reflexivity).
    destruct (reachable w); cbn; rewrite app_nil_r; reflexivity.
Qed.

Lemma missing_table_is_reported_witness :
  called (after (set sample_settings "abc" session_A (VFun 1)) (mkWorld true ∅ [] None []))
  = [(1%nat, err ER_NO_SUCH_TABLE, omitted)].
Proof.
  destruct (missing_table_is_reported sample_settings (OpSet "abc" session_A (VFun 1))
              (mkWorld true ∅ [] None []))
    as (_ & _ & Hc & _).
  - cbn [well_formed_call]. eexists _, _. split; reflexivity.
  - reflexivity.
  - reflexivity.
  - discriminate.
  - apply (Hc 1%nat). reflexivity.
Defined.

(** X7. While the server cannot be reached, every well-formed call
    still completes: the connection error reaches the continuation as
    the error of the query, with no data; the connection, never
    established, is not destroyed; no table changes. *)
Theorem unreachable_server_is_reported s op w :
  well_formed_call s op w ->
  reachable w = false ->
  exists q,
    statement s op = Some q
    /\ let w' := after (perform s op) w in
       let c := Datatypes.length (connections w) in
       run (perform s op) w = (completed, w')
       /\ tables w' = tables w
       /\ trace w' = trace w ++ [EvConnect c; EvQuery c q; EvClose c]
                             ++ notify (callback_of op) (err ECONNREFUSED) omitted
       /\ connections w' = connections w ++ [mkConnection disconnected false].
Proof.
  intros Hwf Hr. unfold after.
  destruct (operation_settles s op w Hwf) as (q & error & data & Hst & Hrun & Hfit).
  assert (Ha : answer w q = (inl ECONNREFUSED, tables w))
    by (unfold answer; rewrite Hr; reflexivity).
  rewrite Hrun, Ha in *. cbn [fst snd] in *. destruct Hfit as [[-> ->] _].
  exists q. split; [exact Hst|]. cbv zeta.
  unfold settled. cbn [tables trace connections]. rewrite Hr.
  repeat apply conj; reflexivity.
Qed.

Lemma unreachable_server_is_reported_witness :
  called (after (get sample_settings "abc" (VFun 1) 0)
            (mkWorld false (tables live_world) [] None []))
  = [(1%nat, err ECONNREFUSED, omitted)].
Proof.
  destruct (unreachable_server_is_reported sample_settings (OpGet "abc" (VFun 1) 0)
              (mkWorld false (tables live_world) [] None []))
    as (q & _ & _ & _ & Htr & _).
  - cbn [well_formed_call]. intros t r Hr. discriminate Hr.
  - reflexivity.
  - unfold called. cbv zeta in Htr. cbn [perform] in Htr. rewrite Htr. reflexivity.
Defined.

(** *** What a call does to the tables *)

Lemma exec_reads q db :
  match q with
  | SelectAllGe _ _ _ | SelectAllLt _ _ _ | SelectCountGe _ _ _ | SelectCountLt _ _ _
  | SelectData _ _ _ _ _ _ => (exec q db).2 = db
  | _ => True
  end.
Proof.
  destruct q; try exact I; unfold exec;
    (destruct (db !! _) as [t|]; [|reflexivity]);
    try (destruct (String.eqb _ _); reflexivity).
  destruct (_ && _); [|reflexivity].
  destruct (t_rows t !! sessionID) as [r|]; [|reflexivity].
  destruct (bool_decide _); reflexivity.
Qed.

(** X8. The five operations that read ([all], [get], [length],
    [expired], [expiredLength]) never change a table: whatever the
    server holds, whether it can be reached or not, and also when the
    query callback of [get] raises. *)
Theorem reads_change_no_table s w sessionID callback now :
  tables (after (all s callback now) w) = tables w
  /\ tables (after (get s sessionID callback now) w) = tables w
  /\ tables (after (AuthExpressStore.length s callback now) w) = tables w
  /\ tables (after (AuthExpressStore.expired s callback now) w) = tables w
  /\ tables (after (expiredLength s callback now) w) = tables w.
Proof.
  pose proof (after_tables s (OpAll callback now) w) as H1.
  pose proof (after_tables s (OpLength callback now) w) as H3.
  pose proof (after_tables s (OpExpired callback now) w) as H4.
  pose proof (after_tables s (OpExpiredLength callback now) w) as H5.
  cbn [perform] in *. unfold statement in *. cbn in H1, H3, H4, H5.
  rewrite answer_snd in H1, H3, H4, H5.
  split; [|split; [apply get_tables|split; [|split]]].
  - rewrite H1. destruct (reachable w); [|reflexivity].
    apply (exec_reads (SelectAllGe _ _ _)).
  - rewrite H3. destruct (reachable w); [|reflexivity].
    apply (exec_reads (SelectCountGe _ _ _)).
  - rewrite H4. destruct (reachable w); [|reflexivity].
    apply (exec_reads (SelectAllLt _ _ _)).
  - rewrite H5. destruct (reachable w); [|reflexivity].
    apply (exec_reads (SelectCountLt _ _ _)).
Qed.

Lemma exec_frame q db t :
  t <> table_of q -> (exec q db).2 !! t = db !! t.
Proof.
  intros Hne.
  assert (Hput : forall x, <[table_of q := x]> db !! t = db !! t)
    by (intros x; apply lookup_insert_ne; congruence).
  destruct q; cbn [table_of] in *; unfold exec;
    try (destruct (db !! table) as [tb|]; [|reflexivity]);
    repeat match goal with
           | |- context [if ?b then _ else _] => destruct b
           | |- context [match ?x with _ => _ end] => destruct x
           end;
    cbn [snd]; try reflexivity; apply Hput.
Qed.

Lemma exec_layout q db tb :
  db !! table_of q = Some tb ->
  exists tb', (exec q db).2 !! table_of q = Some tb' /\ t_columns tb' = t_columns tb.
Proof.
  intros Ht.
  assert (Hput : forall rows,
            exists tb', <[table_of q := mkTable (t_columns tb) rows]> db !! table_of q
                        = Some tb' /\ t_columns tb' = t_columns tb)
    by (intros rows; eexists; split; [apply lookup_insert_eq | reflexivity]).
  destruct q; cbn [table_of] in *; unfold exec; rewrite Ht;
    repeat match goal with
           | |- context [if ?b then _ else _] => destruct b
           | |- context [match ?x with _ => _ end] => destruct x
           end;
    cbn [snd]; try (exists tb; split; [exact Ht | reflexivity]); apply Hput.
Qed.

(** X9. No call, well formed or not, touches a table other than the
    configured one, and none drops the configured table or changes its
    column layout. *)
Theorem calls_keep_to_their_table s op w :
  (forall t, t <> tableName s ->
             tables (after (perform s op) w) !! t = tables w !! t)
  /\ (forall tb, tables w !! tableName s = Some tb ->
                 exists tb', tables (after (perform s op) w) !! tableName s = Some tb'
                             /\ t_columns tb' = t_columns tb).
Proof.
  rewrite after_tables.
  destruct (statement s op) as [q|] eqn:Hst.
  - pose proof (statement_table _ _ _ Hst) as Htab. rewrite answer_snd.
    destruct (reachable w).
    + split.
      * intros t Hne. apply exec_frame. congruence.
      * intros tb Htb. rewrite <- Htab in *. apply exec_layout. exact Htb.
    + split; [reflexivity|]. intros tb Htb. eauto.
  - split; [reflexivity|]. intros tb Htb. eauto.
Qed.

Lemma calls_keep_to_their_table_witness :
  tables (after (clear sample_settings (VFun 1))
            (mkWorld true {[ "SESSIONS" := mkTable (schemaDefaults.2) mixed_rows;
                             "USERS" := mkTable (schemaDefaults.2) stale_rows ]}
                     [] None [])) !! "USERS"
  = Some (mkTable (schemaDefaults.2) stale_rows).
Proof.
  destruct (calls_keep_to_their_table sample_settings (OpClear (VFun 1))
              (mkWorld true {[ "SESSIONS" := mkTable (schemaDefaults.2) mixed_rows;
                               "USERS" := mkTable (schemaDefaults.2) stale_rows ]}
                       [] None [])) as [Hother _].
  cbn [perform] in Hother. rewrite (Hother "USERS"); [reflexivity | discriminate].
Defined.

(** *** Sessions whose expiry cannot be read, and rows that are in the way *)

(** X10. A session whose [cookie.expires] is missing, [null] or an
    invalid Date is not stored: [Date.parse] gives NaN, which is bound
    for the expiry; [set] and [touch] both complete, the statement
    fails on the server, the continuation gets that error and no row
    changes. *)
Theorem unreadable_expiry_is_a_query_error s w rows sessionID session cookie timeExpires f :
  serves s w rows ->
  member session "cookie" = Normal cookie ->
  member cookie "expires" = Normal timeExpires ->
  no_date timeExpires = true ->
  let w1 := after (set s sessionID session (VFun f)) w in
  let w2 := after (touch s sessionID session (VFun f)) w in
  run (set s sessionID session (VFun f)) w = (completed, w1)
  /\ called w1 = called w ++ [(f, err ER_BAD_FIELD_ERROR, omitted)]
  /\ tables w1 = tables w
  /\ run (touch s sessionID session (VFun f)) w = (completed, w2)
  /\ called w2 = called w ++ [(f, err ER_BAD_FIELD_ERROR, omitted)]
  /\ tables w2 = tables w.
Proof.
  intros Hs Hc Hte Hno. cbv zeta. unfold after.
  assert (Hnan : Date_parse timeExpires = NaN)
    by (destruct timeExpires as [ | | | | | [t|] | | | ]; try discriminate Hno;
        reflexivity).
  pose proof (member_defined _ _ _ "passport" Hc) as Hpass.
  destruct Hs as [Hr Ht].
  unfold set, touch.
  rewrite Hc, !run_lift, Hte, !run_lift, Hpass, run_lift, Hnan.
  match goal with
  | |- context [query ?q0 _] => set (q := q0)
  end.
  assert (Ha : answer w q = (inl ER_BAD_FIELD_ERROR, tables w)).
  { unfold answer, q, exec. rewrite Hr, Ht. cbn [t_columns].
    rewrite !String.eqb_refl. reflexivity. }
  rewrite (run_query q _ w (VFun f) (err ER_BAD_FIELD_ERROR) omitted)
    by (intros w'; rewrite Ha; reflexivity).
  rewrite Ha. cbn [snd].
  match goal with
  | |- context [query ?q0 _] => set (q' := q0)
  end.
  assert (Ha' : answer w q' = (inl ER_BAD_FIELD_ERROR, tables w)).
  { unfold answer, q', exec. rewrite Hr, Ht. cbn [t_columns].
    rewrite !String.eqb_refl. reflexivity. }
  rewrite (run_query q' _ w (VFun f) (err ER_BAD_FIELD_ERROR) omitted)
    by (intros w'; rewrite Ha'; reflexivity).
  rewrite Ha'. cbn [snd].
  repeat apply conj; try reflexivity; apply called_settled.
Qed.

Lemma unreadable_expiry_is_a_query_error_witness :
  called (after (set sample_settings "abc"
                   (VObj [("cookie", VObj [("expires", VNull); ("path", VStr "/")])])
                   (VFun 1)) sample_world)
  = [(1%nat, err ER_BAD_FIELD_ERROR, omitted)].
Proof.
  destruct (unreadable_expiry_is_a_query_error sample_settings sample_world ∅ "abc"
              (VObj [("cookie", VObj [("expires", VNull); ("path", VStr "/")])])
              (VObj [("expires", VNull); ("path", VStr "/")]) VNull 1)
    as (_ & Hc & _);
    [apply serves_sample | reflexivity | reflexivity | reflexivity |].
  exact Hc.
Defined.

(** X11. An expired row that was not cleared blocks its session ID:
    [set] of a new session under that ID reports no error but stores
    nothing, and [get] keeps finding nothing, however late the new
    session expires. *)
Theorem set_over_an_expired_row_is_lost s w rows sessionID r session f g e u now :
  serves s w rows ->
  rows !! sessionID = Some r ->
  r_expires r < now ->
  expiry session = Some e ->
  owner session = inr u ->
  let w1 := after (set s sessionID session (VFun f)) w in
  run (set s sessionID session (VFun f)) w = (completed, w1)
  /\ called w1 = called w ++ [(f, err_null, omitted)]
  /\ tables w1 = tables w
  /\ called (after (get s sessionID (VFun g) now) w1)
     = called w1 ++ [(g, err_null, omitted)].
Proof.
  intros Hs Hrow Hpast He Hu. cbv zeta. unfold after.
  destruct (expiry_stringify session e He) as (d & Hd).
  rewrite (set_run s w rows sessionID session (VFun f) e u d Hs He Hu Hd), Hrow.
  cbn [snd].
  split; [reflexivity|]. split; [apply called_settled|]. split; [reflexivity|].
  rewrite (get_run_miss s _ rows sessionID (VFun g) now).
  - cbn [snd]. apply called_settled.
  - apply serves_settled_same. exact Hs.
  - intros r' Hr'. rewrite Hrow in Hr'. injection Hr' as <-. exact Hpast.
Qed.

Lemma set_over_an_expired_row_is_lost_witness :
  let w1 := after (set sample_settings "xyz" session_A (VFun 1)) stale_world in
  tables w1 = tables stale_world
  /\ called (after (get sample_settings "xyz" (VFun 2) 1700000000000) w1)
     = [(1%nat, err_null, omitted); (2%nat, err_null, omitted)].
Proof.
  destruct (set_over_an_expired_row_is_lost sample_settings stale_world stale_rows "xyz"
              (mkRow 1699999999000 (JsonText (JObj [("cookie", JObj [])])) "")
              session_A 1 2 1700000010000 "ann@example.org" 1700000000000)
    as (_ & Hc & Ht & Hget);
    [apply serves_stale | reflexivity | reflexivity | vm_compute; reflexivity
    | reflexivity |].
  split; [exact Ht|]. rewrite Hget, Hc. reflexivity.
Defined.

(** X12. [destroy] frees the session ID: after it, whatever row was
    stored under that ID, [set] of a session payload stores it and a
    [get] no later than its expiry hands over a payload equal to it. *)
Theorem destroy_then_set_stores s w rows sessionID p f1 f2 g e u now :
  c_data (columnNames s) = "DATA" ->
  serves s w rows ->
  session_payload p = true ->
  expiry p = Some e ->
  owner p = inr u ->
  now <= e ->
  let w1 := after (destroy s sessionID (VFun f1)) w in
  let w2 := after (set s sessionID p (VFun f2)) w1 in
  called w2 = called w ++ [(f1, err_null, omitted); (f2, err_null, omitted)]
  /\ (exists d, serves s w2 (<[sessionID := mkRow e d u]> rows))
  /\ called (after (get s sessionID (VFun g) now) w2)
     = called w2 ++ [(g, err_null, payload p)].
Proof.
  intros Hcol Hs Hp He Hu Hnow. cbv zeta. unfold after.
  destruct (deserialize_stringify p Hp) as (doc & Hdoc & Hback).
  rewrite (destroy_run s w rows sessionID _ Hs). cbn [snd].
  set (w1 := settled w _ _ _ _ _).
  assert (Hs1 : serves s w1 (delete sessionID rows)).
  { subst w1. destruct (rows !! sessionID) eqn:Hrow.
    - apply (serves_settled _ _ _ rows). exact Hs.
    - rewrite delete_id by exact Hrow. apply serves_settled_same. exact Hs. }
  rewrite (set_run s w1 _ sessionID p (VFun f2) e u _ Hs1 He Hu Hdoc).
  rewrite lookup_delete_eq. cbn [snd].
  set (w2 := settled w1 _ _ _ _ _).
  assert (Hs2 : serves s w2 (<[sessionID := mkRow e (JsonText doc) u]> rows)).
  { subst w2. rewrite insert_delete_eq. apply (serves_settled _ _ _ (delete sessionID rows)).
    exact Hs1. }
  split; [|split].
  - subst w2 w1. rewrite !called_settled, <- app_assoc. reflexivity.
  - eauto.
  - rewrite (get_run_hit s w2 _ sessionID (VFun g) now (mkRow e (JsonText doc) u) p Hs2).
    + cbn [snd]. apply called_settled.
    + apply lookup_insert_eq.
    + exact Hnow.
    + rewrite field_DATA_default by exact Hcol. exact Hback.
Qed.

Lemma destroy_then_set_stores_witness :
  let w1 := after (destroy sample_settings "xyz" (VFun 1)) stale_world in
  let w2 := after (set sample_settings "xyz" session_A (VFun 2)) w1 in
  called (after (get sample_settings "xyz" (VFun 3) 1700000000000) w2)
  = [(1%nat, err_null, omitted); (2%nat, err_null, omitted);
     (3%nat, err_null, payload session_A)].
Proof.
  destruct (destroy_then_set_stores sample_settings stale_world stale_rows "xyz"
              session_A 1 2 3 1700000010000 "ann@example.org" 1700000000000)
    as (Hc & _ & Hget);
    [reflexivity | apply serves_stale | reflexivity | vm_compute; reflexivity
    | reflexivity | lia |].
  cbv zeta. rewrite Hget, Hc. reflexivity.
Defined.

(** What a statement can do to the rows of its table: every row it
    leaves was there before, or is the one row an insert or update
    wrote. *)
Lemma exec_rows q db cols rows :
  db !! table_of q = Some (mkTable cols rows) ->
  exists rows',
    (exec q db).2 !! table_of q = Some (mkTable cols rows')
    /\ forall k r,
         rows' !! k = Some r ->
         rows !! k = Some r
         \/ match q with
            | InsertIgnore _ _ _ _ _ sid d (Num e) _ =>
                k = sid /\ rows !! sid = None
                /\ r_data r = default NotJson d /\ r_expires r = e
            | Update _ _ (Some d) _ (Num e) _ sid =>
                k = sid /\ r_data r = d /\ r_expires r = e
            | _ => False
            end.
Proof.
  intros Ht.
  assert (Hsame : exists rows',
             db !! table_of q = Some (mkTable cols rows')
             /\ forall k r, rows' !! k = Some r ->
                  rows !! k = Some r
                  \/ match q with
                     | InsertIgnore _ _ _ _ _ sid d (Num e) _ =>
                         k = sid /\ rows !! sid = None
                         /\ r_data r = default NotJson d /\ r_expires r = e
                     | Update _ _ (Some d) _ (Num e) _ sid =>
                         k = sid /\ r_data r = d /\ r_expires r = e
                     | _ => False
                     end)
    by (exists rows; split; [exact Ht | auto]).
  destruct q; cbn [table_of] in *; unfold exec; rewrite Ht; cbn [t_columns t_rows];
    repeat match goal with
           | |- context [if ?b then _ else _] => destruct b eqn:?
           | |- context [match ?x with _ => _ end] => destruct x eqn:?
           end;
    cbn [snd]; try exact Hsame;
    (eexists; rewrite lookup_insert_eq; split; [reflexivity|]; intros k0 r0 Hr).
  - rewrite lookup_empty in Hr. discriminate.
  - apply lookup_delete_Some in Hr as [_ Hr]. auto.
  - apply map_lookup_filter_Some in Hr as [Hr _]. auto.
  - apply map_lookup_filter_Some in Hr as [Hr _]. auto.
  - apply lookup_insert_Some in Hr as [[<- <-]|[_ Hr]]; [right|left; exact Hr].
    cbn [r_data r_expires]. auto.
  - apply lookup_insert_Some in Hr as [[<- <-]|[_ Hr]]; [right|left; exact Hr].
    cbn [r_data r_expires]. auto.
Qed.

Lemma exec_other_rows q db cols rows sid k :
  db !! table_of q = Some (mkTable cols rows) ->
  match q with
  | InsertIgnore _ _ _ _ _ sid' _ _ _ | Update _ _ _ _ _ _ sid' | DeleteById _ _ sid' =>
      sid' = sid
  | _ => False
  end ->
  k <> sid ->
  exists rows',
    (exec q db).2 !! table_of q = Some (mkTable cols rows') /\ rows' !! k = rows !! k.
Proof.
  intros Ht Hq Hne.
  assert (Hsame : exists rows', db !! table_of q = Some (mkTable cols rows')
                                /\ rows' !! k = rows !! k) by eauto.
  destruct q; try contradiction; subst; cbn [table_of] in *; unfold exec; rewrite Ht;
    cbn [t_columns t_rows];
    repeat match goal with
           | |- context [if ?b then _ else _] => destruct b eqn:?
           | |- context [match ?x with _ => _ end] => destruct x eqn:?
           end;
    cbn [snd]; try exact Hsame;
    (eexists; rewrite lookup_insert_eq; split; [reflexivity|]).
  - apply lookup_delete_ne. congruence.
  - apply lookup_insert_ne. congruence.
  - apply lookup_insert_ne. congruence.
Qed.

(** X13. [set], [touch] and [destroy] change at most the row of their
    own session ID (IDs compare exactly): whatever session they are
    given and whatever the outcome, the row of every other session is
    afterwards what it was. *)
Theorem other_sessions_are_untouched s w rows sessionID session callback k :
  serves s w rows ->
  k <> sessionID ->
  (exists rows1, serves s (after (set s sessionID session callback) w) rows1
                 /\ rows1 !! k = rows !! k)
  /\ (exists rows2, serves s (after (touch s sessionID session callback) w) rows2
                    /\ rows2 !! k = rows !! k)
  /\ (exists rows3, serves s (after (destroy s sessionID callback) w) rows3
                    /\ rows3 !! k = rows !! k).
Proof.
  intros [Hr Ht] Hne.
  assert (Hstep : forall op,
             match statement s op with
             | Some q =>
                 match q with
                 | InsertIgnore _ _ _ _ _ sid' _ _ _ | Update _ _ _ _ _ _ sid'
                 | DeleteById _ _ sid' => sid' = sessionID
                 | _ => False
                 end
             | None => True
             end ->
             exists rows', serves s (after (perform s op) w) rows'
                           /\ rows' !! k = rows !! k).
  { intros op Hop. unfold serves. rewrite after_reachable, after_tables.
    destruct (statement s op) as [q|] eqn:Hst; [|exists rows; auto].
    pose proof (statement_table _ _ _ Hst) as Htab.
    rewrite answer_snd, Hr. rewrite <- Htab in *.
    destruct (exec_other_rows q (tables w) _ rows sessionID k Ht Hop Hne)
      as (rows' & Ht' & Hk).
    exists rows'. auto. }
  split; [|split].
  - apply (Hstep (OpSet sessionID session callback)).
    destruct (statement s (OpSet sessionID session callback)) as [q|] eqn:Hst; [|exact I].
    destruct (statement_set _ _ _ _ _ Hst) as (cookie & te & _ & _ & ->). reflexivity.
  - apply (Hstep (OpTouch sessionID session callback)).
    destruct (statement s (OpTouch sessionID session callback)) as [q|] eqn:Hst; [|exact I].
    destruct (statement_touch _ _ _ _ _ Hst) as (cookie & te & _ & _ & ->). reflexivity.
  - apply (Hstep (OpDestroy sessionID callback)). reflexivity.
Qed.

Lemma other_sessions_are_untouched_witness :
  exists rows3,
    serves sample_settings (after (destroy sample_settings "abc" (VFun 1)) mixed_world) rows3
    /\ rows3 !! "xyz" = mixed_rows !! "xyz".
Proof.
  destruct (other_sessions_are_untouched sample_settings mixed_world mixed_rows "abc"
              session_A (VFun 1) "xyz" serves_mixed) as (_ & _ & H); [discriminate|].
  exact H.
Defined.

(** *** Calls that raise *)

(** X14. A row whose data does not deserialize (text that is not JSON,
    or a document without a cookie object) makes the query callback of
    [get] raise: the continuation is never called, the connection is
    left established and is not destroyed, no table changes. *)
Theorem get_of_an_unreadable_row_raises s w rows sessionID callback now r e :
  c_data (columnNames s) = "DATA" ->
  serves s w rows ->
  rows !! sessionID = Some r ->
  now <= r_expires r ->
  deserialize (Some (r_data r)) = Throw e ->
  let w' := after (get s sessionID callback now) w in
  run (get s sessionID callback now) w = (thrown_in_callback e, w')
  /\ called w' = called w
  /\ connections w' = connections w ++ [mkConnection authenticated false]
  /\ trace w' = trace w ++ [EvConnect (Datatypes.length (connections w));
                            EvQuery (Datatypes.length (connections w))
                                    (get_statement s sessionID now)]
  /\ tables w' = tables w.
Proof.
  intros Hcol Hs Hrow Hnow Hv. cbv zeta. unfold after.
  rewrite (get_run_throw s w rows sessionID callback now r e Hs Hrow Hnow)
    by (rewrite field_DATA_default by exact Hcol; exact Hv).
  cbn [snd connections tables trace].
  split; [reflexivity|]. split; [|repeat split].
  unfold called. cbn [trace]. rewrite omap_app. cbn. apply app_nil_r.
Qed.

Lemma get_of_an_unreadable_row_raises_witness :
  run (get sample_settings "bad" (VFun 1) 1700000000000) corrupt_world
  = (thrown_in_callback (SyntaxError "Unexpected token in JSON"),
     after (get sample_settings "bad" (VFun 1) 1700000000000) corrupt_world)
  /\ called (after (get sample_settings "bad" (VFun 1) 1700000000000) corrupt_world) = [].
Proof.
  destruct (get_of_an_unreadable_row_raises sample_settings corrupt_world
              {[ "bad" := mkRow 1800000000000 NotJson "" ]} "bad" (VFun 1)
              1700000000000 (mkRow 1800000000000 NotJson "")
              (SyntaxError "Unexpected token in JSON"))
    as (Hrun & Hc & _);
    [reflexivity | split; reflexivity | reflexivity | cbn [r_expires]; lia
    | reflexivity |].
  split; [exact Hrun | exact Hc].
Defined.

(** X15. [set] and [touch] need a cookie: when the session or its
    cookie is [undefined] or [null], both raise a TypeError to their
    caller before anything is connected, sent or called, and leave the
    world as it was. *)
Theorem set_and_touch_need_a_cookie s w sessionID session callback :
  nullish session || nullish (optional_member session "cookie") = true ->
  exists msg,
    run (set s sessionID session callback) w = (thrown_to_caller (TypeError msg), w)
    /\ run (touch s sessionID session callback) w
       = (thrown_to_caller (TypeError msg), w).
Proof.
  assert (Hraise : forall e,
             member session "cookie" = Throw e
             \/ (exists cookie, member session "cookie" = Normal cookie
                                /\ member cookie "expires" = Throw e) ->
             run (set s sessionID session callback) w = (thrown_to_caller e, w)
             /\ run (touch s sessionID session callback) w = (thrown_to_caller e, w)).
  { intros e [Hc|(cookie & Hc & Hte)]; unfold set, touch.
    - rewrite Hc, !run_lift_throw. auto.
    - rewrite Hc, !run_lift, Hte, !run_lift_throw. auto. }
  destruct session as [ | | b | n | x | t | f | items | fields ];
    cbn [nullish orb optional_member]; intros Hnull;
    try (eexists; apply Hraise; left; reflexivity);
    try (eexists; apply Hraise; right; eexists; split; reflexivity).
  destruct (default VUndefined (assoc "cookie" fields)) as [ | | | | | | | | cs ] eqn:Hc;
    cbn [nullish] in Hnull; try discriminate Hnull;
    (eexists; apply Hraise; right; eexists; split;
     [cbn [member]; rewrite Hc; reflexivity | reflexivity]).
Qed.

Lemma set_and_touch_need_a_cookie_witness :
  exists msg,
    run (set sample_settings "abc" (VObj [("cookie", VNull)]) (VFun 1)) sample_world
    = (thrown_to_caller (TypeError msg), sample_world)
    /\ run (touch sample_settings "abc" (VObj [("cookie", VNull)]) (VFun 1)) sample_world
       = (thrown_to_caller (TypeError msg), sample_world).
Proof.
  exact (set_and_touch_need_a_cookie sample_settings sample_world "abc"
           (VObj [("cookie", VNull)]) (VFun 1) eq_refl).
Defined.

(** *** What [set] and [touch] store can be read back *)

Lemma assoc_serialized k fields v j :
  assoc k fields = Some v ->
  serialize v = Some j ->
  assoc k (map (fun kv : string * json => (kv.1, revive kv.2))
               (omap (fun kv : string * value => pair kv.1 <$> serialize kv.2) fields))
  = Some (revive j).
Proof.
  intros Hv Hj. induction fields as [|[k' x] rest IH]; [discriminate|].
  cbn [assoc] in Hv. cbn [omap list_omap fst snd].
  destruct (String.eqb k' k) eqn:E.
  - injection Hv as ->. rewrite Hj.
    cbn [fmap option_fmap option_map map assoc fst snd]. rewrite E. reflexivity.
  - destruct (serialize x) as [jx|];
      cbn [fmap option_fmap option_map map assoc fst snd]; [rewrite E|]; exact (IH Hv).
Qed.

Lemma member_object v k x :
  member v k = Normal x -> x <> VUndefined ->
  exists fields, v = VObj fields /\ assoc k fields = Some x.
Proof.
  destruct v; cbn [member]; try discriminate; try (intros [= <-]; contradiction).
  intros [= <-] Hx. exists fields. split; [reflexivity|].
  destruct (assoc k fields); [reflexivity | contradiction].
Qed.

Lemma assoc_assign_ne {A} k k' (x : A) l :
  k <> k' -> assoc k (assign k' x l) = assoc k l.
Proof.
  intros Hne. induction l as [|[k0 y] l IH]; cbn [assign assoc].
  - destruct (String.eqb k' k) eqn:E; [apply String.eqb_eq in E; congruence | reflexivity].
  - destruct (String.eqb k0 k') eqn:E; cbn [assoc].
    + apply String.eqb_eq in E as ->.
      destruct (String.eqb k' k) eqn:E'; [apply String.eqb_eq in E'; congruence|].
      reflexivity.
    + destruct (String.eqb k0 k); [reflexivity | exact IH].
Qed.

Lemma expiry_object session e :
  expiry session = Some e -> exists fields, session = VObj fields.
Proof.
  intros He. destruct (expiry_inv _ _ He) as (cookie & te & Hc & Hte & _).
  destruct (member_object _ _ _ Hc) as (fields & -> & _); [|eauto].
  intros ->. discriminate.
Qed.

(** What [get] makes of the text [set] stored for an object with a
    readable expiry: the object read back from JSON, with a new cookie
    in the place of the old. *)
Lemma deserialize_image fields e :
  expiry (VObj fields) = Some e ->
  exists cookie',
    deserialize (JSON_stringify (VObj fields))
    = Normal (VObj (assign "cookie" cookie'
                      (map (fun kv : string * json => (kv.1, revive kv.2))
                           (omap (fun kv : string * value => pair kv.1 <$> serialize kv.2)
                                 fields)))).
Proof.
  intros He. destruct (expiry_inv _ _ He) as (cookie & te & Hc & Hte & Hp).
  assert (Hte' : te <> VUndefined) by (intros ->; discriminate).
  destruct (member_object _ _ _ Hte Hte') as (cs & -> & Hcs).
  destruct (member_object _ _ _ Hc ltac:(discriminate)) as (fields' & [= <-] & Hfields).
  assert (Hj : exists iso, serialize te = Some (JStr iso)).
  { destruct te as [ | | | | x |[t|]| | | ]; try discriminate; eauto. }
  destruct Hj as (iso & Hj).
  set (ser := fun kv : string * value => pair kv.1 <$> serialize kv.2).
  set (rev := fun kv : string * json => (kv.1, revive kv.2)).
  assert (Hcookie : assoc "cookie" (map rev (omap ser fields))
                    = Some (VObj (map rev (omap ser cs))))
    by (apply (assoc_serialized "cookie" fields (VObj cs) (JObj (omap ser cs)));
        [exact Hfields | reflexivity]).
  assert (Hexp : assoc "expires" (map rev (omap ser cs)) = Some (VStr iso))
    by (apply (assoc_serialized "expires" cs te (JStr iso) Hcs Hj)).
  eexists. unfold deserialize.
  cbn [JSON_stringify serialize fmap option_fmap option_map JSON_parse revive member].
  fold ser rev. rewrite Hcookie. cbn [default]. unfold id. cbn [member].
  rewrite Hexp. cbn [default]. unfold id. reflexivity.
Qed.

(** X16. Whatever session [set] or [touch] can store, [get] can read
    back: when the expiry of a session is readable, the session has a
    JSON text and the two statements of [get] that deserialize it do not
    raise and leave a Date at [cookie.expires]. *)
Theorem stored_sessions_deserialize session e :
  expiry session = Some e ->
  exists d v cookie t,
    JSON_stringify session = Some d
    /\ deserialize (Some d) = Normal v
    /\ member v "cookie" = Normal cookie
    /\ member cookie "expires" = Normal (VDate t).
Proof.
  intros He. destruct (expiry_inv _ _ He) as (cookie & te & Hc & Hte & Hp).
  assert (Hte' : te <> VUndefined) by (intros ->; discriminate).
  destruct (member_object _ _ _ Hte Hte') as (cs & -> & Hcs).
  destruct (member_object _ _ _ Hc ltac:(discriminate)) as (fields & -> & Hfields).
  assert (Hj : exists iso, serialize te = Some (JStr iso)
                           /\ exists n, Date_parse (VStr iso) = n).
  { destruct te as [ | | | | x |[t|]| | | ]; try discriminate; eauto. }
  destruct Hj as (iso & Hj & n & Hn).
  set (ser := fun kv : string * value => pair kv.1 <$> serialize kv.2).
  set (rev := fun kv : string * json => (kv.1, revive kv.2)).
  exists (JsonText (JObj (omap ser fields))),
         (VObj (assign "cookie"
                  (VObj (assign "expires" (new_Date n) (map rev (omap ser cs))))
                  (map rev (omap ser fields)))),
         (VObj (assign "expires" (new_Date n) (map rev (omap ser cs)))),
         (match n with
          | Num t => if Z.abs t <=? Calendar.max_time then Some t else None
          | NaN => None
          end).
  split; [reflexivity|].
  assert (Hcookie : assoc "cookie" (map rev (omap ser fields))
                    = Some (VObj (map rev (omap ser cs))))
    by (apply (assoc_serialized "cookie" fields (VObj cs) (JObj (omap ser cs)));
        [exact Hfields | reflexivity]).
  assert (Hexp : assoc "expires" (map rev (omap ser cs)) = Some (VStr iso))
    by (apply (assoc_serialized "expires" cs te (JStr iso) Hcs Hj)).
  split; [|split].
  - unfold deserialize. cbn [JSON_parse revive member]. fold rev.
    rewrite Hcookie. cbn [default]. unfold id. cbn [member].
    rewrite Hexp. cbn [default]. unfold id. rewrite Hn. reflexivity.
  - cbn [member]. rewrite assoc_assign. reflexivity.
  - cbn [member]. rewrite assoc_assign. cbn [default]. unfold id.
    destruct n; reflexivity.
Qed.

Lemma stored_sessions_deserialize_witness :
  exists d v,
    JSON_stringify session_B = Some d /\ deserialize (Some d) = Normal v.
Proof.
  destruct (stored_sessions_deserialize session_B 1700000020000)
    as (d & v & _ & _ & Hd & Hv & _); [vm_compute; reflexivity|].
  exists d, v. split; [exact Hd | exact Hv].
Defined.

(** *** Calls made one after the other *)

Lemma has_cookie_members session :
  negb (nullish session || nullish (optional_member session "cookie")) = true ->
  exists cookie te,
    member session "cookie" = Normal cookie /\ member cookie "expires" = Normal te.
Proof.
  destruct session as [ | | | | | | | |fields]; cbn [nullish orb optional_member negb];
    try discriminate.
  intros H. exists (default VUndefined (assoc "cookie" fields)).
  destruct (default VUndefined (assoc "cookie" fields)) eqn:E; try discriminate;
    eexists; (split; [cbn [member]; rewrite E; reflexivity | reflexivity]).
Qed.

Lemma at_rest_step s op w :
  c_data (columnNames s) = "DATA" ->
  at_rest s w ->
  has_cookie op = true ->
  exists w1,
    run (perform s op) w = (completed, w1)
    /\ at_rest s w1
    /\ Datatypes.length (connections w1) = S (Datatypes.length (connections w)).
Proof.
  intros Hcol [(rows & Hs & Hrows) Hconn] Hck.
  assert (Hwf : well_formed_call s op w).
  { destruct op; try exact I; cbn [well_formed_call has_cookie] in *.
    - intros t r _ Ht Hrow _. destruct Hs as [_ Ht']. rewrite Ht' in Ht.
      injection Ht as <-. cbn [t_rows] in Hrow.
      rewrite field_DATA_default by exact Hcol. eapply Hrows, Hrow.
    - apply has_cookie_members, Hck.
    - apply has_cookie_members, Hck. }
  destruct (operation_settles s op w Hwf) as (q & error & data & Hst & Hrun & _).
  eexists. split; [exact Hrun|]. split; [split|].
  - destruct Hs as [Hr Ht].
    pose proof (statement_table _ _ _ Hst) as Htab.
    destruct (exec_rows q (tables w) (columnNames s) rows) as (rows' & Ht' & Hnew);
      [rewrite Htab; exact Ht|].
    exists rows'. split.
    + split; [exact Hr|]. cbn [settled tables]. rewrite answer_snd, Hr, <- Htab. exact Ht'.
    + intros k r Hrow. destruct (Hnew k r Hrow) as [Hold|Hfresh]; [eapply Hrows, Hold|].
      destruct op; try (injection Hst as <-; contradiction).
      * destruct (statement_set _ _ _ _ _ Hst) as (cookie & te & Hc & Hte & ->).
        destruct (Date_parse te) as [e|] eqn:Hp; [|contradiction].
        destruct Hfresh as (_ & _ & Hdata & _).
        assert (He : expiry session = Some e) by (unfold expiry; rewrite Hc, Hte, Hp; reflexivity).
        destruct (expiry_object session e He) as (fields & ->).
        destruct (deserialize_image fields e He) as (cookie' & Hv).
        rewrite Hdata. cbn [JSON_stringify serialize fmap option_fmap option_map default] in *.
        eauto.
      * destruct (statement_touch _ _ _ _ _ Hst) as (cookie & te & Hc & Hte & ->).
        destruct (JSON_stringify session) as [d0|] eqn:Hd0; [|contradiction].
        destruct (Date_parse te) as [e|] eqn:Hp; [|contradiction].
        destruct Hfresh as (_ & Hdata & _).
        assert (He : expiry session = Some e) by (unfold expiry; rewrite Hc, Hte, Hp; reflexivity).
        destruct (expiry_object session e He) as (fields & ->).
        destruct (deserialize_image fields e He) as (cookie' & Hv).
        rewrite Hdata. rewrite Hd0 in Hv. eauto.
  - cbn [settled connections]. apply Forall_app. split; [exact Hconn|].
    constructor; [reflexivity | constructor].
  - cbn [settled connections]. rewrite length_app. cbn [Datatypes.length]. lia.
Qed.

(** X17. Calls made one after the other keep the store at rest: from
    a served table whose rows deserialize and with every connection
    closed, any list of calls in which [set] and [touch] are given
    sessions with a cookie completes call by call, and leaves the table
    served, its rows deserializable and every connection closed, one
    connection having been made per call. *)
Theorem sequential_calls_keep_the_store_at_rest s ops w :
  c_data (columnNames s) = "DATA" ->
  at_rest s w ->
  forallb has_cookie ops = true ->
  (run_each s ops w).1 = repeat completed (Datatypes.length ops)
  /\ at_rest s (run_each s ops w).2
  /\ Datatypes.length (connections (run_each s ops w).2)
     = (Datatypes.length (connections w) + Datatypes.length ops)%nat.
Proof.
  intros Hcol. revert w. induction ops as [|op ops IH]; intros w Hrest Hck.
  - cbn. split; [reflexivity|]. split; [exact Hrest | lia].
  - cbn [forallb] in Hck. apply andb_true_iff in Hck as [Hop Hops].
    destruct (at_rest_step s op w Hcol Hrest Hop) as (w1 & Hrun & Hrest1 & Hlen).
    destruct (IH w1 Hrest1 Hops) as (Ho & Hr & Hl).
    cbn [run_each]. rewrite Hrun.
    destruct (run_each s ops w1) as [os w2]. cbn [fst snd] in *.
    split; [rewrite Ho; reflexivity|]. split; [exact Hr|]. rewrite Hl, Hlen.
    cbn [Datatypes.length]. lia.
Qed.

Lemma mixed_at_rest : at_rest sample_settings mixed_world.
Proof.
  split; [|constructor]. exists mixed_rows. split; [apply serves_mixed|].
  intros k r Hr. unfold mixed_rows in Hr.
  apply lookup_insert_Some in Hr as [[_ <-]|[_ Hr]]; [eexists; vm_compute; reflexivity|].
  apply lookup_insert_Some in Hr as [[_ <-]|[_ Hr]]; [eexists; vm_compute; reflexivity|].
  apply lookup_singleton_Some in Hr as [_ <-]. eexists; vm_compute; reflexivity.
Qed.

Lemma sequential_calls_keep_the_store_at_rest_witness :
  let ops := [ OpSet "new" session_A (VFun 1); OpGet "new" (VFun 2) 1700000000000;
               OpTouch "abc" session_B VUndefined; OpExpiredClear (VFun 3) 1700000000000;
               OpDestroyUser "ann" (VFun 4); OpLength (VFun 5) 1700000000000 ] in
  (run_each sample_settings ops mixed_world).1 = repeat completed 6
  /\ at_rest sample_settings (run_each sample_settings ops mixed_world).2.
Proof.
  cbv zeta.
  destruct (sequential_calls_keep_the_store_at_rest sample_settings
              [ OpSet "new" session_A (VFun 1); OpGet "new" (VFun 2) 1700000000000;
                OpTouch "abc" session_B VUndefined; OpExpiredClear (VFun 3) 1700000000000;
                OpDestroyUser "ann" (VFun 4); OpLength (VFun 5) 1700000000000 ]
              mixed_world)
    as (Ho & Hr & _); [reflexivity | apply mixed_at_rest | reflexivity |].
  split; [exact Ho | exact Hr].
Defined.

(** *** Calls that overlap *)

(** What a call does before the server answers: it makes one
    connection, points the store at it and queues its statement; the
    query callback, whatever the answer, raises or ends in
    [finalCallback]. *)
Lemma perform_issues s op w p w1 :
  perform s op w = (Normal p, w1) ->
  w1 = mkWorld (reachable w) (tables w)
         (connections w ++ [mkConnection disconnected false])
         (Some (Datatypes.length (connections w)))
         (trace w ++ [EvConnect (Datatypes.length (connections w));
                      EvQuery (Datatypes.length (connections w)) (p_query p)])
  /\ p_connection p = Datatypes.length (connections w)
  /\ forall r w',
       (exists e, p_callback p r w' = (Throw e, w'))
       \/ (exists callback error data,
             p_callback p r w' = finalCallback callback error data w').
Proof.
  assert (Hq : forall q k,
             (forall r w',
                (exists e, k r w' = (Throw e, w'))
                \/ (exists callback error data,
                      k r w' = finalCallback callback error data w')) ->
             (connectToDatabase ;; query q k) w = (Normal p, w1) ->
             w1 = mkWorld (reachable w) (tables w)
                    (connections w ++ [mkConnection disconnected false])
                    (Some (Datatypes.length (connections w)))
                    (trace w ++ [EvConnect (Datatypes.length (connections w));
                                 EvQuery (Datatypes.length (connections w)) (p_query p)])
             /\ p_connection p = Datatypes.length (connections w)
             /\ forall r w',
                  (exists e, p_callback p r w' = (Throw e, w'))
                  \/ (exists callback error data,
                        p_callback p r w' = finalCallback callback error data w')).
  { intros q k Hk. unfold bind, connectToDatabase, query.
    cbn [connection connections reachable tables trace].
    intros [= <- <-]. cbn [p_query p_connection p_callback].
    rewrite <- app_assoc. auto. }
  assert (Hfinal : forall callback error data (w' : World),
             (exists e, finalCallback callback error data w' = (Throw e, w'))
             \/ (exists callback' error' data',
                   finalCallback callback error data w'
                   = finalCallback callback' error' data' w')) by eauto 10.
  destruct op as [cb now|cb|sid cb|sid cb now|cb now|sid session cb|sid session cb
                 |cb now|cb now|cb now|u cb|cb]; cbn [perform];
    try (apply Hq; intros [e|r] w'; apply Hfinal).
  - (* get *)
    apply Hq. intros [e|r] w'; [apply Hfinal|].
    destruct r as [rows|rows|n|n]; try apply Hfinal.
    destruct rows as [|row [|row' rows]]; try apply Hfinal.
    unfold bind, lift. destruct (deserialize (field_DATA row)); [apply Hfinal | eauto].
  - (* length *)
    apply Hq. intros [e|r] w'; [apply Hfinal|].
    unfold bind, lift. destruct (first_LEN r); [apply Hfinal | eauto].
  - (* set *)
    unfold set, bind at 1, lift at 1.
    destruct (member session "cookie") as [cookie|]; [|discriminate].
    unfold bind at 1, lift at 1.
    destruct (member cookie "expires") as [te|]; [|discriminate].
    unfold bind at 1, lift at 1.
    destruct (member session "passport") as [pass|]; [|discriminate].
    apply Hq. intros [e|r] w'; apply Hfinal.
  - (* touch *)
    unfold touch, bind at 1, lift at 1.
    destruct (member session "cookie") as [cookie|]; [|discriminate].
    unfold bind at 1, lift at 1.
    destruct (member cookie "expires") as [te|]; [|discriminate].
    apply Hq. intros [e|r] w'; apply Hfinal.
  - (* expiredLength *)
    apply Hq. intros [e|r] w'; [apply Hfinal|].
    unfold bind, lift. destruct (first_LEN r); [apply Hfinal | eauto].
Qed.

(** [finalCallback] changes no connection but the one the store points
    at. *)
Lemma finalCallback_keeps callback error data w c :
  connection w <> Some c ->
  let w' := (finalCallback callback error data w).2 in
  connections w' !! c = connections w !! c
  /\ connection w' = connection w
  /\ reachable w' = reachable w.
Proof.
  intros Hc. cbv zeta. unfold finalCallback, bind, closeDatabaseConnection.
  destruct (connection w) as [c0|] eqn:Hc0; [|auto].
  assert (Hne : c0 <> c) by congruence.
  destruct (connections w !! c0) as [conn|] eqn:Hconn.
  - destruct (state conn);
      destruct callback; cbn [typeof String.eqb Ascii.eqb Bool.eqb negb];
      unfold ret, emit; cbn [snd connections connection reachable];
      rewrite ?list_lookup_insert_ne by exact Hne; auto.
  - destruct callback; cbn [typeof String.eqb Ascii.eqb Bool.eqb negb];
      unfold ret, emit; cbn [snd connections connection reachable]; auto.
Qed.

Lemma callback_keeps (k : dberror + result -> M unit) r w c :
  (forall r w',
     (exists e, k r w' = (Throw e, w'))
     \/ (exists callback error data, k r w' = finalCallback callback error data w')) ->
  connection w <> Some c ->
  connections (k r w).2 !! c = connections w !! c
  /\ connection (k r w).2 = connection w
  /\ reachable (k r w).2 = reachable w.
Proof.
  intros Hk Hc. destruct (Hk r w) as [(e & ->)|(cb & error & data & ->)]; [auto|].
  apply finalCallback_keeps. exact Hc.
Qed.

(** Delivering an answer changes no connection but the one that
    carried the query and the one the store points at. *)
Lemma deliver_keeps p w c :
  (forall r w',
     (exists e, p_callback p r w' = (Throw e, w'))
     \/ (exists callback error data,
           p_callback p r w' = finalCallback callback error data w')) ->
  connection w <> Some c ->
  (c <> p_connection p -> connections (deliver p w).2 !! c = connections w !! c)
  /\ (c = p_connection p -> reachable w = true ->
      (exists st, connections w !! c = Some (mkConnection st false)) ->
      connections (deliver p w).2 !! c = Some (mkConnection authenticated false))
  /\ connection (deliver p w).2 = connection w
  /\ reachable (deliver p w).2 = reachable w.
Proof.
  intros Hk Hc. unfold deliver.
  destruct (connections w !! p_connection p) as [conn|] eqn:Hconn.
  - destruct (destroyed conn) eqn:Hd.
    + cbn [snd]. repeat split; try reflexivity.
      intros -> _ (st & Hst). rewrite Hconn in Hst. injection Hst as ->. discriminate.
    + destruct (reachable w) eqn:Hr.
      * destruct (exec (p_query p) (tables w)) as [r db].
        match goal with
        | |- context [p_callback p r ?w0] =>
            destruct (callback_keeps (p_callback p) r w0 c Hk Hc) as (H1 & H2 & H3)
        end.
        cbn [connections connection reachable] in *.
        rewrite H1, H2, H3. repeat split.
        -- intros Hne. apply list_lookup_insert_ne. congruence.
        -- intros -> _ _. apply list_lookup_insert_eq.
           apply lookup_lt_Some in Hconn. exact Hconn.
      * destruct (callback_keeps (p_callback p) (inl ECONNREFUSED) w c Hk Hc)
          as (H1 & H2 & H3).
        rewrite H1, H2, H3. repeat split; try assumption. intros _ Hf. discriminate.
  - cbn [snd]. repeat split; try reflexivity.
    intros -> _ (st & Hst). rewrite Hconn in Hst. discriminate.
Qed.

(** X18. Two calls that overlap leave a connection open.  When a
    second call is made before the answer to the first has arrived, the
    store already points at the second connection, so whichever answer
    arrives first and whatever the answers are, the connection of the
    first call is established and never destroyed. *)
Theorem overlapping_calls_leave_a_connection_open s op1 op2 w p1 w1 p2 w2 :
  reachable w = true ->
  perform s op1 w = (Normal p1, w1) ->
  perform s op2 w1 = (Normal p2, w2) ->
  let c1 := Datatypes.length (connections w) in
  connections (deliver p2 (deliver p1 w2).2).2 !! c1
  = Some (mkConnection authenticated false)
  /\ connections (deliver p1 (deliver p2 w2).2).2 !! c1
     = Some (mkConnection authenticated false).
Proof.
  intros Hr H1 H2. cbv zeta.
  destruct (perform_issues s op1 w p1 w1 H1) as (Hw1 & Hp1 & Hk1).
  destruct (perform_issues s op2 w1 p2 w2 H2) as (Hw2 & Hp2 & Hk2).
  set (c1 := Datatypes.length (connections w)) in *.
  assert (Hlen : Datatypes.length (connections w1) = S c1)
    by (rewrite Hw1; cbn [connections]; rewrite length_app; cbn; lia).
  assert (Hc2 : connection w2 = Some (S c1)) by (rewrite Hw2, Hlen; reflexivity).
  assert (Hr2 : reachable w2 = true) by (rewrite Hw2, Hw1; exact Hr).
  assert (Hfirst : connections w2 !! c1 = Some (mkConnection disconnected false)).
  { rewrite Hw2. cbn [connections]. rewrite lookup_app_l by lia.
    rewrite Hw1. cbn [connections]. apply lookup_newest. }
  assert (Hne : connection w2 <> Some c1) by (rewrite Hc2; intros [= H]; lia).
  rewrite Hlen in Hp2.
  split.
  - destruct (deliver_keeps p1 w2 c1 Hk1 Hne) as (_ & Hest & Hcon & Hrea).
    specialize (Hest (eq_sym Hp1) Hr2 (ex_intro _ _ Hfirst)).
    destruct (deliver_keeps p2 (deliver p1 w2).2 c1 Hk2) as (Hkeep & _);
      [rewrite Hcon; exact Hne|].
    rewrite Hkeep by (rewrite Hp2; lia). exact Hest.
  - destruct (deliver_keeps p2 w2 c1 Hk2 Hne) as (Hkeep & _ & Hcon & Hrea).
    specialize (Hkeep ltac:(rewrite Hp2; lia)).
    destruct (deliver_keeps p1 (deliver p2 w2).2 c1 Hk1) as (_ & Hest & _);
      [rewrite Hcon; exact Hne|].
    apply Hest; [symmetry; exact Hp1 | rewrite Hrea; exact Hr2 |].
    rewrite Hkeep. eauto.
Qed.

Lemma overlapping_calls_leave_a_connection_open_witness :
  exists p1 w1 p2 w2,
    all sample_settings (VFun 1) 0 sample_world = (Normal p1, w1)
    /\ get sample_settings "abc" (VFun 2) 0 w1 = (Normal p2, w2)
    /\ connections (deliver p2 (deliver p1 w2).2).2 !! 0%nat
       = Some (mkConnection authenticated false).
Proof.
  eexists _, _, _, _. split; [reflexivity|]. split; [reflexivity|].
  refine (proj1 (overlapping_calls_leave_a_connection_open sample_settings
                   (OpAll (VFun 1) 0) (OpGet "abc" (VFun 2) 0) sample_world
                   _ _ _ _ eq_refl eq_refl eq_refl)).
Defined.

(** *** The constructor *)

Lemma truthy_number z : truthy (VNum (Num z)) = true -> z <> 0.
Proof. cbn [truthy]. intros H ->. discriminate. Qed.

(** An entry no option is given for: the environment variable when it
    is set and not empty, the default otherwise. *)
Lemma or_env x d :
  JS.or (env_value x) (JS.or VUndefined (VStr d))
  = VStr (match x with
          | Some h => if String.eqb h "" then d else h
          | None => d
          end).
Proof.
  destruct x as [h|]; [|reflexivity]. unfold JS.or. cbn [env_value truthy].
  destruct (String.eqb h ""); reflexivity.
Qed.

Lemma or_env_port x :
  JS.or (VNum (parseInt (env_value x))) (JS.or VUndefined (VNum (Num 3306)))
  = VNum (if truthy (VNum (parseInt (env_value x)))
          then parseInt (env_value x) else Num 3306).
Proof.
  unfold JS.or. destruct (truthy (VNum (parseInt (env_value x)))); reflexivity.
Qed.

(** X19. The environment alone never makes construction fail: with no
    options, the store is built for every environment; host, user,
    password and database are their environment variables when those
    are set and not empty and the defaults otherwise; table and column
    names are the defaults.  The port is 3306 when DATABASE_PORT is not
    set, does not start with an integer, or starts with 0, and is the
    integer DATABASE_PORT starts with otherwise (for integers small
    enough to be exact numbers). *)
Theorem environment_alone_never_fails env :
  exists p,
    constructor env VUndefined
    = Normal {| databaseConfig :=
                  {| host := host (environment_config env);
                     port := p;
                     user := user (environment_config env);
                     password := password (environment_config env);
                     database := database (environment_config env) |};
                tableName := "SESSIONS";
                columnNames := schemaDefaults.2 |}
    /\ (DATABASE_PORT env = None -> p = Num 3306)
    /\ (forall x, DATABASE_PORT env = Some x -> ascii_text x = true ->
                  parseInt_string x = NaN -> p = Num 3306)
    /\ (forall x z, DATABASE_PORT env = Some x -> parseInt_string x = Num z ->
                    Z.abs z < 2 ^ 53 ->
                    p = Num (if z =? 0 then 3306 else z)).
Proof.
  exists (port (environment_config env)). split.
  - unfold constructor, resolve. cbn [optional_member databaseDefaults host port user
                                      password database schemaDefaults fst].
    rewrite !or_env, or_env_port. unfold environment_config.
    destruct (truthy (VNum (parseInt (env_value (DATABASE_PORT env))))); reflexivity.
  - unfold environment_config. cbn [port databaseDefaults].
    repeat apply conj.
    + intros ->. reflexivity.
    + intros x -> _ Hx. cbn [env_value parseInt]. rewrite Hx. reflexivity.
    + intros x z -> Hx _. cbn [env_value parseInt]. rewrite Hx. cbn [truthy parseInt].
      destruct (z =? 0); reflexivity.
Qed.

(** X20. A set, non-empty environment variable wins over the option of
    the same entry, whatever that option is: in every store that was
    built, host, user, password and database are their environment
    variables, and the port is the integer DATABASE_PORT starts with
    when that is not 0 (and is small enough to be an exact number). *)
Theorem environment_overrides_options env configOptions s :
  constructor env configOptions = Normal s ->
  (forall h, HOST env = Some h -> h <> "" -> host (databaseConfig s) = h)
  /\ (forall u, DATABASE_USER env = Some u -> u <> "" -> user (databaseConfig s) = u)
  /\ (forall x, DATABASE_PASSWORD env = Some x -> x <> "" ->
                password (databaseConfig s) = x)
  /\ (forall d, DATABASE_NAME env = Some d -> d <> "" -> database (databaseConfig s) = d)
  /\ (forall p z, DATABASE_PORT env = Some p -> parseInt_string p = Num z ->
                  z <> 0 -> Z.abs z < 2 ^ 53 ->
                  port (databaseConfig s) = Num z).
Proof.
  intros H. unfold constructor, sanitizeConfiguration in H.
  repeat match type of H with
         | context [if ?b then _ else _] => destruct b; try discriminate
         end.
  destruct (check_columns _); [|discriminate]. injection H as <-.
  cbn [databaseConfig host user password database port resolve
       raw_host raw_user raw_password raw_database raw_port].
  assert (Hor : forall x v h, x = Some h -> h <> "" ->
                  as_string (JS.or (env_value x) v) = h).
  { intros x v h -> Hh. unfold JS.or. cbn [env_value truthy].
    destruct (String.eqb h "") eqn:E; [apply String.eqb_eq in E; contradiction|].
    reflexivity. }
  repeat split; try (intros; apply Hor; assumption).
  intros p z -> Hp Hz _. unfold JS.or. cbn [env_value parseInt]. rewrite Hp.
  cbn [truthy]. destruct (z =? 0) eqn:E; [lia|]. reflexivity.
Qed.

Lemma environment_overrides_options_witness :
  exists s,
    constructor (mkEnv (Some "db.example.org") (Some "3307") None None None)
                (VObj [("host", VStr "elsewhere"); ("port", VNum (Num 1))])
    = Normal s
    /\ host (databaseConfig s) = "db.example.org"
    /\ port (databaseConfig s) = Num 3307.
Proof.
  eexists. split; [reflexivity|].
  destruct (environment_overrides_options
              (mkEnv (Some "db.example.org") (Some "3307") None None None)
              (VObj [("host", VStr "elsewhere"); ("port", VNum (Num 1))]) _ eq_refl)
    as (Hh & _ & _ & _ & Hp).
  split.
  - apply Hh; [reflexivity | discriminate].
  - apply (Hp "3307"); [reflexivity | reflexivity | discriminate | reflexivity].
Defined.

(** X21. An option that is falsy (the empty string, 0, [null],
    [false], or not given) counts as absent, whatever its type: options
    all of whose entries are falsy build the same store, or raise the
    same error, as no options at all. *)
Theorem falsy_options_count_as_absent env configOptions :
  (forall k, k <> "columnNames" -> truthy (optional_member configOptions k) = false) ->
  (forall k, truthy (optional_member (optional_member configOptions "columnNames") k)
             = false) ->
  resolve env configOptions = resolve env VUndefined
  /\ constructor env configOptions = constructor env VUndefined.
Proof.
  intros Htop Hcol.
  assert (Hor : forall v d, truthy v = false -> JS.or v d = JS.or VUndefined d)
    by (intros v d Hv; unfold JS.or; rewrite Hv; reflexivity).
  assert (H : resolve env configOptions = resolve env VUndefined).
  { unfold resolve.
    rewrite (Hor (optional_member configOptions "host")) by (apply Htop; discriminate).
    rewrite (Hor (optional_member configOptions "port")) by (apply Htop; discriminate).
    rewrite (Hor (optional_member configOptions "user")) by (apply Htop; discriminate).
    rewrite (Hor (optional_member configOptions "password")) by (apply Htop; discriminate).
    rewrite (Hor (optional_member configOptions "database")) by (apply Htop; discriminate).
    rewrite (Hor (optional_member configOptions "tableName")) by (apply Htop; discriminate).
    rewrite !(Hor (optional_member (optional_member configOptions "columnNames") _))
      by apply Hcol.
    reflexivity. }
  split; [exact H|]. unfold constructor. rewrite H. reflexivity.
Qed.

Lemma falsy_options_count_as_absent_witness :
  constructor no_env
    (VObj [("host", VStr ""); ("port", VNum (Num 0)); ("tableName", VNull);
           ("columnNames", VObj [("data", VStr ""); ("user", VBool false)])])
  = constructor no_env VUndefined.
Proof.
  refine (proj2 (falsy_options_count_as_absent no_env
                   (VObj [("host", VStr ""); ("port", VNum (Num 0)); ("tableName", VNull);
                          ("columnNames",
                           VObj [("data", VStr ""); ("user", VBool false)])]) _ _)).
  - intros k Hk. cbn [optional_member assoc].
    destruct (String.eqb "host" k); [reflexivity|].
    destruct (String.eqb "port" k); [reflexivity|].
    destruct (String.eqb "tableName" k); [reflexivity|].
    destruct (String.eqb "columnNames" k) eqn:E;
      [apply String.eqb_eq in E; congruence | reflexivity].
  - intros k. cbn [optional_member assoc String.eqb Ascii.eqb Bool.eqb default]. unfold id.
    cbn [optional_member assoc].
    destruct (String.eqb "data" k); [reflexivity|].
    destruct (String.eqb "user" k); reflexivity.
Defined.

(** X22. The port option has no range check: while DATABASE_PORT
    selects no port, every integer other than 0 given as the port
    option (and small enough to be an exact number), negative or beyond
    65535, is accepted as it is. *)
Theorem port_has_no_range_check env z :
  truthy (VNum (parseInt (env_value (DATABASE_PORT env)))) = false ->
  z <> 0 ->
  Z.abs z < 2 ^ 53 ->
  exists s, constructor env (VObj [("port", VNum (Num z))]) = Normal s
            /\ port (databaseConfig s) = Num z.
Proof.
  intros Henv Hz _. eexists.
  unfold constructor, resolve.
  cbn [optional_member assoc String.eqb Ascii.eqb Bool.eqb default databaseDefaults
       host port user password database schemaDefaults fst].
  unfold id. rewrite !or_env.
  unfold sanitizeConfiguration, JS.or.
  cbn [raw_host raw_port raw_user raw_password raw_database raw_tableName].
  rewrite Henv. cbn [truthy]. destruct (z =? 0) eqn:E; [lia|]. cbn [negb].
  split; reflexivity.
Qed.

Lemma port_has_no_range_check_witness :
  exists s, constructor no_env (VObj [("port", VNum (Num 70000))]) = Normal s
            /\ port (databaseConfig s) = Num 70000.
Proof. apply (port_has_no_range_check no_env 70000); [reflexivity | lia | reflexivity]. Defined.

(** X23. A table name option that is truthy and not a string is
    rejected with a message that does not tell its type: the message
    ends in "Received: undefined" whatever was received. *)
Theorem table_name_error_names_no_type env v :
  truthy v = true ->
  is_string v = false ->
  constructor env (VObj [("tableName", v)])
  = Throw (Error "The session table name must be a string. Received: undefined").
Proof.
  intros Ht Hs. unfold constructor, resolve.
  cbn [optional_member assoc String.eqb Ascii.eqb Bool.eqb default databaseDefaults
       host port user password database schemaDefaults fst].
  unfold id. rewrite !or_env, or_env_port.
  unfold sanitizeConfiguration.
  cbn [raw_host raw_port raw_user raw_password raw_database raw_tableName
       is_string typeof String.eqb Ascii.eqb Bool.eqb negb].
  unfold JS.or at 1. rewrite Ht, Hs. reflexivity.
Qed.

Lemma table_name_error_names_no_type_witness :
  constructor no_env (VObj [("tableName", VNum (Num 5))])
  = Throw (Error "The session table name must be a string. Received: undefined").
Proof. apply table_name_error_names_no_type; reflexivity. Defined.

(** X24. Column names are only checked to be strings: two columns may
    be given the same name.  The store is built, and [createTable] then
    fails on the server; its continuation gets the error and no table
    is created. *)
Theorem equal_column_names_are_accepted env x w f :
  x <> "" ->
  reachable w = true ->
  tables w !! "SESSIONS" = None ->
  let s := {| databaseConfig := environment_config env;
              tableName := "SESSIONS";
              columnNames := {| c_sessionID := x; c_expires := x;
                                c_data := "DATA"; c_user := "USER" |} |} in
  constructor env (VObj [("columnNames",
                          VObj [("sessionID", VStr x); ("expires", VStr x)])])
  = Normal s
  /\ called (after (createTable s (VFun f)) w)
     = called w ++ [(f, err ER_DUP_FIELDNAME, omitted)]
  /\ tables (after (createTable s (VFun f)) w) = tables w.
Proof.
  intros Hx Hr Hnone. cbv zeta. split.
  - unfold constructor, resolve.
    cbn [optional_member assoc String.eqb Ascii.eqb Bool.eqb default databaseDefaults
         host port user password database schemaDefaults fst].
    unfold id. rewrite !or_env, or_env_port.
    cbn [optional_member assoc String.eqb Ascii.eqb Bool.eqb default]. unfold id.
    unfold JS.or. cbn [truthy].
    destruct (String.eqb x "") eqn:E; [apply String.eqb_eq in E; contradiction|].
    cbn [negb]. reflexivity.
  - unfold after, createTable. cbn [tableName columnNames c_sessionID c_expires c_data c_user].
    match goal with
    | |- context [query ?q0 _] => set (q := q0)
    end.
    assert (Ha : answer w q = (inl ER_DUP_FIELDNAME, tables w)).
    { unfold answer, q, exec. rewrite Hr, Hnone.
      unfold distinct_columns. rewrite bool_decide_false; [reflexivity|].
      intros Hnd. apply NoDup_cons in Hnd as [Hnotin _]. apply Hnotin. left. }
    rewrite (run_query q _ w (VFun f) (err ER_DUP_FIELDNAME) omitted)
      by (intros w'; rewrite Ha; reflexivity).
    rewrite Ha. cbn [snd]. split; [apply called_settled | reflexivity].
Qed.

Lemma equal_column_names_are_accepted_witness :
  exists s,
    constructor no_env (VObj [("columnNames",
                               VObj [("sessionID", VStr "ID"); ("expires", VStr "ID")])])
    = Normal s
    /\ called (after (createTable s (VFun 1)) (mkWorld true ∅ [] None []))
       = [(1%nat, err ER_DUP_FIELDNAME, omitted)].
Proof.
  destruct (equal_column_names_are_accepted no_env "ID" (mkWorld true ∅ [] None []) 1)
    as (Hs & Hc & _); [discriminate | reflexivity | reflexivity |].
  eexists. split; [exact Hs | exact Hc].
Defined.

(** *** Users and expiry as the columns hold them *)

(** X25. Sessions stored without a passport user all carry the empty
    string as their user, so [destroyUser] of the empty string removes
    them all, together with nothing else. *)
Theorem destroyUser_of_the_empty_string s w rows sessionID session f g e d :
  serves s w rows ->
  rows !! sessionID = None ->
  expiry session = Some e ->
  JSON_stringify session = Some d ->
  optional_member (optional_member session "passport") "user" = VUndefined ->
  let w1 := after (set s sessionID session (VFun f)) w in
  let w2 := after (destroyUser s "" (VFun g)) w1 in
  serves s w1 (<[sessionID := mkRow e d ""]> rows)
  /\ called w2 = called w ++ [(f, err_null, omitted); (g, err_undefined, omitted)]
  /\ exists rows2,
       serves s w2 rows2
       /\ rows2 !! sessionID = None
       /\ forall k r, rows2 !! k = Some r <-> rows !! k = Some r /\ r_user r <> "".
Proof.
  intros Hs Hfresh He Hd Hu. cbv zeta. unfold after.
  assert (Hown : owner session = inr "") by (unfold owner; rewrite Hu; reflexivity).
  rewrite (set_run s w rows sessionID session (VFun f) e "" d Hs He Hown Hd), Hfresh.
  cbn [snd].
  set (w1 := settled w _ _ _ _ _).
  assert (Hs1 : serves s w1 (<[sessionID := mkRow e d ""]> rows))
    by (apply (serves_settled _ _ _ rows); exact Hs).
  rewrite (destroyUser_run s w1 _ "" _ Hs1). cbn [snd].
  split; [exact Hs1|]. split.
  - subst w1. rewrite !called_settled, <- app_assoc. reflexivity.
  - eexists. split; [apply (serves_settled _ _ _ (<[sessionID := mkRow e d ""]> rows));
                     exact Hs1|].
    split.
    + apply map_lookup_filter_None. right. intros r Hr.
      rewrite lookup_insert_eq in Hr. injection Hr as <-. cbn [snd r_user]. auto.
    + intros k r. rewrite map_lookup_filter_Some. cbn [snd]. split.
      * intros [Hr Hne]. apply lookup_insert_Some in Hr as [[_ <-]|[_ Hr]];
          [cbn [r_user] in Hne; contradiction | auto].
      * intros [Hr Hne]. split; [|exact Hne]. apply lookup_insert_Some. right.
        split; [congruence | exact Hr].
Qed.

Lemma destroyUser_of_the_empty_string_witness :
  let w1 := after (set sample_settings "s1" session_anonymous (VFun 1)) sample_world in
  let w2 := after (destroyUser sample_settings "" (VFun 2)) w1 in
  exists rows2, serves sample_settings w2 rows2 /\ rows2 !! "s1" = None.
Proof.
  destruct (destroyUser_of_the_empty_string sample_settings sample_world ∅ "s1"
              session_anonymous 1 2 1700000010000
              (default NotJson (JSON_stringify session_anonymous)))
    as (_ & _ & rows2 & Hs & Hnone & _);
    [apply serves_sample | reflexivity | vm_compute; reflexivity
    | reflexivity | reflexivity |].
  exists rows2. split; [exact Hs | exact Hnone].
Defined.

(** X26. The expires column holds whole seconds when the cookie holds
    a Date: [Date.parse] of a Date drops its milliseconds.  A session
    whose cookie expires at [t] is therefore stored as expiring at the
    start of that second, and a [get] later in that second, at a time
    when the cookie has not expired, finds nothing. *)
Theorem sessions_expire_at_the_start_of_the_second
        s w rows sessionID fields cs t u f g now :
  serves s w rows ->
  rows !! sessionID = None ->
  assoc "cookie" fields = Some (VObj cs) ->
  assoc "expires" cs = Some (VDate (Some t)) ->
  owner (VObj fields) = inr u ->
  1000 * (t / 1000) < now <= t ->
  let w1 := after (set s sessionID (VObj fields) (VFun f)) w in
  expiry (VObj fields) = Some (1000 * (t / 1000))
  /\ (exists d, serves s w1 (<[sessionID := mkRow (1000 * (t / 1000)) d u]> rows))
  /\ called w1 = called w ++ [(f, err_null, omitted)]
  /\ called (after (get s sessionID (VFun g) now) w1)
     = called w1 ++ [(g, err_null, omitted)].
Proof.
  intros Hs Hfresh Hc He Hu Hnow. cbv zeta. unfold after.
  pose proof (expiry_of_date fields cs t Hc He) as Hexp.
  destruct (expiry_stringify _ _ Hexp) as (d & Hd).
  rewrite (set_run s w rows sessionID _ (VFun f) _ u d Hs Hexp Hu Hd), Hfresh.
  cbn [snd].
  set (w1 := settled w _ _ _ _ _).
  assert (Hs1 : serves s w1 (<[sessionID := mkRow (1000 * (t / 1000)) d u]> rows))
    by (apply (serves_settled _ _ _ rows); exact Hs).
  split; [exact Hexp|]. split; [eauto|]. split; [apply called_settled|].
  rewrite (get_run_miss s w1 _ sessionID (VFun g) now Hs1).
  - cbn [snd]. apply called_settled.
  - intros r Hr. rewrite lookup_insert_eq in Hr. injection Hr as <-.
    cbn [r_expires]. lia.
Qed.

Lemma sessions_expire_at_the_start_of_the_second_witness :
  called (after (get sample_settings "abc" (VFun 2) 1700000010050)
            (after (set sample_settings "abc" session_A (VFun 1)) sample_world))
  = [(1%nat, err_null, omitted); (2%nat, err_null, omitted)].
Proof.
  destruct (sessions_expire_at_the_start_of_the_second sample_settings sample_world ∅
              "abc"
              [ ("cookie",
                 VObj [ ("originalMaxAge", VNum (Num 10000));
                        ("expires", VDate (Some 1700000010123));
                        ("httpOnly", VBool true);
                        ("path", VStr "/") ]);
                ("passport", VObj [ ("user", VStr "ann@example.org") ]) ]
              [ ("originalMaxAge", VNum (Num 10000));
                ("expires", VDate (Some 1700000010123));
                ("httpOnly", VBool true);
                ("path", VStr "/") ]
              1700000010123 "ann@example.org" 1 2 1700000010050)
    as (_ & _ & Hc & Hget);
    [apply serves_sample | reflexivity | reflexivity | reflexivity | reflexivity
    | vm_compute; split; [reflexivity | discriminate] |].
  unfold session_A. rewrite Hget, Hc. reflexivity.
Defined.

(** *** What comes back differs from what was stored *)

(** X27. Only [cookie.expires] comes back as a Date.  A Date kept
    anywhere else at the top of a session comes back from [get] as its
    ISO text, so the payload handed over differs from the one set. *)
Theorem other_dates_come_back_as_text s w rows sessionID fields k t f g e u now :
  c_data (columnNames s) = "DATA" ->
  serves s w rows ->
  rows !! sessionID = None ->
  expiry (VObj fields) = Some e ->
  owner (VObj fields) = inr u ->
  now <= e ->
  k <> "cookie" ->
  assoc k fields = Some (VDate (Some t)) ->
  let w1 := after (set s sessionID (VObj fields) (VFun f)) w in
  exists v,
    called (after (get s sessionID (VFun g) now) w1)
    = called w1 ++ [(g, err_null, payload v)]
    /\ member v k = Normal (VStr (Calendar.toISOString t))
    /\ v <> VObj fields.
Proof.
  intros Hcol Hs Hfresh He Hu Hnow Hk Hdate. cbv zeta. unfold after.
  destruct (deserialize_image fields e He) as (cookie' & Hback).
  set (image := map (fun kv : string * json => (kv.1, revive kv.2))
                    (omap (fun kv : string * value => pair kv.1 <$> serialize kv.2)
                          fields)) in *.
  set (d := JsonText (JObj (omap (fun kv : string * value => pair kv.1 <$> serialize kv.2)
                                 fields))).
  assert (Hd : JSON_stringify (VObj fields) = Some d) by reflexivity.
  rewrite Hd in Hback.
  rewrite (set_run s w rows sessionID _ (VFun f) e u d Hs He Hu Hd), Hfresh.
  cbn [snd].
  set (w1 := settled w _ _ _ _ _).
  assert (Hs1 : serves s w1 (<[sessionID := mkRow e d u]> rows))
    by (apply (serves_settled _ _ _ rows); exact Hs).
  exists (VObj (assign "cookie" cookie' image)).
  rewrite (get_run_hit s w1 _ sessionID (VFun g) now (mkRow e d u)
             (VObj (assign "cookie" cookie' image)) Hs1).
  - cbn [snd]. split; [apply called_settled|].
    assert (Hm : member (VObj (assign "cookie" cookie' image)) k
                 = Normal (VStr (Calendar.toISOString t))).
    { cbn [member]. rewrite assoc_assign_ne by exact Hk. unfold image.
      rewrite (assoc_serialized k fields (VDate (Some t))
                 (JStr (Calendar.toISOString t)) Hdate eq_refl).
      reflexivity. }
    split; [exact Hm|].
    intros Heq. rewrite Heq in Hm. cbn [member] in Hm. rewrite Hdate in Hm. discriminate.
  - apply lookup_insert_eq.
  - exact Hnow.
  - rewrite field_DATA_default by exact Hcol. exact Hback.
Qed.

Lemma other_dates_come_back_as_text_witness :
  exists v,
    called (after (get sample_settings "abc" (VFun 2) 1700000000000)
              (after (set sample_settings "abc"
                        (VObj [ ("cookie", VObj [ ("expires", VDate (Some 1700000010123)) ]);
                                ("lastSeen", VDate (Some 1700000000456)) ])
                        (VFun 1)) sample_world))
    = [(1%nat, err_null, omitted); (2%nat, err_null, payload v)]
    /\ member v "lastSeen" = Normal (VStr "2023-11-14T22:13:20.456Z").
Proof.
  destruct (other_dates_come_back_as_text sample_settings sample_world ∅ "abc"
              [ ("cookie", VObj [ ("expires", VDate (Some 1700000010123)) ]);
                ("lastSeen", VDate (Some 1700000000456)) ]
              "lastSeen" 1700000000456 1 2 1700000010000 "" 1700000000000)
    as (v & Hc & Hm & _);
    [reflexivity | apply serves_sample | reflexivity | vm_compute; reflexivity
    | reflexivity | lia | discriminate | reflexivity |].
  exists v. split; [exact Hc | exact Hm].
Defined.

(** *** The variant in index.js *)

(** X28. [get] of index.js has no expiry filter and does not restore
    the Date: whatever the expires of the row, its continuation gets no
    error and the parsed document, with [cookie.expires] as stored. *)
Theorem IndexJs_get_hands_over_expired_sessions s sessionID db rows r doc :
  c_data (columnNames s) = "DATA" ->
  db !! tableName s = Some (mkTable (columnNames s) rows) ->
  rows !! sessionID = Some r ->
  r_data r = JsonText doc ->
  IndexJs.get_answer s sessionID db = Normal (err_null, payload (revive doc)).
Proof.
  intros Hcol Ht Hrow Hdoc. unfold IndexJs.get_answer. cbn [IndexJs.exec'].
  rewrite Ht. cbn [t_columns t_rows]. rewrite !String.eqb_refl, Hrow. cbn [andb].
  rewrite field_DATA_default by exact Hcol. rewrite Hdoc. reflexivity.
Qed.

Lemma IndexJs_get_hands_over_expired_sessions_witness :
  IndexJs.get_answer sample_settings "xyz" (tables stale_world)
  = Normal (err_null, payload (VObj [("cookie", VObj [])])).
Proof.
  apply (IndexJs_get_hands_over_expired_sessions sample_settings "xyz"
           (tables stale_world) stale_rows
           (mkRow 1699999999000 (JsonText (JObj [("cookie", JObj [])])) "")
           (JObj [("cookie", JObj [])]));
    reflexivity.
Defined.
